(** * The ticket resolution pipeline of agentic-customer-support

    A shallow embedding of the classifier, knowledge, escalation and
    resolution agents and of the workflow that sequences them
    (backend/agents/*.py, backend/workflows/support_workflow.py), with the
    properties the specification states about them, and of the endpoint
    that runs the workflow (backend/main.py), the escalation report and the
    text preparation of backend/services/embedding_service.py.

    Conventions of the embedding.
    - Python floats are idealised as rationals ([Q]); equalities between
      computed scores are stated with [==].
    - Text is ASCII ([string]); [str.lower] maps [A-Z] to [a-z].
    - A raised exception is [inl msg] where [msg] is [str(e)]; a returned
      value is [inr v].  [try: ... except Exception as e:] is [catch].
    - A JSON object returned by the language model is a record of optional
      fields, each at the type the prompt asks for; [None] is a missing key
      and [dict.get(key, default)] is [from_option].
    - External collaborators (language model, search index, embedding
      backend, clock) are interfaces, declared as classes. *)

From Stdlib Require Import String Ascii List QArith Qminmax Qround Lqa Lia Bool.
From Stdlib Require Import Sorted Permutation PeanoNat.
From ExtLib Require Import Structures.Monad Structures.MonadExc.
From ExtLib Require Import Data.Monads.EitherMonad.
Import ListNotations MonadNotation.

Local Open Scope string_scope.
Local Open Scope monad_scope.
Local Open Scope Q_scope.

(** ** Exceptions *)

Definition exc : Type -> Type := sum string.

(** [dict.get(key, default)] on a key that may be missing. *)
Definition from_option {A} (default : A) (o : option A) : A :=
  match o with Some v => v | None => default end.

(** ** Python text primitives *)

Module PyStr.

Definition lower_ascii (c : ascii) : ascii :=
  let n := nat_of_ascii c in
  if (65 <=? n)%nat && (n <=? 90)%nat then ascii_of_nat (n + 32) else c.

(** [s.lower()] *)
Fixpoint lower (s : string) : string :=
  match s with
  | EmptyString => EmptyString
  | String c s' => String (lower_ascii c) (lower s')
  end.

(** [s.startswith(p)] *)
Definition startswith (s p : string) : bool := String.prefix p s.

(** [needle in hay] *)
Fixpoint contains (needle hay : string) : bool :=
  String.prefix needle hay ||
  match hay with
  | EmptyString => false
  | String _ hay' => contains needle hay'
  end.

(** [s.endswith(p)] *)
Fixpoint endswith (s p : string) : bool :=
  String.eqb s p ||
  match s with
  | EmptyString => false
  | String _ s' => endswith s' p
  end.

(** [s.startswith((p1, p2, ...))] and [s.endswith((p1, p2, ...))] *)
Definition startswith_any (s : string) (ps : list string) : bool :=
  existsb (startswith s) ps.
Definition endswith_any (s : string) (ps : list string) : bool :=
  existsb (endswith s) ps.

(** [any(k in text for k in keywords)] *)
Definition any_in (keywords : list string) (text : string) : bool :=
  existsb (fun k => contains k text) keywords.

(** [sum(1 for k in keywords if k in text)] *)
Definition count_in (keywords : list string) (text : string) : nat :=
  List.length (filter (fun k => contains k text) keywords).

(** [x in [a, b, ...]] for strings *)
Definition mem (x : string) (l : list string) : bool :=
  existsb (String.eqb x) l.

(** Truthiness of a string: non-empty. *)
Definition truthy (s : string) : bool :=
  match s with EmptyString => false | _ => true end.

(** [sep.join(parts)] *)
Definition join (sep : string) (parts : list string) : string :=
  String.concat sep parts.

End PyStr.

(** ** backend/models/schemas.py *)

Inductive TicketPriority := LOW | MEDIUM | HIGH | CRITICAL.
Inductive TicketCategory := TECHNICAL | BILLING | GENERAL | PRODUCT | ACCOUNT.

Definition priority_value (p : TicketPriority) : string :=
  match p with
  | LOW => "low" | MEDIUM => "medium" | HIGH => "high" | CRITICAL => "critical"
  end.

Definition category_value (c : TicketCategory) : string :=
  match c with
  | TECHNICAL => "technical" | BILLING => "billing" | GENERAL => "general"
  | PRODUCT => "product" | ACCOUNT => "account"
  end.

(** [TicketPriority(s)]: lookup by value, [ValueError] when there is none. *)
Definition TicketPriority_of (s : string) : exc TicketPriority :=
  if s =? "low" then ret LOW
  else if s =? "medium" then ret MEDIUM
  else if s =? "high" then ret HIGH
  else if s =? "critical" then ret CRITICAL
  else raise ("'" ++ s ++ "' is not a valid TicketPriority").

(** [TicketCategory(s)] *)
Definition TicketCategory_of (s : string) : exc TicketCategory :=
  if s =? "technical" then ret TECHNICAL
  else if s =? "billing" then ret BILLING
  else if s =? "general" then ret GENERAL
  else if s =? "product" then ret PRODUCT
  else if s =? "account" then ret ACCOUNT
  else raise ("'" ++ s ++ "' is not a valid TicketCategory").

Record CustomerTicket := {
  ticket_id : option string;
  customer_id : string;
  subject : string;
  message : string;
  customer_name : option string
}.

Record ClassificationResult := {
  category : TicketCategory;
  priority : TicketPriority;
  confidence : Q;
  reasoning : string
}.

Definition Qleb (a b : Q) : bool := Qle_bool a b.
Definition Qltb (a b : Q) : bool := negb (Qle_bool b a).

(** The constructor of the pydantic model: [confidence] is declared
    [Field(ge=0.0, le=1.0)], so a value outside [0, 1] is a validation
    error.  The text of that error is pydantic's, cut to its first line. *)
Definition validation_error_text : string :=
  "1 validation error for ClassificationResult".

Definition new_ClassificationResult (c : TicketCategory) (p : TicketPriority)
    (conf : Q) (why : string) : exc ClassificationResult :=
  if Qleb 0 conf && Qleb conf 1
  then ret {| category := c; priority := p; confidence := conf; reasoning := why |}
  else raise validation_error_text.

(** ** config/settings.py *)

Definition HIGH_PRIORITY_KEYWORDS : list string :=
  ["urgent"; "critical"; "down"; "broken"; "error"; "bug";
   "payment"; "billing"; "security"; "hack"; "breach"].

Definition ESCALATION_KEYWORDS : list string :=
  ["manager"; "supervisor"; "complain"; "angry"; "frustrated";
   "legal"; "lawsuit"; "refund"; "cancel"; "unsubscribe"].

(** ** backend/services/llm_service.py: the advisory interface *)

(** The JSON object of [llm_service.classify_ticket]. *)
Record LlmClassification := {
  llm_category : option string;
  llm_priority : option string;
  llm_confidence : option Q;
  llm_reasoning : option string
}.

(** The JSON object of [llm_service.check_escalation]; also the shape of
    the dictionary the rule engine returns. *)
Record DecisionDict := {
  d_should_escalate : option bool;
  d_reason : option string;
  d_escalation_type : option string;
  d_priority_level : option string;
  d_confidence : option Q
}.

Record TicketData := {
  td_subject : string;
  td_message : string;
  td_category : string;
  td_priority : string
}.

Record ArticleData := {
  ad_title : string;
  ad_content : string;
  ad_score : Q
}.

Class LLMService := {
  llm_classify_ticket : string -> string -> exc LlmClassification;
  llm_check_escalation : TicketData -> exc DecisionDict;
  llm_generate_resolution : TicketData -> list ArticleData -> exc string
}.

(** ** backend/agents/classifier_agent.py *)

Record ClassifierAgent := {
  high_priority_keywords : list string
}.

Definition classifier_agent : ClassifierAgent :=
  {| high_priority_keywords := HIGH_PRIORITY_KEYWORDS |}.

(** The dictionary [_apply_classification_rules] returns. *)
Record ClassificationDict := {
  cd_category : string;
  cd_priority : string;
  cd_confidence : Q;
  cd_reasoning : string
}.

(** [f"{ticket.subject} {ticket.message}".lower()] *)
Definition full_text (ticket : CustomerTicket) : string :=
  PyStr.lower (subject ticket ++ " " ++ message ticket).

Definition _priority_level (p : string) : nat :=
  let p := PyStr.lower p in
  if p =? "low" then 1
  else if p =? "medium" then 2
  else if p =? "high" then 3
  else if p =? "critical" then 4
  else 2.

Record PriorityRule := {
  keywords : list string;
  min_priority : string
}.

Definition category_priority_rules (cat : string) : option PriorityRule :=
  if cat =? "billing" then
    Some {| keywords := ["payment"; "charge"; "bill"; "invoice"];
            min_priority := "medium" |}
  else if cat =? "technical" then
    Some {| keywords := ["bug"; "error"; "crash"; "broken"];
            min_priority := "medium" |}
  else None.

Definition security_keywords : list string :=
  ["hack"; "breach"; "security"; "fraud"; "phishing"].

(** The local variables of [_apply_classification_rules] after the
    "high priority keywords" block. *)
Definition urgent_keyword_step (self : ClassifierAgent) (ticket : CustomerTicket)
    (llm_result : LlmClassification) : ClassificationDict :=
  let category := from_option "general" (llm_category llm_result) in
  let priority := from_option "medium" (llm_priority llm_result) in
  let confidence := from_option 0.5 (llm_confidence llm_result) in
  let reasoning := from_option "" (llm_reasoning llm_result) in
  let high_priority_found :=
    PyStr.any_in (map PyStr.lower (high_priority_keywords self)) (full_text ticket) in
  if high_priority_found && PyStr.mem priority ["low"; "medium"] then
    {| cd_category := category;
       cd_priority := "high";
       cd_confidence := Qmin (confidence + 0.2) 1.0;
       cd_reasoning := reasoning ++ " (Elevated due to urgent keywords)" |}
  else
    {| cd_category := category; cd_priority := priority;
       cd_confidence := confidence; cd_reasoning := reasoning |}.

(** ... after the "category-specific priority adjustments" block. *)
Definition category_rule_step (ticket : CustomerTicket)
    (v : ClassificationDict) : ClassificationDict :=
  match category_priority_rules (cd_category v) with
  | Some rules =>
      let keyword_found := PyStr.any_in (keywords rules) (full_text ticket) in
      if keyword_found &&
         (_priority_level (cd_priority v) <? _priority_level (min_priority rules))%nat
      then
        {| cd_category := cd_category v;
           cd_priority := min_priority rules;
           cd_confidence := cd_confidence v;
           cd_reasoning :=
             cd_reasoning v ++ " (Elevated for " ++ cd_category v ++ " category)" |}
      else v
  | None => v
  end.

(** ... after the "security/breach detection" block. *)
Definition security_step (ticket : CustomerTicket)
    (v : ClassificationDict) : ClassificationDict :=
  if PyStr.any_in security_keywords (full_text ticket) then
    {| cd_category := "technical";
       cd_priority := "critical";
       cd_confidence := Qmin (cd_confidence v + 0.3) 1.0;
       cd_reasoning := cd_reasoning v ++ " (Security issue detected)" |}
  else v.

Definition _apply_classification_rules (self : ClassifierAgent)
    (ticket : CustomerTicket) (llm_result : LlmClassification)
    : ClassificationDict :=
  security_step ticket
    (category_rule_step ticket (urgent_keyword_step self ticket llm_result)).

(** The construction of the result object from the adjusted dictionary:
    [ClassificationResult(category=TicketCategory(...), priority=TicketPriority(...), ...)]. *)
Definition classification_of_dict (adjusted_result : ClassificationDict)
    : exc ClassificationResult :=
  c <- TicketCategory_of (cd_category adjusted_result) ;;
  p <- TicketPriority_of (cd_priority adjusted_result) ;;
  new_ClassificationResult c p (cd_confidence adjusted_result)
                           (cd_reasoning adjusted_result).

(** The fallback of [classify_ticket]. *)
Definition fallback_classification (e : string) : ClassificationResult :=
  {| category := GENERAL;
     priority := MEDIUM;
     confidence := 0.3;
     reasoning := "Classification failed: " ++ e |}.

Section Classifier.
Context `{llm : LLMService}.

Definition classify_ticket (self : ClassifierAgent) (ticket : CustomerTicket)
    : exc ClassificationResult :=
  catch
    (llm_result <- llm_classify_ticket (subject ticket) (message ticket) ;;
     let adjusted_result := _apply_classification_rules self ticket llm_result in
     classification_of_dict adjusted_result)
    (fun e => ret (fallback_classification e)).

End Classifier.

(** ** More of backend/models/schemas.py *)

Record KnowledgeArticle := {
  article_id : string;
  title : string;
  content : string;
  article_category : TicketCategory;
  tags : list string;
  article_created_at : string;
  article_updated_at : option string;
  resolution_count : Z;
  rating : option Q
}.

Record SearchResult := {
  article : KnowledgeArticle;
  score : Q;
  relevance : string
}.

Record EscalationDecision := {
  should_escalate : bool;
  reason : string;
  escalation_type : option string;
  priority_level : string;
  e_confidence : Q
}.

Record Resolution := {
  r_ticket_id : string;
  response : string;
  r_confidence : Q;
  knowledge_articles_used : list string;
  created_at : string;
  agent_type : string
}.

(** ** backend/agents/escalation_agent.py *)

Record EscalationAgent := {
  escalation_keywords : list string
}.

Definition escalation_agent : EscalationAgent :=
  {| escalation_keywords := ESCALATION_KEYWORDS |}.

(** The local variables of [_apply_escalation_rules]. *)
Record RuleLocals := {
  l_should_escalate : bool;
  l_escalation_reasons : list string;
  l_escalation_type : string;
  l_priority_level : string
}.

Definition rule_locals_init : RuleLocals :=
  {| l_should_escalate := false;
     l_escalation_reasons := [];
     l_escalation_type := "general";
     l_priority_level := "standard" |}.

(** Rule 1: critical priority tickets. *)
Definition rule1 (classification : ClassificationResult) (v : RuleLocals) : RuleLocals :=
  if priority_value (priority classification) =? "critical" then
    {| l_should_escalate := true;
       l_escalation_reasons := (l_escalation_reasons v ++ ["Critical priority ticket"])%list;
       l_escalation_type := "technical";
       l_priority_level := "urgent" |}
  else v.

(** Rule 2: escalation keywords present. *)
Definition rule2 (self : EscalationAgent) (text : string) (v : RuleLocals) : RuleLocals :=
  if PyStr.any_in (map PyStr.lower (escalation_keywords self)) text then
    {| l_should_escalate := true;
       l_escalation_reasons :=
         (l_escalation_reasons v ++ ["Customer requesting escalation"])%list;
       l_escalation_type := "management";
       l_priority_level := l_priority_level v |}
  else v.

Definition security_legal_keywords : list string :=
  ["legal"; "lawsuit"; "lawyer"; "attorney"; "court";
   "hack"; "breach"; "fraud"; "scam"; "theft"].

(** Rule 3: security/legal issues. *)
Definition rule3 (text : string) (v : RuleLocals) : RuleLocals :=
  if PyStr.any_in security_legal_keywords text then
    {| l_should_escalate := true;
       l_escalation_reasons := (l_escalation_reasons v ++ ["Security or legal concern"])%list;
       l_escalation_type :=
         if PyStr.any_in ["legal"; "lawsuit"; "lawyer"] text
         then "legal" else "security";
       l_priority_level := "urgent" |}
  else v.

(** Rule 4: complex technical issues without a good knowledge base match. *)
Definition rule4 (classification : ClassificationResult)
    (search_results : list SearchResult) (v : RuleLocals) : RuleLocals :=
  if (category_value (category classification) =? "technical")
     && PyStr.mem (priority_value (priority classification)) ["high"; "critical"]
     && match search_results with
        | [] => true
        | best :: _ => Qltb (score best) 0.6
        end
  then
    {| l_should_escalate := true;
       l_escalation_reasons :=
         (l_escalation_reasons v ++ ["Complex technical issue with no clear solution"])%list;
       l_escalation_type := "technical";
       l_priority_level := l_priority_level v |}
  else v.

Definition billing_high_value_keywords : list string :=
  ["refund"; "cancel"; "subscription"; "charge"; "payment failed"].

(** Rule 5: high-impact billing issues. *)
Definition rule5 (classification : ClassificationResult) (text : string)
    (v : RuleLocals) : RuleLocals :=
  if (category_value (category classification) =? "billing")
     && PyStr.any_in billing_high_value_keywords text
  then
    {| l_should_escalate := true;
       l_escalation_reasons := (l_escalation_reasons v ++ ["High-impact billing issue"])%list;
       l_escalation_type := "billing";
       l_priority_level := l_priority_level v |}
  else v.

Definition frustration_keywords : list string :=
  ["angry"; "frustrated"; "disappointed"; "terrible"; "worst";
   "unacceptable"; "ridiculous"; "pathetic"; "hate"].

(** Rule 6: customer frustration indicators. *)
Definition rule6 (text : string) (v : RuleLocals) : RuleLocals :=
  if (2 <=? PyStr.count_in frustration_keywords text)%nat then
    {| l_should_escalate := true;
       l_escalation_reasons :=
         (l_escalation_reasons v ++ ["Customer showing high frustration"])%list;
       l_escalation_type := "management";
       l_priority_level := l_priority_level v |}
  else v.

Definition retry_indicators : list string :=
  ["tried multiple times"; "several attempts"; "contacted before";
   "still not working"; "again"; "repeatedly"].

(** Rule 7: multiple previous attempts mentioned. *)
Definition rule7 (text : string) (v : RuleLocals) : RuleLocals :=
  if PyStr.any_in retry_indicators text then
    {| l_should_escalate := true;
       l_escalation_reasons :=
         (l_escalation_reasons v ++ ["Multiple failed resolution attempts"])%list;
       l_escalation_type := l_escalation_type v;
       l_priority_level := l_priority_level v |}
  else v.

(** "Calculate confidence based on rule strength". *)
Definition rule_confidence (escalation_reasons : list string) : Q :=
  let n := List.length escalation_reasons in
  if (2 <? n)%nat then 0.9
  else if (n =? 2)%nat then 0.8
  else if (n =? 1)%nat then 0.7
  else 0.5.

(** The local variables of [_apply_escalation_rules] after its seven rules. *)
Definition run_escalation_rules (self : EscalationAgent)
    (ticket : CustomerTicket) (classification : ClassificationResult)
    (search_results : list SearchResult) : RuleLocals :=
  let text := full_text ticket in
  let v := rule_locals_init in
  let v := rule1 classification v in
  let v := rule2 self text v in
  let v := rule3 text v in
  let v := rule4 classification search_results v in
  let v := rule5 classification text v in
  let v := rule6 text v in
  let v := rule7 text v in
  v.

Definition _apply_escalation_rules (self : EscalationAgent)
    (ticket : CustomerTicket) (classification : ClassificationResult)
    (search_results : list SearchResult) : DecisionDict :=
  let v := run_escalation_rules self ticket classification search_results in
  {| d_should_escalate := Some (l_should_escalate v);
     d_reason :=
       Some (match l_escalation_reasons v with
             | [] => "No escalation needed"
             | reasons => PyStr.join "; " reasons
             end);
     d_escalation_type := Some (l_escalation_type v);
     d_priority_level := Some (l_priority_level v);
     d_confidence := Some (rule_confidence (l_escalation_reasons v)) |}.

(** [a or b] on optional strings: the first truthy operand, else the last. *)
Definition or_str (a : option string) (b : option string) : option string :=
  match a with
  | Some s => if PyStr.truthy s then a else b
  | None => b
  end.

Definition is_truthy_str (a : option string) : bool :=
  match a with Some s => PyStr.truthy s | None => false end.

(** [{"standard": 1, "urgent": 2}.get(level, 1)] *)
Definition priority_levels (level : string) : nat :=
  if level =? "standard" then 1
  else if level =? "urgent" then 2
  else 1.

(** The dictionary [_combine_decisions] returns: every key is set. *)
Record FinalDecision := {
  f_should_escalate : bool;
  f_reason : string;
  f_escalation_type : string;
  f_priority_level : string;
  f_confidence : Q
}.

Definition _combine_decisions (llm_decision rule_decision : DecisionDict)
    : FinalDecision :=
  let should_escalate :=
    from_option false (d_should_escalate llm_decision)
    || from_option false (d_should_escalate rule_decision) in
  let ai_reasons :=
    if is_truthy_str (d_reason llm_decision)
    then ["AI: " ++ from_option "" (d_reason llm_decision)] else [] in
  let rule_reasons :=
    if is_truthy_str (d_reason rule_decision)
       && negb (from_option "" (d_reason rule_decision) =? "No escalation needed")
    then ["Rules: " ++ from_option "" (d_reason rule_decision)] else [] in
  let reasons := List.app ai_reasons rule_reasons in
  let escalation_type :=
    from_option "general"
      (or_str (d_escalation_type rule_decision)
         (or_str (d_escalation_type llm_decision) (Some "general"))) in
  let rule_priority := from_option "standard" (d_priority_level rule_decision) in
  let llm_priority := from_option "standard" (d_priority_level llm_decision) in
  let priority_level :=
    if (priority_levels llm_priority <=? priority_levels rule_priority)%nat
    then rule_priority else llm_priority in
  let confidence :=
    (from_option 0.5 (d_confidence rule_decision)
     + from_option 0.5 (d_confidence llm_decision)) / 2 in
  {| f_should_escalate := should_escalate;
     f_reason := match reasons with
                 | [] => "No escalation needed"
                 | _ => PyStr.join "; " reasons
                 end;
     f_escalation_type := escalation_type;
     f_priority_level := priority_level;
     f_confidence := confidence |}.

(** The dictionary passed to [llm_service.check_escalation]. *)
Definition escalation_query (ticket : CustomerTicket)
    (classification : ClassificationResult) : TicketData :=
  {| td_subject := subject ticket;
     td_message := message ticket;
     td_category := category_value (category classification);
     td_priority := priority_value (priority classification) |}.

Section Escalation.
Context `{llm : LLMService}.

Definition evaluate_escalation (self : EscalationAgent)
    (ticket : CustomerTicket) (classification : ClassificationResult)
    (search_results : list SearchResult) : exc EscalationDecision :=
  catch
    (llm_decision <-
       llm_check_escalation (escalation_query ticket classification) ;;
     let rule_based_decision :=
       _apply_escalation_rules self ticket classification search_results in
     let final_decision := _combine_decisions llm_decision rule_based_decision in
     ret {| should_escalate := f_should_escalate final_decision;
            reason := f_reason final_decision;
            escalation_type := Some (f_escalation_type final_decision);
            priority_level := f_priority_level final_decision;
            e_confidence := f_confidence final_decision |})
    (fun e =>
       ret {| should_escalate := true;
              reason := "Escalation evaluation failed: " ++ e;
              escalation_type := Some "technical";
              priority_level := "standard";
              e_confidence := 0.3 |}).

End Escalation.

(** The routing dictionary of [get_escalation_routing]. *)
Record Routing := {
  routing : string;
  department : option string;
  skill_level : option string;
  estimated_wait : option string;
  routing_escalation_type : option string;
  routing_priority : option string
}.

Definition routing_entry (department skill wait : string) (d : EscalationDecision)
    : Routing :=
  {| routing := "human_agent";
     department := Some department;
     skill_level := Some skill;
     estimated_wait := Some wait;
     routing_escalation_type := escalation_type d;
     routing_priority := Some (priority_level d) |}.

Definition get_escalation_routing (d : EscalationDecision) : Routing :=
  if negb (should_escalate d) then
    {| routing := "ai_resolution"; department := None; skill_level := None;
       estimated_wait := None; routing_escalation_type := None;
       routing_priority := None |}
  else
    let urgent := priority_level d =? "urgent" in
    let technical :=
      routing_entry "Technical Support"
        (if urgent then "senior" else "standard")
        (if urgent then "15-30 minutes" else "1-2 hours") d in
    match escalation_type d with
    | Some t =>
        if t =? "technical" then technical
        else if t =? "billing" then
          routing_entry "Billing Support" "standard" "30-45 minutes" d
        else if t =? "management" then
          routing_entry "Customer Success" "manager" "45-60 minutes" d
        else if t =? "legal" then
          routing_entry "Legal Affairs" "specialist" "2-4 hours" d
        else if t =? "security" then
          routing_entry "Security Team" "specialist"
            (if urgent then "Immediate" else "30-60 minutes") d
        else technical
    | None => technical
    end.

(** ** backend/agents/knowledge_agent.py *)

Class EmbeddingService := {
  create_query_embedding : string -> exc (list Q)
}.

Class ElasticsearchService := {
  (** [hybrid_search(query_text, query_embedding, category, top_k)] *)
  hybrid_search : string -> list Q -> option string -> nat -> exc (list SearchResult);
  (** [search_similar(query_embedding, category, top_k)] *)
  search_similar : list Q -> option string -> nat -> exc (list SearchResult);
  (** [update_article_stats(article_id, increment_resolution=True)] *)
  update_article_stats : string -> exc unit
}.

Record KnowledgeAgent := {
  max_articles : nat;
  min_relevance_score : Q
}.

Definition knowledge_agent : KnowledgeAgent :=
  {| max_articles := 5; min_relevance_score := 0.3 |}.

Module PyText.

(** The characters [str.split()] treats as separators. *)
Definition is_space (c : ascii) : bool :=
  let n := nat_of_ascii c in
  ((9 <=? n) && (n <=? 13) || (28 <=? n) && (n <=? 32))%nat.

(** [s.split()]: the maximal runs of non-space characters. *)
Fixpoint split_ws_aux (s : string) (word : string) : list string :=
  match s with
  | EmptyString => if PyStr.truthy word then [word] else []
  | String c s' =>
      if is_space c
      then if PyStr.truthy word
           then word :: split_ws_aux s' EmptyString
           else split_ws_aux s' EmptyString
      else split_ws_aux s' (word ++ String c EmptyString)
  end.

Definition split_ws (s : string) : list string := split_ws_aux s EmptyString.

(** [l[start:stop]] for [0 <= start] *)
Definition slice {A} (l : list A) (start stop : nat) : list A :=
  firstn (stop - start) (skipn start l).

End PyText.

Definition tech_patterns : list string :=
  ["error"; "bug"; "issue"; "problem"; "fail"; "crash"].

Definition feature_indicators : list string :=
  ["how to"; "can't"; "unable"; "doesn't work"; "not working"].

(** The inner loop of [_extract_key_phrases]: the context of every word
    that contains [pattern]. *)
Fixpoint phrases_around (pattern : string) (words : list string)
    (i : nat) (rest : list string) : list string :=
  match rest with
  | [] => []
  | word :: rest' =>
      let here :=
        if PyStr.contains pattern word then
          let start := (i - 2)%nat in
          let stop := Nat.min (List.length words) (i + 3) in
          [PyStr.join " " (PyText.slice words start stop)]
        else [] in
      List.app here (phrases_around pattern words (S i) rest')
  end.

Definition _extract_key_phrases (text : string) : list string :=
  let low := PyStr.lower text in
  let tech :=
    flat_map
      (fun pattern =>
         if PyStr.contains pattern low then
           let words := PyText.split_ws low in
           phrases_around pattern words 0 words
         else [])
      tech_patterns in
  let feature := filter (fun indicator => PyStr.contains indicator low)
                        feature_indicators in
  firstn 5 (List.app tech feature).

Definition _prepare_search_query (ticket : CustomerTicket)
    (classification : option ClassificationResult) : string :=
  let query_parts := [subject ticket; message ticket] in
  let query_parts :=
    match classification with
    | Some c => List.app query_parts ["category:" ++ category_value (category c)]
    | None => query_parts
    end in
  let combined_text := subject ticket ++ " " ++ message ticket in
  let key_phrases := _extract_key_phrases combined_text in
  let query_parts := List.app query_parts key_phrases in
  let search_query := PyStr.join " " query_parts in
  let search_query := PyStr.join " " (PyText.split_ws search_query) in
  String.substring 0 500 search_query.

Definition _calculate_enhanced_relevance (s : Q) : string :=
  if Qleb 0.9 s then "Excellent"
  else if Qleb 0.75 s then "Very High"
  else if Qleb 0.6 s then "High"
  else if Qleb 0.45 s then "Medium"
  else if Qleb 0.3 s then "Low"
  else "Very Low".

(** The value of [adjusted_score] at the end of one iteration of the loop of
    [_enhance_search_results]. *)
Definition adjusted_score (classification : option ClassificationResult)
    (result : SearchResult) : Q :=
  let category_match :=
    match classification with
    | Some c =>
        category_value (article_category (article result))
        =? category_value (category c)
    | None => false
    end in
  let adjusted := score result in
  let adjusted := if category_match then adjusted * 1.2 else adjusted in
  let adjusted :=
    if (0 <? resolution_count (article result))%Z then
      let popularity_boost :=
        Qmin (inject_Z (resolution_count (article result)) / 100) 0.2 in
      adjusted * (1 + popularity_boost)
    else adjusted in
  let adjusted :=
    match rating (article result) with
    | Some r =>
        if negb (Qeq_bool r 0) && Qltb 3.0 r then
          let rating_boost := (r - 3.0) * 0.1 in
          adjusted * (1 + rating_boost)
        else adjusted
    | None => adjusted
    end in
  adjusted.

Definition enhance (classification : option ClassificationResult)
    (result : SearchResult) : SearchResult :=
  let adjusted := adjusted_score classification result in
  {| article := article result;
     score := Qmin adjusted 1.0;
     relevance := _calculate_enhanced_relevance adjusted |}.

(** [list.sort(key=lambda x: x.score, reverse=True)]: a stable sort,
    descending; elements of equal score keep their relative order. *)
Fixpoint insert_by_score (x : SearchResult) (l : list SearchResult)
    : list SearchResult :=
  match l with
  | [] => [x]
  | y :: l' =>
      if Qleb (score y) (score x) then x :: l else y :: insert_by_score x l'
  end.

Definition sort_by_score_desc (l : list SearchResult) : list SearchResult :=
  fold_right insert_by_score [] l.

Definition _enhance_search_results (results : list SearchResult)
    (ticket : CustomerTicket) (classification : option ClassificationResult)
    : list SearchResult :=
  sort_by_score_desc (map (enhance classification) results).

Section Knowledge.
Context `{emb : EmbeddingService} `{es : ElasticsearchService}.

Definition search_knowledge_base (self : KnowledgeAgent)
    (ticket : CustomerTicket) (classification : option ClassificationResult)
    (search_type : string) : exc (list SearchResult) :=
  catch
    (let search_text := _prepare_search_query ticket classification in
     query_embedding <- create_query_embedding search_text ;;
     let category_filter :=
       match classification with
       | Some c =>
           if Qltb 0.7 (confidence c)
           then Some (category_value (category c)) else None
       | None => None
       end in
     results <-
       (if search_type =? "hybrid" then
          hybrid_search search_text query_embedding category_filter
                        (max_articles self)
        else if search_type =? "semantic" then
          search_similar query_embedding category_filter (max_articles self)
        else
          hybrid_search search_text query_embedding category_filter
                        (max_articles self)) ;;
     let filtered_results :=
       filter (fun result => Qleb (min_relevance_score self) (score result))
              results in
     ret (_enhance_search_results filtered_results ticket classification))
    (fun _ => ret []).

End Knowledge.

(** ** backend/agents/resolution_agent.py *)

(** [datetime.now()], rendered the two ways the pipeline uses it. *)
Class Clock := {
  (** [datetime.now().strftime('%Y%m%d%H%M%S')] *)
  now_stamp : string;
  (** [datetime.now().isoformat()] *)
  now_iso : string
}.

Record ResolutionAgent := {
  max_response_length : nat;
  min_confidence_threshold : Q
}.

Definition resolution_agent : ResolutionAgent :=
  {| max_response_length := 1000; min_confidence_threshold := 0.3 |}.

Module PyFmt.

(** The line feed of a Python string literal. *)
Definition nl : string := String (ascii_of_nat 10) EmptyString.

(** [s.lstrip()], [s.rstrip()], [s.strip()] *)
Fixpoint lstrip (s : string) : string :=
  match s with
  | EmptyString => EmptyString
  | String c s' => if PyText.is_space c then lstrip s' else s
  end.

Fixpoint rstrip (s : string) : string :=
  match s with
  | EmptyString => EmptyString
  | String c s' =>
      let r := rstrip s' in
      if PyText.is_space c && negb (PyStr.truthy r) then EmptyString
      else String c r
  end.

Definition strip (s : string) : string := rstrip (lstrip s).

(** [s.split('. ')] *)
Fixpoint split_sentences_aux (s : string) (cur : string) : list string :=
  match s with
  | EmptyString => [cur]
  | String c rest =>
      match rest with
      | String c' rest' =>
          if Ascii.eqb c "."%char && Ascii.eqb c' " "%char
          then cur :: split_sentences_aux rest' EmptyString
          else split_sentences_aux rest (cur ++ String c EmptyString)
      | EmptyString => [cur ++ String c EmptyString]
      end
  end.

Definition split_sentences (s : string) : list string :=
  split_sentences_aux s EmptyString.

(** [x or default] on an optional string *)
Definition or_default (x : option string) (default : string) : string :=
  match x with
  | Some s => if PyStr.truthy s then s else default
  | None => default
  end.

End PyFmt.

Import PyFmt.

(** The greeting every response builder of the agent starts from;
    [customer_name.split()[0]] raises [IndexError] on a name made of
    white space only. *)
Definition email_greeting (ticket : CustomerTicket) : exc string :=
  match customer_name ticket with
  | Some name =>
      if PyStr.truthy name then
        match PyText.split_ws name with
        | first_name :: _ =>
            ret ("Subject: Re: " ++ subject ticket ++ nl ++ nl
                 ++ "Dear " ++ first_name ++ ",")
        | [] => raise "list index out of range"
        end
      else
        ret ("Subject: Re: " ++ subject ticket ++ nl ++ nl
             ++ "Dear Valued Customer,")
  | None =>
      ret ("Subject: Re: " ++ subject ticket ++ nl ++ nl
           ++ "Dear Valued Customer,")
  end.

Definition category_confidence (cat : string) : Q :=
  if cat =? "general" then 0.8
  else if cat =? "product" then 0.7
  else if cat =? "account" then 0.75
  else if cat =? "billing" then 0.6
  else if cat =? "technical" then 0.5
  else 0.6.

(** [sum(xs)] *)
Definition Qsum (xs : list Q) : Q := fold_left Qplus xs 0.

Definition _calculate_resolution_confidence
    (classification : ClassificationResult)
    (search_results : list SearchResult) (response_length : nat) : Q :=
  let confidence_factors := [confidence classification * 0.3] in
  let confidence_factors :=
    match search_results with
    | _ :: _ =>
        let avg_kb_score :=
          Qsum (map score search_results)
          / inject_Z (Z.of_nat (List.length search_results)) in
        List.app confidence_factors [avg_kb_score * 0.4]
    | [] => List.app confidence_factors [0.1]
    end in
  let completeness_score :=
    if (200 <? response_length)%nat
    then Qmin (inject_Z (Z.of_nat response_length) / 500) 1.0
    else 0.3 in
  let confidence_factors :=
    List.app confidence_factors [completeness_score * 0.2] in
  let category_factor :=
    category_confidence (category_value (category classification)) in
  let confidence_factors :=
    List.app confidence_factors [category_factor * 0.1] in
  let final_confidence := Qsum confidence_factors in
  Qmin (Qmax final_confidence 0.1) 0.95.

Definition closing_phrases : list string :=
  ["thank you"; "please let me know"; "feel free to";
   "if you have"; "best regards"; "sincerely"].

(** The loop that trims an over-long response at a sentence boundary. *)
Fixpoint trim_sentences (limit : nat) (sentences : list string)
    (trimmed : string) : string :=
  match sentences with
  | [] => trimmed
  | sentence :: rest =>
      if (String.length (trimmed ++ sentence) <? limit - 3)%nat
      then trim_sentences limit rest (trimmed ++ sentence ++ ". ")
      else trimmed
  end.

Section Resolution.
Context `{llm : LLMService} `{es : ElasticsearchService} `{clock : Clock}.

Definition _post_process_response (self : ResolutionAgent)
    (response : string) (ticket : CustomerTicket)
    (classification : ClassificationResult) : exc string :=
  email_header <- email_greeting ticket ;;
  let response :=
    if negb (PyStr.startswith_any (PyStr.lower response)
               ["dear"; "hello"; "hi"; "subject:"])
    then email_header ++ nl ++ nl ++ "Thank you for contacting us. " ++ response
    else response in
  let has_closing := PyStr.any_in closing_phrases (PyStr.lower response) in
  let response :=
    if negb has_closing
    then response ++ nl ++ nl
         ++ "Please let me know if you need any additional assistance!"
    else response in
  let response :=
    if negb (PyStr.endswith_any response ["Best regards"; "Sincerely"; "Thank you"])
    then response ++ nl ++ nl ++ "Best regards," ++ nl ++ "Customer Support Team"
    else response in
  let response :=
    if PyStr.mem (priority_value (priority classification)) ["high"; "critical"]
    then
      let ticket_ref := or_default (ticket_id ticket) ("TKT-" ++ now_stamp) in
      if negb (PyStr.contains ticket_ref response)
      then response ++ nl ++ nl ++ "Ticket Reference: " ++ ticket_ref
      else response
    else response in
  let response :=
    if (max_response_length self <? String.length response)%nat then
      let sentences := split_sentences response in
      let trimmed := trim_sentences (max_response_length self) sentences "" in
      let response := strip trimmed in
      if negb (PyStr.endswith response ".") then response ++ "..." else response
    else response in
  ret (strip response).

Definition _get_fallback_response (ticket : CustomerTicket) : exc string :=
  greeting <- email_greeting ticket ;;
  ret (greeting ++ nl ++ nl
       ++ "Thank you for contacting us. I've received your inquiry and want to ensure you receive the best possible assistance."
       ++ nl ++ nl
       ++ "Due to the specific nature of your request, I'm connecting you with one of our specialists who can provide more detailed help and ensure your concern is addressed properly."
       ++ nl ++ nl
       ++ "A team member will contact you shortly to assist with your inquiry. We appreciate your patience and apologize for any inconvenience."
       ++ nl ++ nl
       ++ "Best regards," ++ nl ++ "Customer Support Team").

Definition _generate_ai_resolution (self : ResolutionAgent)
    (ticket : CustomerTicket) (classification : ClassificationResult)
    (search_results : list SearchResult) : exc Resolution :=
  let top := firstn 3 search_results in
  let relevant_articles :=
    map (fun result =>
           {| ad_title := title (article result);
              ad_content := content (article result);
              ad_score := score result |}) top in
  let article_ids := map (fun result => article_id (article result)) top in
  response_text <-
    llm_generate_resolution
      {| td_subject := subject ticket;
         td_message := message ticket;
         td_category := category_value (category classification);
         td_priority := priority_value (priority classification) |}
      relevant_articles ;;
  let confidence :=
    _calculate_resolution_confidence classification search_results
      (String.length response_text) in
  final_response <-
    _post_process_response self response_text ticket classification ;;
  _ <- fold_left (fun acc article_id => acc ;; update_article_stats article_id)
                 article_ids (ret tt) ;;
  ret {| r_ticket_id := or_default (ticket_id ticket) "generated";
         response := final_response;
         r_confidence := confidence;
         knowledge_articles_used := article_ids;
         created_at := now_iso;
         agent_type := "ai" |}.

End Resolution.

Record EscalationMessage := {
  acknowledgment : string;
  action : string;
  next_steps : string
}.

Definition technical_message : EscalationMessage :=
  {| acknowledgment := "I understand you're experiencing a technical issue that is impacting your operations.";
     action := "I've immediately escalated this ticket to our senior engineering team who specialize in complex technical integrations and system issues.";
     next_steps := "A senior technical specialist will contact you within the next 15-30 minutes to begin immediate troubleshooting." |}.

Definition escalation_messages (escalation_type : option string)
    : EscalationMessage :=
  match escalation_type with
  | Some t =>
      if t =? "technical" then technical_message
      else if t =? "billing" then
        {| acknowledgment := "Thank you for contacting us about your billing concern.";
           action := "I want to ensure this is handled properly, so I'm transferring you to our billing specialists who can access your account details and process any necessary adjustments.";
           next_steps := "A billing specialist will review your account and contact you within 30-45 minutes." |}
      else if t =? "management" then
        {| acknowledgment := "I understand your concern and want to ensure you receive the best possible service.";
           action := "I'm connecting you with a customer success manager who can give your issue the personal attention it deserves.";
           next_steps := "A customer success manager will contact you within 45-60 minutes to address your concerns directly." |}
      else if t =? "legal" then
        {| acknowledgment := "Thank you for bringing this matter to our attention.";
           action := "Due to the nature of your inquiry, I'm routing this to our specialized legal affairs team who handles these types of matters.";
           next_steps := "A member of our legal affairs team will contact you within 2-4 hours to discuss this matter properly." |}
      else if t =? "security" then
        {| acknowledgment := "I take security concerns very seriously and understand the urgency of this situation.";
           action := "I'm immediately connecting you with our security team who can investigate and address this matter with the highest priority.";
           next_steps := "Our security team will contact you immediately to begin the investigation process." |}
      else technical_message
  | None => technical_message
  end.

Section ResolutionEntry.
Context `{llm : LLMService} `{es : ElasticsearchService} `{clock : Clock}.

Definition _generate_escalation_response (ticket : CustomerTicket)
    (escalation_decision : EscalationDecision) : exc Resolution :=
  let message_template :=
    escalation_messages (escalation_type escalation_decision) in
  greeting <- email_greeting ticket ;;
  let priority_context :=
    if priority_level escalation_decision =? "urgent"
    then " This has been marked as urgent and will be prioritized accordingly."
    else "" in
  let ticket_ref := or_default (ticket_id ticket) ("TKT-" ++ now_stamp) in
  let email_body :=
    greeting ++ nl ++ nl
    ++ "Thank you for reaching out to us. " ++ acknowledgment message_template
    ++ " I sincerely apologize for any disruption this is causing."
    ++ nl ++ nl
    ++ action message_template ++ priority_context
    ++ nl ++ nl
    ++ next_steps message_template
    ++ nl ++ nl
    ++ "Your ticket reference number is: " ++ ticket_ref
    ++ nl ++ nl
    ++ "If you have any immediate questions or concerns, please don't hesitate to reach out. We appreciate your patience and will ensure this matter receives the attention it deserves."
    ++ nl ++ nl
    ++ "Best regards," ++ nl ++ "Customer Support Team" ++ nl
    ++ "Technical Support Division" in
  ret {| r_ticket_id := or_default (ticket_id ticket) "generated";
         response := email_body;
         r_confidence := 0.9;
         knowledge_articles_used := [];
         created_at := now_iso;
         agent_type := "escalation" |}.

Definition generate_resolution (self : ResolutionAgent)
    (ticket : CustomerTicket) (classification : ClassificationResult)
    (search_results : list SearchResult)
    (escalation_decision : EscalationDecision) : exc Resolution :=
  catch
    (if should_escalate escalation_decision
     then _generate_escalation_response ticket escalation_decision
     else _generate_ai_resolution self ticket classification search_results)
    (fun _ =>
       fallback <- _get_fallback_response ticket ;;
       ret {| r_ticket_id := or_default (ticket_id ticket) "unknown";
              response := fallback;
              r_confidence := 0.2;
              knowledge_articles_used := [];
              created_at := now_iso;
              agent_type := "ai_fallback" |}).

End ResolutionEntry.

(** ** backend/workflows/support_workflow.py *)

(** *** The agents, as the workflow calls them *)

Record DetectedCategory := {
  dc_category : string;
  keywords_matched : list string;
  strength : nat
}.

Record Insights := {
  text_length : nat;
  subject_length : nat;
  detected_categories : list DetectedCategory;
  has_urgency_indicators : bool;
  estimated_complexity : string
}.

Record ArticleSummary := {
  total_results : nat;
  best_match_score : Q;
  average_score : option Q;
  categories_found : list string;
  summary : string;
  high_confidence_results : option nat
}.

(** The module-level agent objects the nodes call.  Every call may raise. *)
Class Agents := {
  agent_classify_ticket : CustomerTicket -> exc ClassificationResult;
  agent_get_classification_insights : CustomerTicket -> exc Insights;
  agent_search_knowledge_base :
    CustomerTicket -> ClassificationResult -> string -> exc (list SearchResult);
  agent_get_article_summary : list SearchResult -> exc ArticleSummary;
  agent_evaluate_escalation :
    CustomerTicket -> ClassificationResult -> list SearchResult
    -> exc EscalationDecision;
  agent_get_escalation_routing : EscalationDecision -> exc Routing;
  agent_generate_resolution :
    CustomerTicket -> ClassificationResult -> list SearchResult
    -> EscalationDecision -> exc Resolution;
  agent_generate_escalation_response :
    CustomerTicket -> EscalationDecision -> exc Resolution
}.

(** *** The state dictionary *)

Record ClassificationState := {
  c_category : string;
  c_priority : string;
  c_confidence : Q;
  c_reasoning : string;
  c_insights : option Insights
}.

Record KnowledgeState := {
  k_article_id : string;
  k_title : string;
  k_content : string;
  k_category : TicketCategory;
  k_score : Q;
  k_relevance : string
}.

Record EscalationState := {
  s_should_escalate : bool;
  s_reason : string;
  s_escalation_type : option string;
  s_priority_level : string;
  s_confidence : Q;
  s_routing : option Routing
}.

Record ResolutionState := {
  rs_ticket_id : option string;
  rs_response : string;
  rs_confidence : Q;
  rs_knowledge_articles_used : option (list string);
  rs_agent_type : string;
  rs_created_at : option string
}.

Record Metadata := {
  started_at : option string;
  search_summary : option ArticleSummary;
  completed_at : option string;
  total_errors : option nat
}.

(** [None] in [st_classification], [st_escalation_decision] and
    [st_resolution] is the empty dictionary of the initial state. *)
Record SupportWorkflowState := {
  st_ticket : CustomerTicket;
  st_classification : option ClassificationState;
  st_knowledge_results : list KnowledgeState;
  st_escalation_decision : option EscalationState;
  st_resolution : option ResolutionState;
  st_workflow_status : string;
  st_error_messages : list string;
  st_metadata : Metadata
}.

Definition set_classification (v : ClassificationState) (s : SupportWorkflowState) :=
  {| st_ticket := st_ticket s; st_classification := Some v;
     st_knowledge_results := st_knowledge_results s;
     st_escalation_decision := st_escalation_decision s;
     st_resolution := st_resolution s;
     st_workflow_status := st_workflow_status s;
     st_error_messages := st_error_messages s; st_metadata := st_metadata s |}.

Definition set_knowledge_results (v : list KnowledgeState) (s : SupportWorkflowState) :=
  {| st_ticket := st_ticket s; st_classification := st_classification s;
     st_knowledge_results := v;
     st_escalation_decision := st_escalation_decision s;
     st_resolution := st_resolution s;
     st_workflow_status := st_workflow_status s;
     st_error_messages := st_error_messages s; st_metadata := st_metadata s |}.

Definition set_escalation_decision (v : EscalationState) (s : SupportWorkflowState) :=
  {| st_ticket := st_ticket s; st_classification := st_classification s;
     st_knowledge_results := st_knowledge_results s;
     st_escalation_decision := Some v;
     st_resolution := st_resolution s;
     st_workflow_status := st_workflow_status s;
     st_error_messages := st_error_messages s; st_metadata := st_metadata s |}.

Definition set_resolution (v : ResolutionState) (s : SupportWorkflowState) :=
  {| st_ticket := st_ticket s; st_classification := st_classification s;
     st_knowledge_results := st_knowledge_results s;
     st_escalation_decision := st_escalation_decision s;
     st_resolution := Some v;
     st_workflow_status := st_workflow_status s;
     st_error_messages := st_error_messages s; st_metadata := st_metadata s |}.

Definition set_workflow_status (v : string) (s : SupportWorkflowState) :=
  {| st_ticket := st_ticket s; st_classification := st_classification s;
     st_knowledge_results := st_knowledge_results s;
     st_escalation_decision := st_escalation_decision s;
     st_resolution := st_resolution s;
     st_workflow_status := v;
     st_error_messages := st_error_messages s; st_metadata := st_metadata s |}.

(** [state["error_messages"].append(msg)] *)
Definition append_error (msg : string) (s : SupportWorkflowState) :=
  {| st_ticket := st_ticket s; st_classification := st_classification s;
     st_knowledge_results := st_knowledge_results s;
     st_escalation_decision := st_escalation_decision s;
     st_resolution := st_resolution s;
     st_workflow_status := st_workflow_status s;
     st_error_messages := List.app (st_error_messages s) [msg];
     st_metadata := st_metadata s |}.

Definition set_metadata (v : Metadata) (s : SupportWorkflowState) :=
  {| st_ticket := st_ticket s; st_classification := st_classification s;
     st_knowledge_results := st_knowledge_results s;
     st_escalation_decision := st_escalation_decision s;
     st_resolution := st_resolution s;
     st_workflow_status := st_workflow_status s;
     st_error_messages := st_error_messages s; st_metadata := v |}.

(** [d[key]] on a dictionary that may still be empty: [KeyError]. *)
Definition item {A} (d : option A) (key : string) : exc A :=
  match d with
  | Some v => ret v
  | None => raise ("'" ++ key ++ "'")
  end.

(** "Convert classification back to object". *)
Definition classification_object (state : SupportWorkflowState)
    : exc ClassificationResult :=
  classification <- item (st_classification state) "category" ;;
  c <- TicketCategory_of (c_category classification) ;;
  p <- TicketPriority_of (c_priority classification) ;;
  new_ClassificationResult c p (c_confidence classification)
                           (c_reasoning classification).

(** "Convert search results back to objects". *)
Definition search_result_objects (state : SupportWorkflowState)
    : list SearchResult :=
  map (fun result_data =>
         {| article :=
              {| article_id := k_article_id result_data;
                 title := k_title result_data;
                 content := k_content result_data;
                 article_category := k_category result_data;
                 tags := [];
                 article_created_at := "2024-01-01T00:00:00";
                 article_updated_at := None;
                 resolution_count := 0;
                 rating := None |};
            score := k_score result_data;
            relevance := k_relevance result_data |})
      (st_knowledge_results state).

Definition escalation_object (state : SupportWorkflowState)
    : exc EscalationDecision :=
  escalation_decision <- item (st_escalation_decision state) "should_escalate" ;;
  ret {| should_escalate := s_should_escalate escalation_decision;
         reason := s_reason escalation_decision;
         escalation_type := s_escalation_type escalation_decision;
         priority_level := s_priority_level escalation_decision;
         e_confidence := s_confidence escalation_decision |}.

Definition resolution_dict (resolution : Resolution) : ResolutionState :=
  {| rs_ticket_id := Some (r_ticket_id resolution);
     rs_response := response resolution;
     rs_confidence := r_confidence resolution;
     rs_knowledge_articles_used := Some (knowledge_articles_used resolution);
     rs_agent_type := agent_type resolution;
     rs_created_at := Some (created_at resolution) |}.

(** *** The nodes *)

Section WorkflowNodes.
Context `{agents : Agents}.

(** Every stage node is [try: body except Exception as e: handler]. *)
Definition guarded (body : SupportWorkflowState -> exc SupportWorkflowState)
    (handler : string -> SupportWorkflowState -> SupportWorkflowState)
    (state : SupportWorkflowState) : exc SupportWorkflowState :=
  catch (body state) (fun e => ret (handler e state)).

Definition classify_try (state : SupportWorkflowState)
    : exc SupportWorkflowState :=
  let ticket := st_ticket state in
  classification_result <- agent_classify_ticket ticket ;;
  insights <- agent_get_classification_insights ticket ;;
  let state :=
    set_classification
      {| c_category := category_value (category classification_result);
         c_priority := priority_value (priority classification_result);
         c_confidence := confidence classification_result;
         c_reasoning := reasoning classification_result;
         c_insights := Some insights |} state in
  ret (set_workflow_status "classified" state).

Definition classify_except (e : string) (state : SupportWorkflowState)
    : SupportWorkflowState :=
  let error_msg := "Classification failed: " ++ e in
  let state := append_error error_msg state in
  set_classification
    {| c_category := "general";
       c_priority := "medium";
       c_confidence := 0.3;
       c_reasoning := error_msg;
       c_insights := None |} state.

Definition _classify_node := guarded classify_try classify_except.

Definition search_knowledge_try (state : SupportWorkflowState)
    : exc SupportWorkflowState :=
  let ticket := st_ticket state in
  classification_obj <- classification_object state ;;
  search_results <-
    agent_search_knowledge_base ticket classification_obj "hybrid" ;;
  search_summary <- agent_get_article_summary search_results ;;
  let state :=
    set_knowledge_results
      (map (fun result =>
              {| k_article_id := article_id (article result);
                 k_title := title (article result);
                 k_content := content (article result);
                 k_category := article_category (article result);
                 k_score := score result;
                 k_relevance := relevance result |})
           search_results) state in
  let state :=
    set_metadata
      {| started_at := started_at (st_metadata state);
         search_summary := Some search_summary;
         completed_at := completed_at (st_metadata state);
         total_errors := total_errors (st_metadata state) |} state in
  ret (set_workflow_status "knowledge_searched" state).

Definition search_knowledge_except (e : string) (state : SupportWorkflowState)
    : SupportWorkflowState :=
  let error_msg := "Knowledge search failed: " ++ e in
  let state := append_error error_msg state in
  set_knowledge_results [] state.

Definition _search_knowledge_node :=
  guarded search_knowledge_try search_knowledge_except.

Definition check_escalation_try (state : SupportWorkflowState)
    : exc SupportWorkflowState :=
  let ticket := st_ticket state in
  classification_obj <- classification_object state ;;
  let search_results_obj := search_result_objects state in
  escalation_decision <-
    agent_evaluate_escalation ticket classification_obj search_results_obj ;;
  routing_info <- agent_get_escalation_routing escalation_decision ;;
  let state :=
    set_escalation_decision
      {| s_should_escalate := should_escalate escalation_decision;
         s_reason := reason escalation_decision;
         s_escalation_type := escalation_type escalation_decision;
         s_priority_level := priority_level escalation_decision;
         s_confidence := e_confidence escalation_decision;
         s_routing := Some routing_info |} state in
  ret (set_workflow_status "escalation_checked" state).

(** "Default to escalation for safety". *)
Definition check_escalation_except (e : string) (state : SupportWorkflowState)
    : SupportWorkflowState :=
  let error_msg := "Escalation check failed: " ++ e in
  let state := append_error error_msg state in
  set_escalation_decision
    {| s_should_escalate := true;
       s_reason := error_msg;
       s_escalation_type := Some "technical";
       s_priority_level := "standard";
       s_confidence := 0.3;
       s_routing := None |} state.

Definition _check_escalation_node :=
  guarded check_escalation_try check_escalation_except.

Definition generate_resolution_try (state : SupportWorkflowState)
    : exc SupportWorkflowState :=
  let ticket := st_ticket state in
  classification_obj <- classification_object state ;;
  escalation_obj <- escalation_object state ;;
  let search_results_obj := search_result_objects state in
  resolution <-
    agent_generate_resolution ticket classification_obj search_results_obj
                              escalation_obj ;;
  let state := set_resolution (resolution_dict resolution) state in
  ret (set_workflow_status "resolved" state).

(** "Fallback resolution". *)
Definition resolution_fallback (ticket : CustomerTicket) : ResolutionState :=
  {| rs_ticket_id := Some (or_default (ticket_id ticket) "unknown");
     rs_response := "I apologize, but I'm experiencing technical difficulties. A human agent will assist you shortly.";
     rs_confidence := 0.1;
     rs_knowledge_articles_used := Some [];
     rs_agent_type := "fallback";
     rs_created_at := None |}.

Definition generate_resolution_except (e : string)
    (state : SupportWorkflowState) : SupportWorkflowState :=
  let error_msg := "Resolution generation failed: " ++ e in
  let state := append_error error_msg state in
  set_resolution (resolution_fallback (st_ticket state)) state.

Definition _generate_resolution_node :=
  guarded generate_resolution_try generate_resolution_except.

Definition escalate_ticket_try (state : SupportWorkflowState)
    : exc SupportWorkflowState :=
  let ticket := st_ticket state in
  escalation_obj <- escalation_object state ;;
  classification_obj <- classification_object state ;;
  resolution <- agent_generate_escalation_response ticket escalation_obj ;;
  let state := set_resolution (resolution_dict resolution) state in
  ret (set_workflow_status "escalated" state).

(** "Fallback escalation response". *)
Definition escalation_fallback (ticket : CustomerTicket) : ResolutionState :=
  {| rs_ticket_id := Some (or_default (ticket_id ticket) "unknown");
     rs_response := "Your request has been escalated to our specialist team. Someone will contact you shortly.";
     rs_confidence := 0.8;
     rs_knowledge_articles_used := Some [];
     rs_agent_type := "escalation_fallback";
     rs_created_at := None |}.

Definition escalate_ticket_except (e : string) (state : SupportWorkflowState)
    : SupportWorkflowState :=
  let error_msg := "Escalation failed: " ++ e in
  let state := append_error error_msg state in
  set_resolution (escalation_fallback (st_ticket state)) state.

Definition _escalate_ticket_node :=
  guarded escalate_ticket_try escalate_ticket_except.

Definition _finalize_node (state : SupportWorkflowState)
    : exc SupportWorkflowState :=
  let state := set_workflow_status "completed" state in
  let state :=
    set_metadata
      {| started_at := started_at (st_metadata state);
         search_summary := search_summary (st_metadata state);
         completed_at := Some "2024-01-01T00:00:00";
         total_errors := Some (List.length (st_error_messages state)) |}
      state in
  ret state.

Definition _should_escalate (state : SupportWorkflowState) : string :=
  match st_escalation_decision state with
  | Some d => if s_should_escalate d then "escalate" else "resolve"
  | None => "resolve"
  end.

(** *** The graph of [_build_workflow] *)

Inductive Node :=
| classify | search_knowledge | check_escalation
| generate_resolution_node | escalate_ticket | finalize.

Definition entry_point : Node := classify.

Definition node_function (n : Node)
    : SupportWorkflowState -> exc SupportWorkflowState :=
  match n with
  | classify => _classify_node
  | search_knowledge => _search_knowledge_node
  | check_escalation => _check_escalation_node
  | generate_resolution_node => _generate_resolution_node
  | escalate_ticket => _escalate_ticket_node
  | finalize => _finalize_node
  end.

(** The edges; [None] is [END]. *)
Definition next_node (n : Node) (state : SupportWorkflowState) : option Node :=
  match n with
  | classify => Some search_knowledge
  | search_knowledge => Some check_escalation
  | check_escalation =>
      let branch := _should_escalate state in
      if branch =? "escalate" then Some escalate_ticket
      else Some generate_resolution_node
  | generate_resolution_node => Some finalize
  | escalate_ticket => Some finalize
  | finalize => None
  end.

(** [workflow.ainvoke] of the compiled graph, as the graph library runs it:
    the node function of the current node, then the edge out of it, one node
    per step, under the library's step limit (25 by default); running into
    the limit is an error of the runner.  The nodes visited are recorded next
    to the state. *)
Definition recursion_limit : nat := 25.

Fixpoint run_graph (steps : nat) (n : Node) (visited : list Node)
    (state : SupportWorkflowState) : exc (list Node * SupportWorkflowState) :=
  match steps with
  | O => raise "Recursion limit of 25 reached without hitting a stop condition."
  | S steps' =>
      state' <- node_function n state ;;
      let visited := List.app visited [n] in
      match next_node n state' with
      | None => ret (visited, state')
      | Some n' => run_graph steps' n' visited state'
      end
  end.

Definition ainvoke_trace (initial_state : SupportWorkflowState)
    : exc (list Node * SupportWorkflowState) :=
  run_graph recursion_limit entry_point [] initial_state.

Definition ainvoke (initial_state : SupportWorkflowState)
    : exc SupportWorkflowState :=
  r <- ainvoke_trace initial_state ;;
  ret (snd r).

(** *** [process_ticket] and [process_batch] *)

(** The dictionary [process_ticket] returns: the final state, or the
    four-key error dictionary. *)
Inductive TicketResult :=
| FinalState (state : SupportWorkflowState)
| ErrorState (ticket : CustomerTicket) (workflow_status : string)
             (error_messages : list string) (resolution : ResolutionState).

Definition initial_state (ticket : CustomerTicket) : SupportWorkflowState :=
  {| st_ticket := ticket;
     st_classification := None;
     st_knowledge_results := [];
     st_escalation_decision := None;
     st_resolution := None;
     st_workflow_status := "started";
     st_error_messages := [];
     st_metadata :=
       {| started_at := Some "2024-01-01T00:00:00";
          search_summary := None;
          completed_at := None;
          total_errors := None |} |}.

Definition process_ticket (ticket : CustomerTicket) : exc TicketResult :=
  catch
    (final_state <- ainvoke (initial_state ticket) ;;
     ret (FinalState final_state))
    (fun e =>
       let error_msg := "Workflow execution failed: " ++ e in
       ret (ErrorState ticket "failed" [error_msg]
              {| rs_ticket_id := None;
                 rs_response := "I apologize for the technical difficulty. Please contact our support team directly.";
                 rs_confidence := 0.1;
                 rs_knowledge_articles_used := None;
                 rs_agent_type := "error_fallback";
                 rs_created_at := None |})).

End WorkflowNodes.

Definition result_ticket (r : TicketResult) : CustomerTicket :=
  match r with
  | FinalState s => st_ticket s
  | ErrorState t _ _ _ => t
  end.

Definition result_status (r : TicketResult) : string :=
  match r with
  | FinalState s => st_workflow_status s
  | ErrorState _ status _ _ => status
  end.

Definition result_errors (r : TicketResult) : list string :=
  match r with
  | FinalState s => st_error_messages s
  | ErrorState _ _ errors _ => errors
  end.

Definition result_resolution (r : TicketResult) : option ResolutionState :=
  match r with
  | FinalState s => st_resolution s
  | ErrorState _ _ _ resolution => Some resolution
  end.

(** The entry [process_batch] substitutes for a run that raised. *)
Definition batch_error (ticket : CustomerTicket) (text : string) : TicketResult :=
  ErrorState ticket "failed" [text]
    {| rs_ticket_id := None;
       rs_response := "Processing failed due to technical error.";
       rs_confidence := 0.1;
       rs_knowledge_articles_used := None;
       rs_agent_type := "batch_error";
       rs_created_at := None |}.

(** [asyncio.gather] with [return_exceptions=True]: the outcome of every
    coroutine, exception or value, at the position of the coroutine.  The
    semaphore bounds how many run at a time and does not change outcomes. *)
Definition gather {A} (outcomes : list (exc A)) : list (exc A) := outcomes.

(** The loop "handle any exceptions in results", from position [i] on. *)
Fixpoint collect_results (tickets : list CustomerTicket) (i : nat)
    (results : list (exc TicketResult)) (processed_results : list TicketResult)
    : exc (list TicketResult) :=
  match results with
  | [] => ret processed_results
  | result :: rest =>
      match result with
      | inl text =>
          match nth_error tickets i with
          | Some ticket =>
              collect_results tickets (S i) rest
                (List.app processed_results [batch_error ticket text])
          | None => raise "list index out of range"
          end
      | inr r =>
          collect_results tickets (S i) rest (List.app processed_results [r])
      end
  end.

(** [process_batch], over the outcome [run i ticket] of the coroutine
    started for the ticket at position [i]. *)
Definition process_batch_of (run : nat -> CustomerTicket -> exc TicketResult)
    (tickets : list CustomerTicket) : exc (list TicketResult) :=
  let results :=
    gather (map (fun it => run (fst it) (snd it))
                (combine (seq 0 (List.length tickets)) tickets)) in
  collect_results tickets 0 results [].

Definition process_batch `{agents : Agents} (tickets : list CustomerTicket)
    : exc (list TicketResult) :=
  process_batch_of (fun _ ticket => process_ticket ticket) tickets.

(** *** The agents of the repository behind the interface *)

(** [get_classification_insights] and [get_article_summary] only produce
    report dictionaries the nodes store; they are taken as given. *)
Definition pipeline_agents `{llm : LLMService} `{emb : EmbeddingService}
    `{es : ElasticsearchService} `{clock : Clock}
    (insights : CustomerTicket -> exc Insights)
    (article_summary : list SearchResult -> exc ArticleSummary) : Agents :=
  {| agent_classify_ticket := classify_ticket classifier_agent;
     agent_get_classification_insights := insights;
     agent_search_knowledge_base :=
       fun ticket classification search_type =>
         search_knowledge_base knowledge_agent ticket (Some classification)
                               search_type;
     agent_get_article_summary := article_summary;
     agent_evaluate_escalation := evaluate_escalation escalation_agent;
     agent_get_escalation_routing := fun d => ret (get_escalation_routing d);
     agent_generate_resolution := generate_resolution resolution_agent;
     agent_generate_escalation_response := _generate_escalation_response |}.

(** ** More of backend/agents/classifier_agent.py *)

(** The table of [get_classification_insights], in the order of the
    dictionary literal. *)
Definition category_indicators : list (string * list string) :=
  [("technical", ["bug"; "error"; "crash"; "problem"; "issue"; "broken"]);
   ("billing", ["payment"; "charge"; "bill"; "invoice"; "subscription"]);
   ("account", ["login"; "password"; "access"; "profile"; "settings"]);
   ("product", ["feature"; "how to"; "usage"; "functionality"]);
   ("general", ["question"; "help"; "support"; "information"])].

(** The loop that fills [detected_categories]. *)
Definition detect_categories (text : string)
    (table : list (string * list string)) : list DetectedCategory :=
  flat_map
    (fun entry =>
       let matches := filter (fun kw => PyStr.contains kw text) (snd entry) in
       match matches with
       | [] => []
       | _ => [{| dc_category := fst entry;
                  keywords_matched := matches;
                  strength := List.length matches |}]
       end)
    table.

(** [detected_categories.sort(key=lambda x: x["strength"], reverse=True)] *)
Fixpoint insert_by_strength (x : DetectedCategory) (l : list DetectedCategory)
    : list DetectedCategory :=
  match l with
  | [] => [x]
  | y :: l' =>
      if (strength y <=? strength x)%nat then x :: l
      else y :: insert_by_strength x l'
  end.

Definition sort_by_strength_desc (l : list DetectedCategory)
    : list DetectedCategory :=
  fold_right insert_by_strength [] l.

(** The table of [_estimate_complexity], in the order of the dictionary
    literal. *)
Definition complexity_indicators : list (string * list string) :=
  [("high", ["multiple"; "several"; "complex"; "complicated"; "various"]);
   ("medium", ["issue"; "problem"; "help"; "support"]);
   ("low", ["simple"; "quick"; "easy"; "just"; "only"])].

(** [scores]: the number of indicators of each level found in the text. *)
Definition complexity_scores (text : string) : list (string * nat) :=
  map (fun entry => (fst entry, PyStr.count_in (snd entry) (PyStr.lower text)))
      complexity_indicators.

(** The loop "determine complexity based on highest score". *)
Fixpoint first_with_score (max_score : nat) (scores : list (string * nat))
    : string :=
  match scores with
  | [] => "medium"
  | (level, score) :: rest =>
      if (score =? max_score)%nat then level
      else first_with_score max_score rest
  end.

Definition _estimate_complexity (text : string) : string :=
  let scores := complexity_scores text in
  let max_score := fold_right Nat.max 0%nat (map snd scores) in
  if (max_score =? 0)%nat then "medium"
  else first_with_score max_score scores.

Definition get_classification_insights (self : ClassifierAgent)
    (ticket : CustomerTicket) : Insights :=
  let text := full_text ticket in
  {| text_length := String.length (message ticket);
     subject_length := String.length (subject ticket);
     detected_categories :=
       sort_by_strength_desc (detect_categories text category_indicators);
     has_urgency_indicators := PyStr.any_in (high_priority_keywords self) text;
     estimated_complexity := _estimate_complexity text |}.

(** ** backend/main.py: the endpoint that processes a ticket *)

Inductive TicketStatus := NEW | IN_PROGRESS | RESOLVED | ESCALATED.

(** What the endpoint can raise: the web framework's [HTTPException], or
    any other exception with its text. *)
Inductive PyException :=
| HTTPException (status_code : nat) (detail : string)
| OtherException (text : string).

(** The record of a ticket in [tickets_db]: the ticket object with the two
    fields the endpoint assigns. *)
Record StoredTicket := {
  stored_ticket : CustomerTicket;
  status : TicketStatus;
  updated_at : option string
}.

(** The two module-level dictionaries, by ticket id. *)
Record Databases := {
  tickets_db : string -> option StoredTicket;
  resolutions_db : string -> option (option ResolutionState)
}.

Record APIResponse := {
  success : bool;
  api_message : string;
  data : TicketResult
}.

(** [d[key] = value] *)
Definition assign {A} (d : string -> option A) (key : string) (value : A)
    : string -> option A :=
  fun k => if k =? key then Some value else d k.

(** [ticket.status] after a run, from the [workflow_status] of its result. *)
Definition status_after (workflow_status : string) : TicketStatus :=
  if workflow_status =? "escalated" then ESCALATED
  else if workflow_status =? "completed" then RESOLVED
  else IN_PROGRESS.

(** [str(e)] of the framework's [HTTPException], which depends on the
    version of the framework. *)
Class WebFramework := {
  http_exception_str : nat -> string -> string
}.

Section Endpoint.
Context `{agents : Agents} `{clock : Clock} `{web : WebFramework}.

Definition exception_str (e : PyException) : string :=
  match e with
  | HTTPException status_code detail => http_exception_str status_code detail
  | OtherException text => text
  end.

(** The body of the [try] of the endpoint [process_ticket]. *)
Definition process_ticket_try (db : Databases) (ticket_id : string)
    : PyException + (Databases * APIResponse) :=
  match tickets_db db ticket_id with
  | None => inl (HTTPException 404 "Ticket not found")
  | Some ticket =>
      match process_ticket (stored_ticket ticket) with
      | inl text => inl (OtherException text)
      | inr result =>
          (* "resolution" is a key of both dictionaries process_ticket
             returns *)
          let resolutions :=
            assign (resolutions_db db) ticket_id (result_resolution result) in
          let ticket :=
            {| stored_ticket := stored_ticket ticket;
               status := status_after (result_status result);
               updated_at := Some now_iso |} in
          inr ({| tickets_db := assign (tickets_db db) ticket_id ticket;
                  resolutions_db := resolutions |},
               {| success := true;
                  api_message := "Ticket processed successfully";
                  data := result |})
      end
  end.

Definition process_ticket_endpoint (db : Databases) (ticket_id : string)
    : PyException + (Databases * APIResponse) :=
  match process_ticket_try db ticket_id with
  | inr r => inr r
  | inl e =>
      inl (HTTPException 500 ("Failed to process ticket: " ++ exception_str e))
  end.

End Endpoint.

(** ** More of backend/agents/escalation_agent.py: the report *)

(** [round(x, ndigits)] of the language on floats. *)
Class Rounding := {
  py_round : Q -> nat -> Q
}.

(** [types[key] = types.get(key, 0) + 1] on a dictionary kept in insertion
    order. *)
Fixpoint bump (key : string) (types : list (string * nat))
    : list (string * nat) :=
  match types with
  | [] => [(key, 1%nat)]
  | (k, n) :: rest =>
      if k =? key then (k, S n) :: rest else (k, n) :: bump key rest
  end.

Record EscalationReport := {
  total_tickets : nat;
  escalated_tickets : nat;
  escalation_rate : Q;
  escalation_types : list (string * nat);
  average_confidence : Q
}.

(** The dictionary of [get_escalation_metrics]: the two-key dictionary for
    no decisions, the five-key one otherwise. *)
Inductive EscalationMetrics :=
| NoDecisions (total : nat) (rate : Q)
| Report (r : EscalationReport).

(** The loop "group by escalation type". *)
Definition group_by_type (decisions : list EscalationDecision)
    (escalation_types : list (string * nat)) : list (string * nat) :=
  fold_left
    (fun escalation_types decision =>
       if should_escalate decision && is_truthy_str (escalation_type decision)
       then bump (from_option "" (escalation_type decision)) escalation_types
       else escalation_types)
    decisions escalation_types.

Definition get_escalation_metrics `{rounding : Rounding}
    (decisions : list EscalationDecision) : EscalationMetrics :=
  match decisions with
  | [] => NoDecisions 0 0
  | _ =>
      let total_tickets := List.length decisions in
      let escalated_tickets :=
        List.length (filter should_escalate decisions) in
      let escalation_rate :=
        inject_Z (Z.of_nat escalated_tickets)
        / inject_Z (Z.of_nat total_tickets) in
      let escalation_types := group_by_type decisions [] in
      Report
        {| total_tickets := total_tickets;
           escalated_tickets := escalated_tickets;
           escalation_rate := py_round (escalation_rate * 100) 2;
           escalation_types := escalation_types;
           average_confidence :=
             py_round (Qsum (map e_confidence decisions)
                       / inject_Z (Z.of_nat total_tickets)) 2 |}
  end.

(** ** backend/services/embedding_service.py: the text that is embedded *)

Definition prepare_text_for_embedding (text : string) : string :=
  let text := PyStr.join " " (PyText.split_ws text) in
  let max_length := 500%nat in
  if (max_length <? String.length text)%nat
  then String.substring 0 max_length text ++ "..."
  else text.

(** ** Sample collaborators and tickets *)

Module Samples.

Definition new_ticket (subj msg : string) : CustomerTicket :=
  {| ticket_id := None; customer_id := "cust-1"; subject := subj;
     message := msg; customer_name := None |}.

Definition breach_ticket : CustomerTicket := new_ticket "breach" "see subject".
Definition calm_ticket : CustomerTicket :=
  new_ticket "Avatar" "How do I change my avatar picture".
Definition refund_ticket : CustomerTicket :=
  new_ticket "Refund" "My payment failed and I need a refund".

Definition login_ticket : CustomerTicket :=
  new_ticket "Cannot log in"
    "I tried resetting my password three times, still not working, very frustrated and angry".

Definition account_medium : ClassificationResult :=
  {| category := ACCOUNT; priority := MEDIUM; confidence := 0.6;
     reasoning := "login trouble" |}.

Definition billing_low : LlmClassification :=
  {| llm_category := Some "billing"; llm_priority := Some "low";
     llm_confidence := Some 0.5; llm_reasoning := Some "billing question" |}.

Definition general_low : LlmClassification :=
  {| llm_category := Some "general"; llm_priority := Some "low";
     llm_confidence := Some 0.5; llm_reasoning := Some "how-to question" |}.

Definition misspelt_category : LlmClassification :=
  {| llm_category := Some "Billing"; llm_priority := Some "low";
     llm_confidence := Some 0.5; llm_reasoning := Some "" |}.

Definition no_escalation : DecisionDict :=
  {| d_should_escalate := Some false; d_reason := Some "routine";
     d_escalation_type := None; d_priority_level := Some "standard";
     d_confidence := Some 0.5 |}.

Definition billing_escalation : DecisionDict :=
  {| d_should_escalate := Some true; d_reason := Some "billing dispute";
     d_escalation_type := Some "billing"; d_priority_level := Some "standard";
     d_confidence := Some 0.9 |}.

Definition legal_escalation : DecisionDict :=
  {| d_should_escalate := Some true; d_reason := Some "billing dispute";
     d_escalation_type := Some "legal"; d_priority_level := Some "standard";
     d_confidence := Some 0.9 |}.

Definition overconfident : DecisionDict :=
  {| d_should_escalate := Some false; d_reason := Some "routine";
     d_escalation_type := None; d_priority_level := Some "standard";
     d_confidence := Some 3 |}.

Definition general_classification : ClassificationResult :=
  {| category := GENERAL; priority := LOW; confidence := 0.5;
     reasoning := "how-to question" |}.

(** A language model that answers from a script. *)
Definition scripted_llm (c : exc LlmClassification) (d : exc DecisionDict)
    (text : exc string) : LLMService :=
  {| llm_classify_ticket := fun _ _ => c;
     llm_check_escalation := fun _ => d;
     llm_generate_resolution := fun _ _ => text |}.

(** A language model that is down. *)
Definition unreachable_llm : LLMService :=
  scripted_llm (inl "Error generating response: timeout")
               (inl "Error generating response: timeout")
               (inl "Error generating response: timeout").

Definition fixed_clock : Clock :=
  {| now_stamp := "20240101000000"; now_iso := "2024-01-01T00:00:00" |}.

Definition constant_embedding : EmbeddingService :=
  {| create_query_embedding := fun _ => inr [] |}.

Definition index_of (hits : list SearchResult) : ElasticsearchService :=
  {| hybrid_search := fun _ _ _ _ => inr hits;
     search_similar := fun _ _ _ => inr hits;
     update_article_stats := fun _ => inr tt |}.

Definition new_article (cat : TicketCategory) (count : Z) (stars : option Q)
    : KnowledgeArticle :=
  {| article_id := "kb-1"; title := "Resetting a password";
     content := "Open the settings page."; article_category := cat; tags := [];
     article_created_at := "2024-01-01T00:00:00"; article_updated_at := None;
     resolution_count := count; rating := stars |}.

Definition hit (a : KnowledgeArticle) (raw : Q) : SearchResult :=
  {| article := a; score := raw; relevance := "Medium" |}.

(** Agents that all raise. *)
Definition broken_agents : Agents :=
  {| agent_classify_ticket := fun _ => inl "boom";
     agent_get_classification_insights := fun _ => inl "boom";
     agent_search_knowledge_base := fun _ _ _ => inl "boom";
     agent_get_article_summary := fun _ => inl "boom";
     agent_evaluate_escalation := fun _ _ _ => inl "boom";
     agent_get_escalation_routing := fun _ => inl "boom";
     agent_generate_resolution := fun _ _ _ _ => inl "boom";
     agent_generate_escalation_response := fun _ _ => inl "boom" |}.

Definition no_insights : Insights :=
  {| text_length := 0; subject_length := 0; detected_categories := [];
     has_urgency_indicators := false; estimated_complexity := "medium" |}.

Definition no_summary : ArticleSummary :=
  {| total_results := 0; best_match_score := 0; average_score := None;
     categories_found := []; summary := "No relevant articles found";
     high_confidence_results := None |}.

(** Agents that work, except that the response builders raise. *)
Definition broken_writer_agents (escalate : bool) : Agents :=
  {| agent_classify_ticket := fun _ => inr general_classification;
     agent_get_classification_insights := fun _ => inr no_insights;
     agent_search_knowledge_base := fun _ _ _ => inr [];
     agent_get_article_summary := fun _ => inr no_summary;
     agent_evaluate_escalation :=
       fun _ _ _ =>
         inr {| should_escalate := escalate; reason := "AI: routine";
                escalation_type := Some "general"; priority_level := "standard";
                e_confidence := 0.5 |};
     agent_get_escalation_routing := fun d => inr (get_escalation_routing d);
     agent_generate_resolution := fun _ _ _ _ => inl "boom";
     agent_generate_escalation_response := fun _ _ => inl "boom" |}.

End Samples.

(** ** More sample tickets *)

Module MoreSamples.

(** A ticket whose customer name is a single space. *)
Definition blank_name_ticket : CustomerTicket :=
  {| ticket_id := Some "T-7"; customer_id := "cust-7"; subject := "Invoice";
     message := "Please send my invoice"; customer_name := Some " " |}.

Definition named_ticket : CustomerTicket :=
  {| ticket_id := Some "T-42"; customer_id := "cust-42";
     subject := "Court order";
     message := "My lawyer will send the court order";
     customer_name := Some "Ada Lovelace" |}.

Definition standard_escalation : EscalationDecision :=
  {| should_escalate := true; reason := "Rules: Security or legal concern";
     escalation_type := Some "legal"; priority_level := "urgent";
     e_confidence := 0.8 |}.

(** A store with one new ticket. *)
Definition one_ticket_db : Databases :=
  {| tickets_db :=
       fun k => if k =? "T-42"
                then Some {| stored_ticket := named_ticket; status := NEW;
                             updated_at := None |}
                else None;
     resolutions_db := fun _ => None |}.

(** A framework whose exception prints as its detail. *)
Definition plain_web : WebFramework :=
  {| http_exception_str := fun _ detail => detail |}.

(** Rounding of the exact value to [ndigits] decimals, half to even. *)
Definition half_even : Rounding :=
  {| py_round :=
       fun x ndigits =>
         let scale := inject_Z (10 ^ Z.of_nat ndigits) in
         let y := x * scale in
         let lower := Qfloor y in
         let nearest :=
           match Qcompare (y - inject_Z lower) (1 # 2) with
           | Lt => lower
           | Gt => (lower + 1)%Z
           | Eq => if Z.even lower then lower else (lower + 1)%Z
           end in
         inject_Z nearest / scale |}.

(** 120 words, 599 characters. *)
Definition long_text : string := String.concat " " (repeat "word" 120).

End MoreSamples.

(** ** Definitions used to state the properties *)

(** *** Escalation rules *)

(** Two invariants of the local variables, kept by every rule: the
    escalation type is a non-empty string, and as long as no reason has been
    recorded the variables are the initial ones. *)
Definition type_set (v : RuleLocals) : Prop :=
  PyStr.truthy (l_escalation_type v) = true.

Definition untouched (v : RuleLocals) : Prop :=
  l_escalation_reasons v = [] -> v = rule_locals_init.


(** *** Knowledge ranking *)

Definition category_eqb (a b : TicketCategory) : bool :=
  match a, b with
  | TECHNICAL, TECHNICAL | BILLING, BILLING | GENERAL, GENERAL
  | PRODUCT, PRODUCT | ACCOUNT, ACCOUNT => true
  | _, _ => false
  end.

(** The re-scoring formula in the words of the specification: the raw score
    times 1.2 on a category match, times 1 + min(popularity/100, 0.2) for a
    positive popularity, times 1 + (rating - 3.0) * 0.1 for a rating above
    3.0, capped at 1.0. *)
Definition spec_rescored (c : ClassificationResult) (r : SearchResult) : Q :=
  let category_factor :=
    if category_eqb (article_category (article r)) (category c) then 1.2 else 1 in
  let popularity_factor :=
    if (0 <? resolution_count (article r))%Z
    then 1 + Qmin (inject_Z (resolution_count (article r)) / 100) 0.2
    else 1 in
  let rating_factor :=
    match rating (article r) with
    | Some stars => if Qltb 3.0 stars then 1 + (stars - 3.0) * 0.1 else 1
    | None => 1
    end in
  Qmin (score r * category_factor * popularity_factor * rating_factor) 1.0.

(** Descending order of scores. *)
Definition score_ge (a b : SearchResult) : Prop := score b <= score a.


(** *** Resolution confidence *)

Definition mean_score (results : list SearchResult) : Q :=
  Qsum (map score results) / inject_Z (Z.of_nat (List.length results)).

Definition completeness (response_length : nat) : Q :=
  if (200 <? response_length)%nat
  then Qmin (inject_Z (Z.of_nat response_length) / 500) 1.0
  else 0.3.

Definition base_rate (c : ClassificationResult) : Q :=
  category_confidence (category_value (category c)).

Definition clamp (lo hi x : Q) : Q := Qmin (Qmax x lo) hi.

(** The confidence formula in the words of the specification: the knowledge
    term is 0.4 times the mean score, or 0.4 times 0.1 without candidates. *)
Definition spec_resolution_confidence (c : ClassificationResult)
    (results : list SearchResult) (response_length : nat) : Q :=
  let knowledge := match results with [] => 0.1 | _ => mean_score results end in
  clamp 0.1 0.95
    (0.3 * confidence c + 0.4 * knowledge
     + 0.2 * completeness response_length + 0.1 * base_rate c).

(** The formula of the code: without candidates the knowledge term is the
    flat 0.1. *)
Definition knowledge_term (results : list SearchResult) : Q :=
  match results with [] => 0.1 | _ => 0.4 * mean_score results end.


(** *** Response post-processing *)

(** The signature block the post-processor appends. *)
Definition signature_block : string :=
  nl ++ nl ++ "Best regards," ++ nl ++ "Customer Support Team".

Definition hello_once : string :=
  "Hello" ++ nl ++ nl
  ++ "Please let me know if you need any additional assistance!"
  ++ signature_block.


(** *** Workflow runs *)

Section WorkflowRun.
Context `{agents : Agents}.

(** The state a node leaves behind. *)
Definition after (n : Node) (state : SupportWorkflowState) : SupportWorkflowState :=
  match node_function n state with
  | inr state' => state'
  | inl _ => state
  end.

(** The node taken after [check_escalation]. *)
Definition branch_node (state : SupportWorkflowState) : Node :=
  if _should_escalate state =? "escalate" then escalate_ticket
  else generate_resolution_node.

(** The state at the end of a run. *)
Definition final_state (ticket : CustomerTicket) : SupportWorkflowState :=
  let s := after classify (initial_state ticket) in
  let s := after search_knowledge s in
  let s := after check_escalation s in
  let s := after (branch_node s) s in
  after finalize s.

Definition visited_nodes (ticket : CustomerTicket) : list Node :=
  let s := after classify (initial_state ticket) in
  let s := after search_knowledge s in
  let s := after check_escalation s in
  [classify; search_knowledge; check_escalation; branch_node s; finalize].

End WorkflowRun.

(** A node is a failure boundary around its body: what the body returns is
    returned, and an exception of the body becomes the state the handler
    builds. *)
Definition failure_boundary
    (body : SupportWorkflowState -> exc SupportWorkflowState)
    (handler : string -> SupportWorkflowState -> SupportWorkflowState)
    (node : SupportWorkflowState -> exc SupportWorkflowState) : Prop :=
  forall state,
    (forall state', body state = inr state' -> node state = inr state')
    /\ (forall e, body state = inl e -> node state = inr (handler e state)).

(** A handler appends the message of the exception, after the prefix of its
    stage, to the error list. *)
Definition records_error
    (handler : string -> SupportWorkflowState -> SupportWorkflowState)
    (stage_prefix : string) : Prop :=
  forall e state,
    st_error_messages (handler e state)
    = List.app (st_error_messages state) [stage_prefix ++ e].

(** What the batch holds for the ticket at position [i]. *)
Definition batch_entry (run : nat -> CustomerTicket -> exc TicketResult)
    (it : nat * CustomerTicket) : TicketResult :=
  match run (fst it) (snd it) with
  | inr r => r
  | inl text => batch_error (snd it) text
  end.


(** ** Definitions used to state the further properties *)

(** The three counts [_estimate_complexity] compares. *)
Definition complexity_count (level : nat) (text : string) : nat :=
  PyStr.count_in (snd (nth level complexity_indicators ("", [])))
                 (PyStr.lower text).

(** Descending order of strengths. *)
Definition strength_ge (a b : DetectedCategory) : Prop :=
  (strength b <= strength a)%nat.

(** The conditions of the seven rules. *)
Definition fires1 (c : ClassificationResult) : bool :=
  priority_value (priority c) =? "critical".
Definition fires2 (self : EscalationAgent) (text : string) : bool :=
  PyStr.any_in (map PyStr.lower (escalation_keywords self)) text.
Definition fires3 (text : string) : bool :=
  PyStr.any_in security_legal_keywords text.
Definition fires4 (c : ClassificationResult) (results : list SearchResult) : bool :=
  (category_value (category c) =? "technical")
  && PyStr.mem (priority_value (priority c)) ["high"; "critical"]
  && match results with
     | [] => true
     | best :: _ => Qltb (score best) 0.6
     end.
Definition fires5 (c : ClassificationResult) (text : string) : bool :=
  (category_value (category c) =? "billing")
  && PyStr.any_in billing_high_value_keywords text.
Definition fires6 (text : string) : bool :=
  (2 <=? PyStr.count_in frustration_keywords text)%nat.
Definition fires7 (text : string) : bool :=
  PyStr.any_in retry_indicators text.

(** The reasons the rules record, in rule order. *)
Definition fired_reasons (self : EscalationAgent) (ticket : CustomerTicket)
    (c : ClassificationResult) (results : list SearchResult) : list string :=
  let text := full_text ticket in
  List.app (if fires1 c then ["Critical priority ticket"] else [])
  (List.app (if fires2 self text then ["Customer requesting escalation"] else [])
  (List.app (if fires3 text then ["Security or legal concern"] else [])
  (List.app (if fires4 c results
             then ["Complex technical issue with no clear solution"] else [])
  (List.app (if fires5 c text then ["High-impact billing issue"] else [])
  (List.app (if fires6 text then ["Customer showing high frustration"] else [])
            (if fires7 text then ["Multiple failed resolution attempts"] else [])))))).

(** The search call [search_knowledge_base] makes for a search type. *)
Definition raw_search `{es : ElasticsearchService} (self : KnowledgeAgent)
    (ticket : CustomerTicket) (classification : option ClassificationResult)
    (search_type : string) (query_embedding : list Q)
    : exc (list SearchResult) :=
  let search_text := _prepare_search_query ticket classification in
  let category_filter :=
    match classification with
    | Some c =>
        if Qltb 0.7 (confidence c)
        then Some (category_value (category c)) else None
    | None => None
    end in
  if search_type =? "semantic"
  then search_similar query_embedding category_filter (max_articles self)
  else hybrid_search search_text query_embedding category_filter
                     (max_articles self).

(** The characters of a text. *)
Definition chars (s : string) : list ascii := list_ascii_of_string s.

(** A customer name that is not empty and holds white space only. *)
Definition blank_name (ticket : CustomerTicket) : Prop :=
  exists name, customer_name ticket = Some name
               /\ name <> EmptyString /\ PyText.split_ws name = [].

(** The ticket reference an escalation reply quotes. *)
Definition quoted_reference `{clock : Clock} (ticket : CustomerTicket) : string :=
  or_default (ticket_id ticket) ("TKT-" ++ now_stamp).

(** What a node may change: the fields of the state it leaves alone. *)
Record same_but (n : Node) (s s' : SupportWorkflowState) : Prop := {
  keeps_ticket : st_ticket s' = st_ticket s;
  keeps_classification :
    n <> classify -> st_classification s' = st_classification s;
  keeps_knowledge :
    n <> search_knowledge -> st_knowledge_results s' = st_knowledge_results s;
  keeps_escalation :
    n <> check_escalation ->
    st_escalation_decision s' = st_escalation_decision s;
  keeps_resolution :
    n <> generate_resolution_node -> n <> escalate_ticket ->
    st_resolution s' = st_resolution s;
  errors_grow :
    st_error_messages s' = st_error_messages s
    \/ exists msg, n <> finalize
                   /\ st_error_messages s' = List.app (st_error_messages s) [msg]
}.

(** What the state keeps of a search result: the article's tags, dates,
    resolution count and rating are not stored. *)
Definition stored_fields (result : SearchResult) : SearchResult :=
  {| article :=
       {| article_id := article_id (article result);
          title := title (article result);
          content := content (article result);
          article_category := article_category (article result);
          tags := [];
          article_created_at := "2024-01-01T00:00:00";
          article_updated_at := None;
          resolution_count := 0;
          rating := None |};
     score := score result;
     relevance := relevance result |}.

(** The rules of the escalation agent that read the ticket text only. *)
Definition text_rule_fires (ticket : CustomerTicket) : bool :=
  let text := full_text ticket in
  fires2 escalation_agent text || fires3 text || fires6 text || fires7 text.

(** [types.get(key, 0)] *)
Fixpoint count_of (key : string) (types : list (string * nat)) : nat :=
  match types with
  | [] => 0
  | (k, n) :: rest => if k =? key then n else count_of key rest
  end.

(** The decisions the report counts under [key]. *)
Definition counted_as (key : string) (decision : EscalationDecision) : bool :=
  should_escalate decision
  && is_truthy_str (escalation_type decision)
  && (from_option "" (escalation_type decision) =? key).

(** The escalated decisions the histogram leaves out: those without a
    type, or with the empty string for one. *)
Definition untyped (decision : EscalationDecision) : bool :=
  should_escalate decision && negb (is_truthy_str (escalation_type decision)).

Definition total_count (types : list (string * nat)) : nat :=
  fold_right Nat.add 0%nat (map snd types).

(** Words separated by single spaces: no white space other than the space,
    none at either end, no two in a row.  [after_space] says whether the
    text so far ended in a space (or has not begun). *)
Fixpoint single_spaced_from (after_space : bool) (s : string) : bool :=
  match s with
  | EmptyString => negb after_space
  | String c s' =>
      if PyText.is_space c
      then Ascii.eqb c " " && negb after_space && single_spaced_from true s'
      else single_spaced_from false s'
  end.

Definition single_spaced (s : string) : bool :=
  match s with
  | EmptyString => true
  | _ => single_spaced_from true s
  end.

(** ** Proof automation *)

Ltac rule_cases :=
  match goal with
  | |- context [if ?c then _ else _] => destruct c
  end.

Ltac solve_rule r :=
  unfold r, type_set, untouched; intros;
  repeat rule_cases; simpl in *; auto;
  try match goal with
      | H : List.app ?l [_] = [] |- _ => destruct l; discriminate H
      end.

Ltac bind_cases H :=
  repeat match type of H with
         | context [match ?c with inl _ => _ | inr _ => _ end] =>
             destruct c; simpl in H; try discriminate H
         end;
  try (injection H as H; subst; reflexivity).

Ltac frame_cases H :=
  repeat match type of H with
         | context [match ?c with inl _ => _ | inr _ => _ end] =>
             destruct c; simpl in H; try discriminate H
         end;
  try (injection H as H; subst).

Ltac frame_done :=
  constructor; simpl; intros; try congruence; try (left; reflexivity);
  try (right; eexists; split; [discriminate | reflexivity]).

(** * Properties *)

(** ** Text *)

Lemma prefix_app_r (p s t : string) :
  String.prefix p s = true -> String.prefix p (s ++ t) = true.
Proof.
  revert s; induction p as [|c p IH]; intros s H.
  - destruct (s ++ t); reflexivity.
  - destruct s as [|c' s]; simpl in *; [discriminate|].
    destruct (ascii_dec c c'); [auto | discriminate].
Qed.

Lemma contains_app_l (k a b : string) :
  PyStr.contains k a = true -> PyStr.contains k (a ++ b) = true.
Proof.
  induction a as [|c a IH]; simpl; intros H.
  - rewrite orb_false_r in H. destruct k; [|discriminate].
    destruct b; reflexivity.
  - apply orb_true_iff in H. apply orb_true_iff. destruct H as [H|H].
    + left. exact (prefix_app_r k (String c a) b H).
    + right. auto.
Qed.

Lemma contains_app_r (k a b : string) :
  PyStr.contains k b = true -> PyStr.contains k (a ++ b) = true.
Proof.
  induction a as [|c a IH]; simpl; intros H; [exact H|].
  apply orb_true_iff. right. auto.
Qed.

Lemma lower_app (a b : string) :
  PyStr.lower (a ++ b) = PyStr.lower a ++ PyStr.lower b.
Proof. induction a as [|c a IH]; simpl; [reflexivity | now rewrite IH]. Qed.

(** A keyword found in the lower-cased subject, or in the lower-cased
    message, is found in the text the rules scan. *)
Lemma keyword_in_subject_or_message (k : string) (ticket : CustomerTicket) :
  PyStr.contains k (PyStr.lower (subject ticket)) = true
  \/ PyStr.contains k (PyStr.lower (message ticket)) = true ->
  PyStr.contains k (full_text ticket) = true.
Proof.
  unfold full_text. rewrite !lower_app. intros [H|H].
  - now apply contains_app_l.
  - now apply contains_app_r, contains_app_r.
Qed.

Lemma any_in_true (keywords : list string) (text : string) :
  PyStr.any_in keywords text = true
  <-> exists k, In k keywords /\ PyStr.contains k text = true.
Proof. unfold PyStr.any_in. apply existsb_exists. Qed.

(** ** Classification *)

Lemma category_rule_step_confidence (ticket : CustomerTicket) (v : ClassificationDict) :
  cd_confidence (category_rule_step ticket v) = cd_confidence v.
Proof.
  unfold category_rule_step.
  destruct (category_priority_rules (cd_category v)) as [rules|]; [|reflexivity].
  destruct (_ && _); reflexivity.
Qed.

Lemma urgent_keyword_step_confidence (self : ClassifierAgent)
    (ticket : CustomerTicket) (llm_result : LlmClassification) :
  let advisory := from_option 0.5 (llm_confidence llm_result) in
  cd_confidence (urgent_keyword_step self ticket llm_result) = advisory
  \/ cd_confidence (urgent_keyword_step self ticket llm_result)
     = Qmin (advisory + 0.2) 1.0.
Proof.
  unfold urgent_keyword_step. destruct (_ && _); simpl; auto.
Qed.

(** C2.  Whenever one of the security/fraud keywords "hack", "breach",
    "security", "fraud", "phishing" occurs in the lower-cased text of the
    ticket (subject, a space, message), the rule-adjustment step returns
    category technical and priority critical, with confidence
    min(previous confidence + 0.3, 1.0), whatever the advisory and the two
    earlier rules chose; the previous confidence is the advisory's, raised by
    0.2 (capped at 1.0) when the urgent-keyword rule fired. *)
Theorem security_rule_always_wins (self : ClassifierAgent)
    (ticket : CustomerTicket) (llm_result : LlmClassification) :
  (exists k, In k security_keywords /\ PyStr.contains k (full_text ticket) = true) ->
  let before :=
    category_rule_step ticket (urgent_keyword_step self ticket llm_result) in
  let advisory := from_option 0.5 (llm_confidence llm_result) in
  let result := _apply_classification_rules self ticket llm_result in
  cd_category result = "technical"
  /\ cd_priority result = "critical"
  /\ cd_confidence result = Qmin (cd_confidence before + 0.3) 1.0
  /\ (cd_confidence before = advisory
      \/ cd_confidence before = Qmin (advisory + 0.2) 1.0).
Proof.
  intros Hkw before advisory result.
  apply any_in_true in Hkw.
  subst result. unfold _apply_classification_rules, security_step.
  fold before. rewrite Hkw. simpl.
  repeat split.
  subst before. rewrite category_rule_step_confidence.
  apply urgent_keyword_step_confidence.
Qed.

Lemma security_rule_always_wins_witness :
  (exists k, In k security_keywords
             /\ PyStr.contains k (full_text Samples.breach_ticket) = true)
  /\ cd_category (_apply_classification_rules classifier_agent
                    Samples.breach_ticket Samples.billing_low) = "technical"
  /\ cd_priority (_apply_classification_rules classifier_agent
                    Samples.breach_ticket Samples.billing_low) = "critical".
Proof.
  assert (H : exists k, In k security_keywords
                /\ PyStr.contains k (full_text Samples.breach_ticket) = true).
  { exists "breach". split; [simpl; tauto | reflexivity]. }
  split; [exact H|].
  pose proof (security_rule_always_wins classifier_agent Samples.breach_ticket
                Samples.billing_low H) as W.
  simpl in W. split; [exact (proj1 W) | exact (proj1 (proj2 W))].
Defined.

(** C9.  [classify_ticket] always returns.  When the advisory call raises,
    or when the adjusted dictionary cannot be made into a
    [ClassificationResult] (a category or priority outside the enumerations,
    a confidence outside [0, 1]), the result is exactly general / medium /
    0.3 and its reasoning records the failure; otherwise the result is the
    object built from the adjusted dictionary. *)
Theorem classify_ticket_never_raises `{llm : LLMService}
    (self : ClassifierAgent) (ticket : CustomerTicket) :
  (exists r, classify_ticket self ticket = inr r)
  /\ (forall e,
        llm_classify_ticket (subject ticket) (message ticket) = inl e ->
        classify_ticket self ticket = inr (fallback_classification e))
  /\ (forall llm_result e,
        llm_classify_ticket (subject ticket) (message ticket) = inr llm_result ->
        classification_of_dict (_apply_classification_rules self ticket llm_result)
        = inl e ->
        classify_ticket self ticket = inr (fallback_classification e))
  /\ (forall llm_result r,
        llm_classify_ticket (subject ticket) (message ticket) = inr llm_result ->
        classification_of_dict (_apply_classification_rules self ticket llm_result)
        = inr r ->
        classify_ticket self ticket = inr r).
Proof.
  unfold classify_ticket.
  destruct (llm_classify_ticket (subject ticket) (message ticket))
    as [e0|llm_result] eqn:Hllm; simpl.
  - repeat split.
    + eexists; reflexivity.
    + intros e He. now inversion He.
    + intros ? ? Habs. discriminate Habs.
    + intros ? ? Habs. discriminate Habs.
  - destruct (classification_of_dict
                (_apply_classification_rules self ticket llm_result))
      as [e1|r1] eqn:Hconv; simpl.
    + repeat split.
      * eexists; reflexivity.
      * intros ? Habs. discriminate Habs.
      * intros l e Hl He. inversion Hl; subst l. rewrite Hconv in He.
        now inversion He.
      * intros l r Hl Hr. inversion Hl; subst l. rewrite Hconv in Hr.
        discriminate Hr.
    + repeat split.
      * eexists; reflexivity.
      * intros ? Habs. discriminate Habs.
      * intros l e Hl He. inversion Hl; subst l. rewrite Hconv in He.
        discriminate He.
      * intros l r Hl Hr. inversion Hl; subst l. rewrite Hconv in Hr.
        now inversion Hr.
Qed.

Lemma classify_ticket_never_raises_witness :
  classify_ticket (llm := Samples.unreachable_llm) classifier_agent
                  Samples.calm_ticket
  = inr (fallback_classification "Error generating response: timeout")
  /\ classify_ticket
       (llm := Samples.scripted_llm (inr Samples.misspelt_category)
                 (inr Samples.no_escalation) (inr "text"))
       classifier_agent Samples.calm_ticket
     = inr (fallback_classification "'Billing' is not a valid TicketCategory").
Proof.
  split.
  - apply (proj1 (proj2 (classify_ticket_never_raises
                           (llm := Samples.unreachable_llm)
                           classifier_agent Samples.calm_ticket))).
    reflexivity.
  - apply (proj1 (proj2 (proj2 (classify_ticket_never_raises
             (llm := Samples.scripted_llm (inr Samples.misspelt_category)
                       (inr Samples.no_escalation) (inr "text"))
             classifier_agent Samples.calm_ticket)))
           Samples.misspelt_category);
      reflexivity.
Defined.

(** ** Escalation *)

Lemma evaluate_escalation_returns `{llm : LLMService} (self : EscalationAgent)
    (ticket : CustomerTicket) (classification : ClassificationResult)
    (search_results : list SearchResult) (llm_decision : DecisionDict) :
  llm_check_escalation (escalation_query ticket classification) = inr llm_decision ->
  let final :=
    _combine_decisions llm_decision
      (_apply_escalation_rules self ticket classification search_results) in
  evaluate_escalation self ticket classification search_results
  = inr {| should_escalate := f_should_escalate final;
           reason := f_reason final;
           escalation_type := Some (f_escalation_type final);
           priority_level := f_priority_level final;
           e_confidence := f_confidence final |}.
Proof.
  intros H. unfold evaluate_escalation. rewrite H. reflexivity.
Qed.

(** C4.  The combined decision escalates exactly when the advisory or the
    rule engine does (a missing key counts as "no"): either source alone
    forces escalation, and an advisory escalation is never undone by the
    rules.  The same holds for the decision [evaluate_escalation] returns
    whenever the advisory call returns. *)
Theorem should_escalate_is_logical_or `{llm : LLMService}
    (self : EscalationAgent) (ticket : CustomerTicket)
    (classification : ClassificationResult) (search_results : list SearchResult) :
  (forall llm_decision rule_decision,
      f_should_escalate (_combine_decisions llm_decision rule_decision)
      = from_option false (d_should_escalate llm_decision)
        || from_option false (d_should_escalate rule_decision))
  /\ (forall llm_decision rule_decision,
         d_should_escalate llm_decision = Some true ->
         f_should_escalate (_combine_decisions llm_decision rule_decision) = true)
  /\ (forall llm_decision rule_decision,
         d_should_escalate rule_decision = Some true ->
         f_should_escalate (_combine_decisions llm_decision rule_decision) = true)
  /\ (forall llm_decision,
         llm_check_escalation (escalation_query ticket classification)
         = inr llm_decision ->
         exists d,
           evaluate_escalation self ticket classification search_results = inr d
           /\ should_escalate d
              = from_option false (d_should_escalate llm_decision)
                || l_should_escalate
                     (run_escalation_rules self ticket classification
                                           search_results)).
Proof.
  repeat split.
  - intros a r H. simpl. now rewrite H.
  - intros a r H. simpl. rewrite H. apply orb_true_r.
  - intros a H. eexists. split.
    + apply evaluate_escalation_returns. exact H.
    + reflexivity.
Qed.

Lemma should_escalate_is_logical_or_witness :
  exists d,
    evaluate_escalation
      (llm := Samples.scripted_llm (inr Samples.general_low)
                (inr Samples.billing_escalation) (inr "text"))
      escalation_agent Samples.calm_ticket Samples.general_classification []
    = inr d
    /\ should_escalate d = true
    /\ l_should_escalate
         (run_escalation_rules escalation_agent Samples.calm_ticket
                               Samples.general_classification [])
       = false.
Proof.
  destruct (proj2 (proj2 (proj2 (should_escalate_is_logical_or
              (llm := Samples.scripted_llm (inr Samples.general_low)
                        (inr Samples.billing_escalation) (inr "text"))
              escalation_agent Samples.calm_ticket
              Samples.general_classification [])))
            Samples.billing_escalation eq_refl) as [d [Hd Hs]].
  exists d. split; [exact Hd|]. split; [|reflexivity].
  rewrite Hs. reflexivity.
Defined.

Lemma rule_confidence_range (reasons : list string) :
  0.5 <= rule_confidence reasons <= 0.9.
Proof.
  unfold rule_confidence.
  destruct (2 <? List.length reasons)%nat; [lra|].
  destruct (List.length reasons =? 2)%nat; [lra|].
  destruct (List.length reasons =? 1)%nat; lra.
Qed.

Lemma combined_confidence_mean (llm_decision rule_decision : DecisionDict) :
  f_confidence (_combine_decisions llm_decision rule_decision)
  == (from_option 0.5 (d_confidence llm_decision)
      + from_option 0.5 (d_confidence rule_decision)) / 2.
Proof. simpl. field. Qed.

(** C7, as the code has it.  The combined confidence is the arithmetic mean
    of the advisory confidence (0.5 when the key is missing) and the rule
    confidence.  The rule confidence is between 0.5 and 0.9; the advisory
    confidence is used as received, so the mean lies in [0, 1] when the
    advisory confidence does. *)
Theorem escalation_confidence_is_mean (self : EscalationAgent)
    (ticket : CustomerTicket) (classification : ClassificationResult)
    (search_results : list SearchResult) (llm_decision : DecisionDict) :
  let rule_decision :=
    _apply_escalation_rules self ticket classification search_results in
  let advisory := from_option 0.5 (d_confidence llm_decision) in
  let rules := from_option 0.5 (d_confidence rule_decision) in
  let combined := f_confidence (_combine_decisions llm_decision rule_decision) in
  combined == (advisory + rules) / 2
  /\ 0.5 <= rules <= 0.9
  /\ (0 <= advisory <= 1 -> 0 <= combined <= 1).
Proof.
  intros rule_decision advisory rules combined.
  assert (Hmean : combined == (advisory + rules) / 2).
  { subst combined. rewrite combined_confidence_mean. subst advisory rules. field. }
  assert (Hrules : 0.5 <= rules <= 0.9).
  { subst rules rule_decision. simpl. apply rule_confidence_range. }
  split; [exact Hmean|]. split; [exact Hrules|].
  clearbody combined rules advisory. intros Hadv. rewrite Hmean.
  setoid_replace ((advisory + rules) / 2) with ((advisory + rules) * (1 # 2))
    by field.
  lra.
Qed.

Lemma escalation_confidence_is_mean_witness :
  0 <= from_option 0.5 (d_confidence Samples.no_escalation) <= 1
  /\ 0 <= f_confidence
            (_combine_decisions Samples.no_escalation
               (_apply_escalation_rules escalation_agent Samples.refund_ticket
                  Samples.general_classification []))
       <= 1.
Proof.
  assert (H : 0 <= from_option 0.5 (d_confidence Samples.no_escalation) <= 1).
  { simpl. lra. }
  split; [exact H|].
  exact (proj2 (proj2 (escalation_confidence_is_mean escalation_agent
                         Samples.refund_ticket Samples.general_classification
                         [] Samples.no_escalation)) H).
Defined.

(** C7, as stated, fails: an advisory confidence above 1 is averaged as it
    is.  With advisory confidence 3 and no rule firing the combined
    confidence is 1.75, and that is the confidence of the decision
    [evaluate_escalation] returns. *)
Lemma escalation_confidence_can_exceed_one :
  f_confidence
    (_combine_decisions Samples.overconfident
       (_apply_escalation_rules escalation_agent Samples.calm_ticket
          Samples.general_classification []))
  == 1.75
  /\ ~ (0 <= f_confidence
              (_combine_decisions Samples.overconfident
                 (_apply_escalation_rules escalation_agent Samples.calm_ticket
                    Samples.general_classification []))
        <= 1)
  /\ exists d,
       evaluate_escalation
         (llm := Samples.scripted_llm (inr Samples.general_low)
                   (inr Samples.overconfident) (inr "Hello"))
         escalation_agent Samples.calm_ticket Samples.general_classification []
       = inr d
       /\ e_confidence d == 1.75.
Proof.
  split; [|split].
  - vm_compute. reflexivity.
  - intros [_ H]. vm_compute in H. apply H. reflexivity.
  - eexists. split; [reflexivity|]. vm_compute. reflexivity.
Qed.

(** *** The escalation type of the rule engine *)

Lemma rule1_inv c v :
  (type_set v -> type_set (rule1 c v)) /\ (untouched v -> untouched (rule1 c v)).
Proof. split; solve_rule rule1. Qed.

Lemma rule2_inv self text v :
  (type_set v -> type_set (rule2 self text v))
  /\ (untouched v -> untouched (rule2 self text v)).
Proof. split; solve_rule rule2. Qed.

Lemma rule3_inv text v :
  (type_set v -> type_set (rule3 text v)) /\ (untouched v -> untouched (rule3 text v)).
Proof. split; solve_rule rule3. Qed.

Lemma rule4_inv c results v :
  (type_set v -> type_set (rule4 c results v))
  /\ (untouched v -> untouched (rule4 c results v)).
Proof. split; solve_rule rule4. Qed.

Lemma rule5_inv c text v :
  (type_set v -> type_set (rule5 c text v))
  /\ (untouched v -> untouched (rule5 c text v)).
Proof. split; solve_rule rule5. Qed.

Lemma rule6_inv text v :
  (type_set v -> type_set (rule6 text v)) /\ (untouched v -> untouched (rule6 text v)).
Proof. split; solve_rule rule6. Qed.

Lemma rule7_inv text v :
  (type_set v -> type_set (rule7 text v)) /\ (untouched v -> untouched (rule7 text v)).
Proof. split; solve_rule rule7. Qed.

Lemma run_escalation_rules_inv (self : EscalationAgent) (ticket : CustomerTicket)
    (classification : ClassificationResult) (search_results : list SearchResult) :
  type_set (run_escalation_rules self ticket classification search_results)
  /\ untouched (run_escalation_rules self ticket classification search_results).
Proof.
  unfold run_escalation_rules. split.
  - apply rule7_inv, rule6_inv, rule5_inv, rule4_inv, rule3_inv, rule2_inv,
      rule1_inv. reflexivity.
  - apply rule7_inv, rule6_inv, rule5_inv, rule4_inv, rule3_inv, rule2_inv,
      rule1_inv. intros _. reflexivity.
Qed.

Lemma combined_type_is_rule_type (llm_decision rule_decision : DecisionDict)
    (t : string) :
  d_escalation_type rule_decision = Some t -> PyStr.truthy t = true ->
  f_escalation_type (_combine_decisions llm_decision rule_decision) = t.
Proof.
  intros Ht Htruthy. simpl. rewrite Ht. simpl. rewrite Htruthy. reflexivity.
Qed.

(** C10.  The escalation type the advisory names never reaches the combined
    decision: the rule engine always supplies a non-empty type, which the
    combination prefers.  Two advisory judgments that agree on every field
    but [escalation_type] give the same combined decision, and the same
    result of [evaluate_escalation]; when no rule fires and the advisory
    escalates, the type is "general". *)
Theorem advisory_escalation_type_is_ignored (self : EscalationAgent)
    (ticket : CustomerTicket) (classification : ClassificationResult)
    (search_results : list SearchResult) :
  let rule_decision :=
    _apply_escalation_rules self ticket classification search_results in
  (exists t, d_escalation_type rule_decision = Some t
             /\ PyStr.truthy t = true
             /\ forall llm_decision,
                  f_escalation_type (_combine_decisions llm_decision rule_decision)
                  = t)
  /\ (forall a b : DecisionDict,
         d_should_escalate a = d_should_escalate b ->
         d_reason a = d_reason b ->
         d_priority_level a = d_priority_level b ->
         d_confidence a = d_confidence b ->
         _combine_decisions a rule_decision = _combine_decisions b rule_decision)
  /\ (forall (llm_a llm_b : LLMService) (a b : DecisionDict),
         llm_check_escalation (LLMService := llm_a)
           (escalation_query ticket classification) = inr a ->
         llm_check_escalation (LLMService := llm_b)
           (escalation_query ticket classification) = inr b ->
         d_should_escalate a = d_should_escalate b ->
         d_reason a = d_reason b ->
         d_priority_level a = d_priority_level b ->
         d_confidence a = d_confidence b ->
         evaluate_escalation (llm := llm_a) self ticket classification
                             search_results
         = evaluate_escalation (llm := llm_b) self ticket classification
                               search_results)
  /\ (l_escalation_reasons
        (run_escalation_rules self ticket classification search_results) = [] ->
      forall llm_decision,
        d_should_escalate llm_decision = Some true ->
        f_should_escalate (_combine_decisions llm_decision rule_decision) = true
        /\ f_escalation_type (_combine_decisions llm_decision rule_decision)
           = "general").
Proof.
  intros rule_decision.
  destruct (run_escalation_rules_inv self ticket classification search_results)
    as [Hset Huntouched].
  assert (Htype : forall llm_decision,
             f_escalation_type (_combine_decisions llm_decision rule_decision)
             = l_escalation_type
                 (run_escalation_rules self ticket classification search_results)).
  { intros d. apply combined_type_is_rule_type; [reflexivity | exact Hset]. }
  assert (Hsame : forall a b : DecisionDict,
             d_should_escalate a = d_should_escalate b ->
             d_reason a = d_reason b ->
             d_priority_level a = d_priority_level b ->
             d_confidence a = d_confidence b ->
             _combine_decisions a rule_decision
             = _combine_decisions b rule_decision).
  { intros a b H1 H2 H3 H4.
    pose proof (Htype a) as Ta. pose proof (Htype b) as Tb.
    unfold _combine_decisions in *. simpl in Ta, Tb.
    rewrite H1, H2, H3, H4. f_equal. simpl. congruence. }
  split; [|split; [|split]].
  - eexists. split; [reflexivity|]. split; [exact Hset | exact Htype].
  - exact Hsame.
  - intros llm_a llm_b a b Ha Hb H1 H2 H3 H4.
    rewrite (evaluate_escalation_returns (llm := llm_a) self ticket
               classification search_results a Ha).
    rewrite (evaluate_escalation_returns (llm := llm_b) self ticket
               classification search_results b Hb).
    fold rule_decision. rewrite (Hsame a b H1 H2 H3 H4). reflexivity.
  - intros Hnone d Hd. split.
    + simpl. rewrite Hd. reflexivity.
    + rewrite Htype. rewrite (Huntouched Hnone). reflexivity.
Qed.

Lemma advisory_escalation_type_is_ignored_witness :
  _combine_decisions Samples.billing_escalation
    (_apply_escalation_rules escalation_agent Samples.calm_ticket
       Samples.general_classification [])
  = _combine_decisions Samples.legal_escalation
      (_apply_escalation_rules escalation_agent Samples.calm_ticket
         Samples.general_classification [])
  /\ f_escalation_type
       (_combine_decisions Samples.billing_escalation
          (_apply_escalation_rules escalation_agent Samples.calm_ticket
             Samples.general_classification []))
     = "general".
Proof.
  pose proof (advisory_escalation_type_is_ignored escalation_agent
                Samples.calm_ticket Samples.general_classification []) as W.
  split.
  - apply (proj1 (proj2 W)); reflexivity.
  - apply (proj2 (proj2 (proj2 W))); reflexivity.
Defined.

(** ** Knowledge ranking *)

Lemma category_value_eqb (a b : TicketCategory) :
  (category_value a =? category_value b) = category_eqb a b.
Proof. destruct a, b; reflexivity. Qed.

Lemma Qltb_true (a b : Q) : Qltb a b = true <-> a < b.
Proof.
  unfold Qltb. rewrite negb_true_iff. split; intros H.
  - apply Qnot_le_lt. intros Hle. apply Qle_bool_iff in Hle. congruence.
  - destruct (Qle_bool b a) eqn:E; [|reflexivity].
    apply Qle_bool_iff in E. exfalso. exact (Qlt_not_le _ _ H E).
Qed.

Lemma Qleb_true (a b : Q) : Qleb a b = true <-> a <= b.
Proof. apply Qle_bool_iff. Qed.

Lemma Qleb_false (a b : Q) : Qleb a b = false -> b <= a.
Proof.
  intros H. destruct (Qlt_le_dec a b) as [Hlt|Hle]; [|exact Hle].
  apply Qlt_le_weak in Hlt. apply Qleb_true in Hlt. congruence.
Qed.

Lemma rated_above_three_is_truthy (stars : Q) :
  Qltb 3.0 stars = true -> Qeq_bool stars 0 = false.
Proof.
  intros H. apply Qltb_true in H.
  destruct (Qeq_bool stars 0) eqn:E; [|reflexivity].
  apply Qeq_bool_iff in E. rewrite E in H. exfalso.
  apply (Qlt_not_le _ _ H). discriminate.
Qed.

Lemma enhance_score_is_spec (c : ClassificationResult) (r : SearchResult) :
  score (enhance (Some c) r) == spec_rescored c r.
Proof.
  unfold enhance, spec_rescored, adjusted_score. simpl.
  rewrite category_value_eqb.
  apply Q.min_compat; [|reflexivity].
  destruct (category_eqb _ _); destruct (0 <? _)%Z;
    (destruct (rating (article r)) as [stars|];
     [ destruct (Qltb 3.0 stars) eqn:E;
       [ rewrite (rated_above_three_is_truthy stars E); simpl
       | rewrite andb_false_r ]
     | ]); ring.
Qed.

Lemma insert_by_score_perm (x : SearchResult) (l : list SearchResult) :
  Permutation (x :: l) (insert_by_score x l).
Proof.
  induction l as [|y l IH]; simpl; [reflexivity|].
  destruct (Qleb (score y) (score x)); [reflexivity|].
  rewrite perm_swap. now apply perm_skip.
Qed.

Lemma sort_by_score_desc_perm (l : list SearchResult) :
  Permutation l (sort_by_score_desc l).
Proof.
  induction l as [|x l IH]; simpl; [constructor|].
  rewrite <- insert_by_score_perm. now apply perm_skip.
Qed.

Lemma insert_by_score_sorted (x : SearchResult) (l : list SearchResult) :
  Sorted score_ge l -> Sorted score_ge (insert_by_score x l).
Proof.
  induction l as [|y l IH]; simpl; intros Hs.
  - repeat constructor.
  - destruct (Qleb (score y) (score x)) eqn:E.
    + constructor; [exact Hs|]. constructor. apply Qleb_true. exact E.
    + inversion Hs as [|? ? Hs' Hhd]; subst.
      constructor; [auto|].
      apply Qleb_false in E.
      destruct l as [|z l]; simpl.
      * constructor. exact E.
      * destruct (Qleb (score z) (score x)); constructor;
          [exact E | now inversion Hhd].
Qed.

Lemma sort_by_score_desc_sorted (l : list SearchResult) :
  Sorted score_ge (sort_by_score_desc l).
Proof.
  induction l as [|x l IH]; simpl; [constructor|].
  now apply insert_by_score_sorted.
Qed.

Lemma score_ge_trans : Relations_1.Transitive score_ge.
Proof. intros a b c Hab Hbc. unfold score_ge in *. eapply Qle_trans; eauto. Qed.

Lemma search_knowledge_base_hybrid `{emb : EmbeddingService}
    `{es : ElasticsearchService} (self : KnowledgeAgent)
    (ticket : CustomerTicket) (c : ClassificationResult)
    (query_embedding : list Q) (results : list SearchResult) :
  create_query_embedding (_prepare_search_query ticket (Some c))
  = inr query_embedding ->
  hybrid_search (_prepare_search_query ticket (Some c)) query_embedding
    (if Qltb 0.7 (confidence c) then Some (category_value (category c)) else None)
    (max_articles self)
  = inr results ->
  search_knowledge_base self ticket (Some c) "hybrid"
  = inr (_enhance_search_results
           (filter (fun r => Qleb (min_relevance_score self) (score r)) results)
           ticket (Some c)).
Proof.
  intros Hemb Hsearch. unfold search_knowledge_base.
  rewrite Hemb. simpl. rewrite Hsearch. reflexivity.
Qed.

Lemma boosted_candidate_score (c : ClassificationResult) (a : SearchResult) :
  score a = 0.5 ->
  article_category (article a) = category c ->
  resolution_count (article a) = 200%Z ->
  rating (article a) = Some 5.0 ->
  score (enhance (Some c) a) == 0.864.
Proof.
  intros Hs Hc Hp Hr. unfold enhance, adjusted_score. simpl.
  rewrite Hs, Hc, Hp, Hr, category_value_eqb.
  destruct (category c); vm_compute; reflexivity.
Qed.

Lemma plain_candidate_score (c : ClassificationResult) (b : SearchResult) :
  score b = 0.5 ->
  article_category (article b) <> category c ->
  resolution_count (article b) = 0%Z ->
  rating (article b) = None ->
  score (enhance (Some c) b) == 0.5.
Proof.
  intros Hs Hc Hp Hr. unfold enhance, adjusted_score. simpl.
  rewrite Hs, Hp, Hr, category_value_eqb.
  destruct (article_category (article b)), (category c);
    try (exfalso; apply Hc; reflexivity); vm_compute; reflexivity.
Qed.

(** C8.  With a classification at hand, the score of every re-scored
    candidate is the raw score times 1.2 on a category match, times
    1 + min(popularity/100, 0.2) for a positive popularity, times
    1 + (rating - 3.0) * 0.1 for a rating above 3.0, capped at 1.0.  The
    result of [_enhance_search_results] is the list of re-scored candidates
    in descending order of that score, and [search_knowledge_base] returns
    it for exactly the candidates whose raw score is at least 0.3.  A
    candidate with popularity 200, rating 5.0, matching category and raw score
    0.5 scores 0.864, strictly above the 0.5 of a candidate with popularity 0,
    no rating, another category and the same raw score. *)
Theorem knowledge_ranking_formula `{emb : EmbeddingService}
    `{es : ElasticsearchService}
    (ticket : CustomerTicket) (c : ClassificationResult) :
  (forall r, score (enhance (Some c) r) == spec_rescored c r)
  /\ (forall results,
         Sorted score_ge (_enhance_search_results results ticket (Some c))
         /\ Permutation (map (enhance (Some c)) results)
                        (_enhance_search_results results ticket (Some c)))
  /\ (forall query_embedding results,
         create_query_embedding (_prepare_search_query ticket (Some c))
         = inr query_embedding ->
         hybrid_search (_prepare_search_query ticket (Some c)) query_embedding
           (if Qltb 0.7 (confidence c)
            then Some (category_value (category c)) else None)
           (max_articles knowledge_agent)
         = inr results ->
         exists ranked,
           search_knowledge_base knowledge_agent ticket (Some c) "hybrid"
           = inr ranked
           /\ Sorted score_ge ranked
           /\ forall x, In x ranked
                        <-> exists r, In r results /\ 0.3 <= score r
                                      /\ x = enhance (Some c) r)
  /\ (forall a b,
         score a = 0.5 -> article_category (article a) = category c ->
         resolution_count (article a) = 200%Z -> rating (article a) = Some 5.0 ->
         score b = 0.5 -> article_category (article b) <> category c ->
         resolution_count (article b) = 0%Z -> rating (article b) = None ->
         score (enhance (Some c) b) < score (enhance (Some c) a)).
Proof.
  split; [|split; [|split]].
  - apply enhance_score_is_spec.
  - intros results. unfold _enhance_search_results. split.
    + apply sort_by_score_desc_sorted.
    + apply sort_by_score_desc_perm.
  - intros query_embedding results Hemb Hsearch.
    eexists. split; [|split].
    + apply (search_knowledge_base_hybrid knowledge_agent ticket c
               query_embedding results Hemb Hsearch).
    + apply sort_by_score_desc_sorted.
    + intros x. unfold _enhance_search_results. split.
      * intros Hin.
        apply (Permutation_in _ (Permutation_sym (sort_by_score_desc_perm _)))
          in Hin.
        apply in_map_iff in Hin. destruct Hin as [r [Hx Hr]].
        apply filter_In in Hr. destruct Hr as [Hr Hfloor].
        exists r. repeat split; [exact Hr | | now symmetry].
        apply Qleb_true in Hfloor. exact Hfloor.
      * intros [r [Hr [Hfloor Hx]]]. subst x.
        apply (Permutation_in _ (sort_by_score_desc_perm _)).
        apply in_map. apply filter_In. split; [exact Hr|].
        apply Qleb_true. exact Hfloor.
  - intros a b Ha1 Ha2 Ha3 Ha4 Hb1 Hb2 Hb3 Hb4.
    rewrite (boosted_candidate_score c a Ha1 Ha2 Ha3 Ha4).
    rewrite (plain_candidate_score c b Hb1 Hb2 Hb3 Hb4).
    reflexivity.
Qed.

Lemma knowledge_ranking_formula_witness :
  score (enhance (Some Samples.general_classification)
           (Samples.hit (Samples.new_article BILLING 0 None) 0.5))
  < score (enhance (Some Samples.general_classification)
             (Samples.hit (Samples.new_article GENERAL 200 (Some 5.0)) 0.5))
  /\ exists ranked,
       search_knowledge_base
         (emb := Samples.constant_embedding)
         (es := Samples.index_of
                  [Samples.hit (Samples.new_article BILLING 0 None) 0.5;
                   Samples.hit (Samples.new_article GENERAL 200 (Some 5.0)) 0.5;
                   Samples.hit (Samples.new_article GENERAL 0 None) 0.2])
         knowledge_agent Samples.calm_ticket
         (Some Samples.general_classification) "hybrid"
       = inr ranked
       /\ Sorted score_ge ranked.
Proof.
  pose proof (knowledge_ranking_formula
                (emb := Samples.constant_embedding)
                (es := Samples.index_of
                         [Samples.hit (Samples.new_article BILLING 0 None) 0.5;
                          Samples.hit (Samples.new_article GENERAL 200 (Some 5.0)) 0.5;
                          Samples.hit (Samples.new_article GENERAL 0 None) 0.2])
                Samples.calm_ticket Samples.general_classification) as W.
  split.
  - apply (proj2 (proj2 (proj2 W))); try reflexivity. discriminate.
  - destruct (proj1 (proj2 (proj2 W)) [] _ eq_refl eq_refl) as [ranked [H1 [H2 _]]].
    exists ranked. split; [exact H1 | exact H2].
Defined.

(** ** Resolution confidence *)

Lemma clamp_range (x : Q) : 0.1 <= clamp 0.1 0.95 x <= 0.95.
Proof.
  unfold clamp. split.
  - apply Q.min_glb; [apply Q.le_max_r | discriminate].
  - apply Q.le_min_r.
Qed.

Lemma clamp_compat (lo hi x y : Q) : x == y -> clamp lo hi x == clamp lo hi y.
Proof. intros H. unfold clamp. now rewrite H. Qed.

Lemma resolution_confidence_formula (c : ClassificationResult)
    (results : list SearchResult) (response_length : nat) :
  _calculate_resolution_confidence c results response_length
  == clamp 0.1 0.95
       (0.3 * confidence c + knowledge_term results
        + 0.2 * completeness response_length + 0.1 * base_rate c).
Proof.
  unfold _calculate_resolution_confidence.
  fold (completeness response_length). fold (base_rate c).
  fold (clamp 0.1 0.95).
  destruct results as [|r rs].
  - apply clamp_compat. unfold Qsum, knowledge_term. simpl. ring.
  - fold (mean_score (r :: rs)). apply clamp_compat.
    unfold knowledge_term. unfold Qsum at 1. simpl fold_left. ring.
Qed.

(** C3, as the code has it.  The AI-path confidence is
    0.3 x classification.confidence + K + 0.2 x completeness + 0.1 x base
    rate, clamped to [0.1, 0.95], where K is 0.4 x (mean of all candidate
    scores) when there are candidates and the flat term 0.1 when there are
    none; completeness is min(length/500, 1) above 200 characters and 0.3
    otherwise.  The result is always in [0.1, 0.95], and with at least one
    candidate it is the formula of the specification. *)
Theorem resolution_confidence_weighted_sum (c : ClassificationResult)
    (results : list SearchResult) (response_length : nat) :
  _calculate_resolution_confidence c results response_length
  == clamp 0.1 0.95
       (0.3 * confidence c + knowledge_term results
        + 0.2 * completeness response_length + 0.1 * base_rate c)
  /\ 0.1 <= _calculate_resolution_confidence c results response_length <= 0.95
  /\ (results <> [] ->
      _calculate_resolution_confidence c results response_length
      == spec_resolution_confidence c results response_length).
Proof.
  split; [apply resolution_confidence_formula|]. split.
  - rewrite resolution_confidence_formula. apply clamp_range.
  - intros Hne. rewrite resolution_confidence_formula.
    unfold spec_resolution_confidence. apply clamp_compat.
    destruct results as [|r rs]; [congruence|].
    unfold knowledge_term. ring.
Qed.

Lemma resolution_confidence_weighted_sum_witness :
  [Samples.hit (Samples.new_article GENERAL 0 None) 1] <> []
  /\ _calculate_resolution_confidence Samples.general_classification
       [Samples.hit (Samples.new_article GENERAL 0 None) 1] 5000
     == spec_resolution_confidence Samples.general_classification
          [Samples.hit (Samples.new_article GENERAL 0 None) 1] 5000.
Proof.
  assert (H : [Samples.hit (Samples.new_article GENERAL 0 None) 1] <> [])
    by discriminate.
  split; [exact H|].
  exact (proj2 (proj2 (resolution_confidence_weighted_sum
                         Samples.general_classification
                         [Samples.hit (Samples.new_article GENERAL 0 None) 1]
                         5000)) H).
Defined.

(** C3, as stated, fails without candidates: the code adds 0.1 where the
    stated formula adds 0.4 x 0.1.  For a general ticket of confidence 0.5,
    no candidates and an empty response the code gives 0.39, the formula
    0.33. *)
Lemma resolution_confidence_without_candidates :
  _calculate_resolution_confidence Samples.general_classification [] 0 == 0.39
  /\ spec_resolution_confidence Samples.general_classification [] 0 == 0.33
  /\ ~ (_calculate_resolution_confidence Samples.general_classification [] 0
        == spec_resolution_confidence Samples.general_classification [] 0).
Proof.
  split; [vm_compute; reflexivity|].
  split; [vm_compute; reflexivity|].
  intros H. vm_compute in H. discriminate H.
Qed.

(** ** Response post-processing *)

(** C5 at a failing input.  For the response "Hello" to a low-priority
    ticket of an unnamed customer, the first pass appends the closing offer
    and the signature block; a second pass over that output finds that it
    does not end with "Best regards", "Sincerely" or "Thank you" -- it ends
    with the second line of the signature -- and appends the signature block
    again.  The twice-processed response differs from the once-processed
    one. *)
Theorem post_process_twice_repeats_signature `{clock : Clock} :
  _post_process_response resolution_agent "Hello"
    (Samples.new_ticket "Help" "Where is the menu")
    Samples.general_classification
  = inr hello_once
  /\ _post_process_response resolution_agent hello_once
       (Samples.new_ticket "Help" "Where is the menu")
       Samples.general_classification
     = inr (hello_once ++ signature_block)
  /\ hello_once ++ signature_block <> hello_once.
Proof.
  split; [vm_compute; reflexivity|].
  split; [vm_compute; reflexivity|].
  vm_compute. discriminate.
Qed.

(** ** The workflow *)

Section WorkflowProperties.
Context `{agents : Agents}.

Lemma guarded_boundary body handler state :
  guarded body handler state
  = inr (match body state with
         | inr state' => state'
         | inl e => handler e state
         end).
Proof. unfold guarded. destruct (body state); reflexivity. Qed.

Lemma node_function_returns (n : Node) (state : SupportWorkflowState) :
  node_function n state = inr (after n state).
Proof.
  unfold after. destruct n; simpl;
    try (unfold _classify_node, _search_knowledge_node, _check_escalation_node,
           _generate_resolution_node, _escalate_ticket_node;
         rewrite guarded_boundary; reflexivity).
  reflexivity.
Qed.

Lemma run_graph_step (k : nat) (n : Node) (visited : list Node)
    (state : SupportWorkflowState) :
  run_graph (S k) n visited state
  = match next_node n (after n state) with
    | None => inr (List.app visited [n], after n state)
    | Some n' => run_graph k n' (List.app visited [n]) (after n state)
    end.
Proof. simpl. rewrite node_function_returns. reflexivity. Qed.

Lemma run_graph_edge (k : nat) (n n' : Node) (visited : list Node)
    (state : SupportWorkflowState) :
  next_node n (after n state) = Some n' ->
  run_graph (S k) n visited state
  = run_graph k n' (List.app visited [n]) (after n state).
Proof. intros H. rewrite run_graph_step, H. reflexivity. Qed.

Lemma run_graph_end (k : nat) (n : Node) (visited : list Node)
    (state : SupportWorkflowState) :
  next_node n (after n state) = None ->
  run_graph (S k) n visited state = inr (List.app visited [n], after n state).
Proof. intros H. rewrite run_graph_step, H. reflexivity. Qed.

Lemma ainvoke_trace_returns (ticket : CustomerTicket) :
  ainvoke_trace (initial_state ticket)
  = inr (visited_nodes ticket, final_state ticket).
Proof.
  unfold ainvoke_trace, recursion_limit, entry_point.
  rewrite (run_graph_edge _ classify search_knowledge) by reflexivity.
  rewrite (run_graph_edge _ search_knowledge check_escalation) by reflexivity.
  rewrite (run_graph_edge _ check_escalation
             (branch_node (after check_escalation
                (after search_knowledge (after classify (initial_state ticket))))))
    by (unfold branch_node; simpl; destruct (_ =? _); reflexivity).
  rewrite (run_graph_edge _ _ finalize)
    by (unfold branch_node; destruct (_ =? _); reflexivity).
  rewrite run_graph_end by reflexivity.
  reflexivity.
Qed.

Lemma after_finalize (state : SupportWorkflowState) :
  st_workflow_status (after finalize state) = "completed"
  /\ total_errors (st_metadata (after finalize state))
     = Some (List.length (st_error_messages (after finalize state)))
  /\ st_error_messages (after finalize state) = st_error_messages state
  /\ st_ticket (after finalize state) = st_ticket state.
Proof. repeat split. Qed.

Lemma process_ticket_returns (ticket : CustomerTicket) :
  process_ticket ticket = inr (FinalState (final_state ticket)).
Proof.
  unfold process_ticket, ainvoke. rewrite ainvoke_trace_returns. reflexivity.
Qed.

End WorkflowProperties.

Lemma guarded_is_failure_boundary body handler :
  failure_boundary body handler (guarded body handler).
Proof.
  intros state. rewrite guarded_boundary.
  split; intros x H; rewrite H; reflexivity.
Qed.

(** C1, as the code has it.  Each of the five stages is a failure boundary:
    an exception of its body is caught, its message is appended (after the
    stage's prefix) to the error list, and the stage's default is stored:
    classification general / medium / 0.3; an empty knowledge list; a forced
    escalation of type technical, priority level standard, confidence 0.3;
    for [generate_resolution] the apology resolution (confidence 0.1, agent
    type fallback); for [escalate_ticket] a fixed escalation notice
    (confidence 0.8, agent type escalation_fallback).  Every run visits
    classify, search_knowledge, check_escalation, one of the two resolution
    stages and finalize; finalize sets the status to completed and records
    the number of errors; [process_ticket] returns that final state and
    never raises. *)
Theorem stages_are_failure_boundaries `{agents : Agents} (ticket : CustomerTicket) :
  (failure_boundary classify_try classify_except _classify_node
   /\ failure_boundary search_knowledge_try search_knowledge_except
        _search_knowledge_node
   /\ failure_boundary check_escalation_try check_escalation_except
        _check_escalation_node
   /\ failure_boundary generate_resolution_try generate_resolution_except
        _generate_resolution_node
   /\ failure_boundary escalate_ticket_try escalate_ticket_except
        _escalate_ticket_node)
  /\ (records_error classify_except "Classification failed: "
      /\ records_error search_knowledge_except "Knowledge search failed: "
      /\ records_error check_escalation_except "Escalation check failed: "
      /\ records_error generate_resolution_except "Resolution generation failed: "
      /\ records_error escalate_ticket_except "Escalation failed: ")
  /\ (forall e state,
         st_classification (classify_except e state)
         = Some {| c_category := "general"; c_priority := "medium";
                   c_confidence := 0.3;
                   c_reasoning := "Classification failed: " ++ e;
                   c_insights := None |}
         /\ st_knowledge_results (search_knowledge_except e state) = []
         /\ st_escalation_decision (check_escalation_except e state)
            = Some {| s_should_escalate := true;
                      s_reason := "Escalation check failed: " ++ e;
                      s_escalation_type := Some "technical";
                      s_priority_level := "standard";
                      s_confidence := 0.3;
                      s_routing := None |}
         /\ st_resolution (generate_resolution_except e state)
            = Some {| rs_ticket_id :=
                        Some (or_default (ticket_id (st_ticket state)) "unknown");
                      rs_response := "I apologize, but I'm experiencing technical difficulties. A human agent will assist you shortly.";
                      rs_confidence := 0.1;
                      rs_knowledge_articles_used := Some [];
                      rs_agent_type := "fallback";
                      rs_created_at := None |}
         /\ st_resolution (escalate_ticket_except e state)
            = Some {| rs_ticket_id :=
                        Some (or_default (ticket_id (st_ticket state)) "unknown");
                      rs_response := "Your request has been escalated to our specialist team. Someone will contact you shortly.";
                      rs_confidence := 0.8;
                      rs_knowledge_articles_used := Some [];
                      rs_agent_type := "escalation_fallback";
                      rs_created_at := None |})
  /\ (exists visited final,
         ainvoke_trace (initial_state ticket) = inr (visited, final)
         /\ (visited = [classify; search_knowledge; check_escalation;
                        generate_resolution_node; finalize]
             \/ visited = [classify; search_knowledge; check_escalation;
                           escalate_ticket; finalize])
         /\ st_workflow_status final = "completed"
         /\ total_errors (st_metadata final)
            = Some (List.length (st_error_messages final))
         /\ process_ticket ticket = inr (FinalState final)).
Proof.
  split; [|split; [|split]].
  - repeat split; apply guarded_is_failure_boundary.
  - repeat split.
  - intros e state. repeat split.
  - exists (visited_nodes ticket), (final_state ticket).
    split; [apply ainvoke_trace_returns|].
    split; [|split; [|split]].
    + unfold visited_nodes, branch_node. destruct (_ =? _); auto.
    + apply after_finalize.
    + apply after_finalize.
    + apply process_ticket_returns.
Qed.

Lemma stages_are_failure_boundaries_witness :
  classify_try (agents := Samples.broken_agents)
    (initial_state Samples.calm_ticket) = inl "boom"
  /\ _classify_node (agents := Samples.broken_agents)
       (initial_state Samples.calm_ticket)
     = inr (classify_except "boom" (initial_state Samples.calm_ticket)).
Proof.
  assert (H : classify_try (agents := Samples.broken_agents)
                (initial_state Samples.calm_ticket) = inl "boom")
    by reflexivity.
  split; [exact H|].
  exact (proj2 (proj1 (proj1 (stages_are_failure_boundaries
                                (agents := Samples.broken_agents)
                                Samples.calm_ticket))
                  (initial_state Samples.calm_ticket)) "boom" H).
Defined.

(** C1, as stated, gives the failing [escalate_ticket] stage the apology
    resolution.  In a run that escalates and whose escalation response
    builder raises, the stored resolution is the escalation notice: it is
    not the apology resolution and holds no apology. *)
Lemma escalate_ticket_default_is_no_apology :
  exists final,
    process_ticket (agents := Samples.broken_writer_agents true)
                   Samples.calm_ticket
    = inr (FinalState final)
    /\ st_error_messages final = ["Escalation failed: boom"]
    /\ st_resolution final = Some (escalation_fallback Samples.calm_ticket)
    /\ st_resolution final <> Some (resolution_fallback Samples.calm_ticket)
    /\ PyStr.contains "apolog"
         (PyStr.lower (rs_response (escalation_fallback Samples.calm_ticket)))
       = false.
Proof.
  eexists. split; [vm_compute; reflexivity|].
  split; [reflexivity|]. split; [reflexivity|].
  split; [discriminate | reflexivity].
Qed.

(** ** Batch processing *)

Lemma skipn_cons_nth {A} (l : list A) (k : nat) (x : A) (rest : list A) :
  skipn k l = x :: rest -> nth_error l k = Some x /\ skipn (S k) l = rest.
Proof.
  revert l; induction k as [|k IH]; intros l H.
  - destruct l; simpl in H; inversion H; subst. split; reflexivity.
  - destruct l as [|y l]; simpl in H; [discriminate|].
    destruct (IH l H) as [H1 H2]. split; assumption.
Qed.

Lemma collect_results_suffix (run : nat -> CustomerTicket -> exc TicketResult)
    (tickets : list CustomerTicket) :
  forall (suffix : list CustomerTicket) (k : nat) (processed : list TicketResult),
    skipn k tickets = suffix ->
    collect_results tickets k
      (map (fun it => run (fst it) (snd it))
           (combine (seq k (List.length suffix)) suffix))
      processed
    = inr (List.app processed
             (map (batch_entry run) (combine (seq k (List.length suffix)) suffix))).
Proof.
  induction suffix as [|t suffix IH]; intros k processed Hk; simpl.
  - now rewrite app_nil_r.
  - destruct (skipn_cons_nth tickets k t suffix Hk) as [Hnth Hrest].
    unfold batch_entry at 1. simpl.
    destruct (run k t) as [text|r].
    + rewrite Hnth. rewrite (IH (S k) _ Hrest). now rewrite <- app_assoc.
    + rewrite (IH (S k) _ Hrest). now rewrite <- app_assoc.
Qed.

Lemma nth_error_enumerated {A B} (f : nat * A -> B) (l : list A) :
  forall k i,
    nth_error (map f (combine (seq k (List.length l)) l)) i
    = option_map (fun x => f ((k + i)%nat, x)) (nth_error l i).
Proof.
  induction l as [|x l IH]; intros k i; simpl.
  - destruct i; reflexivity.
  - destruct i as [|i]; simpl.
    + now rewrite Nat.add_0_r.
    + rewrite IH. now rewrite Nat.add_succ_r.
Qed.

Lemma process_batch_of_returns (run : nat -> CustomerTicket -> exc TicketResult)
    (tickets : list CustomerTicket) :
  process_batch_of run tickets
  = inr (map (batch_entry run) (combine (seq 0 (List.length tickets)) tickets)).
Proof.
  unfold process_batch_of, gather.
  exact (collect_results_suffix run tickets tickets 0 [] eq_refl).
Qed.

Section TicketIdentity.
Context `{agents : Agents}.

Lemma inr_inj {A} (x y : A) : @inr string A x = inr y -> x = y.
Proof. intros H. now inversion H. Qed.

Lemma after_keeps_ticket (n : Node) (state : SupportWorkflowState) :
  st_ticket (after n state) = st_ticket state.
Proof.
  unfold after.
  destruct (node_function n state) as [e|state'] eqn:H; [reflexivity|].
  destruct n; simpl in H;
    try (unfold _classify_node, _search_knowledge_node, _check_escalation_node,
           _generate_resolution_node, _escalate_ticket_node in H;
         rewrite guarded_boundary in H; apply inr_inj in H; subst state').
  - destruct (classify_try state) as [e|s] eqn:E; [reflexivity|].
    unfold classify_try in E. simpl in E. bind_cases E.
  - destruct (search_knowledge_try state) as [e|s] eqn:E; [reflexivity|].
    unfold search_knowledge_try in E. simpl in E. bind_cases E.
  - destruct (check_escalation_try state) as [e|s] eqn:E; [reflexivity|].
    unfold check_escalation_try in E. simpl in E. bind_cases E.
  - destruct (generate_resolution_try state) as [e|s] eqn:E; [reflexivity|].
    unfold generate_resolution_try in E. simpl in E. bind_cases E.
  - destruct (escalate_ticket_try state) as [e|s] eqn:E; [reflexivity|].
    unfold escalate_ticket_try in E. simpl in E. bind_cases E.
  - apply inr_inj in H. subst state'. reflexivity.
Qed.

Lemma final_state_ticket (ticket : CustomerTicket) :
  st_ticket (final_state ticket) = ticket.
Proof. unfold final_state. now rewrite !after_keeps_ticket. Qed.

End TicketIdentity.

(** C6.  [process_batch] never raises and returns one result per input
    ticket, at the ticket's position.  The entry for a ticket whose run
    returned is the result of that run; the entry for a ticket whose run
    raised is a failed result for that ticket holding the exception text
    (status failed, agent type batch_error), and the other entries are not
    affected.  With [process_ticket] as the run, every entry is the result of
    [process_ticket] on the ticket at that position. *)
Theorem process_batch_keeps_positions `{agents : Agents}
    (run : nat -> CustomerTicket -> exc TicketResult)
    (tickets : list CustomerTicket) :
  (exists results,
      process_batch_of run tickets = inr results
      /\ List.length results = List.length tickets
      /\ forall i ticket,
           nth_error tickets i = Some ticket ->
           (forall r, run i ticket = inr r -> nth_error results i = Some r)
           /\ (forall text, run i ticket = inl text ->
                 nth_error results i = Some (batch_error ticket text)))
  /\ (forall ticket text,
         result_ticket (batch_error ticket text) = ticket
         /\ result_status (batch_error ticket text) = "failed"
         /\ result_errors (batch_error ticket text) = [text]
         /\ option_map rs_agent_type (result_resolution (batch_error ticket text))
            = Some "batch_error")
  /\ (exists results,
         process_batch tickets = inr results
         /\ List.length results = List.length tickets
         /\ forall i ticket,
              nth_error tickets i = Some ticket ->
              exists r, nth_error results i = Some r
                        /\ process_ticket ticket = inr r
                        /\ result_ticket r = ticket).
Proof.
  split; [|split].
  - eexists. split; [apply process_batch_of_returns|]. split.
    + rewrite length_map, length_combine, length_seq. apply Nat.min_id.
    + intros i ticket Hi. rewrite nth_error_enumerated, Hi. simpl.
      unfold batch_entry. simpl.
      split; intros x Hx; rewrite Hx; reflexivity.
  - intros ticket text. repeat split.
  - unfold process_batch. eexists.
    split; [apply process_batch_of_returns|]. split.
    + rewrite length_map, length_combine, length_seq. apply Nat.min_id.
    + intros i ticket Hi. rewrite nth_error_enumerated, Hi. simpl.
      unfold batch_entry. simpl. rewrite process_ticket_returns.
      eexists. split; [reflexivity|]. split; [reflexivity|].
      simpl. apply final_state_ticket.
Qed.

Lemma process_batch_keeps_positions_witness :
  exists results,
    process_batch_of
      (fun i ticket =>
         if (i =? 1)%nat then inl "cancelled"
         else process_ticket (agents := Samples.broken_agents) ticket)
      [Samples.calm_ticket; Samples.breach_ticket; Samples.refund_ticket]
    = inr results
    /\ List.length results = 3%nat
    /\ nth_error results 1
       = Some (batch_error Samples.breach_ticket "cancelled").
Proof.
  destruct (proj1 (process_batch_keeps_positions
                     (agents := Samples.broken_agents)
                     (fun i ticket =>
                        if (i =? 1)%nat then inl "cancelled"
                        else process_ticket (agents := Samples.broken_agents)
                                            ticket)
                     [Samples.calm_ticket; Samples.breach_ticket;
                      Samples.refund_ticket]))
    as [results [H1 [H2 H3]]].
  exists results. split; [exact H1|]. split; [exact H2|].
  exact (proj2 (H3 1%nat Samples.breach_ticket eq_refl) "cancelled" eq_refl).
Defined.

(** ** Worked scenarios *)

(** The frustrated customer of the specification: the escalation-request,
    frustration and repeated-attempt rules fire, and the type is
    management. *)
Example frustrated_login_escalates :
  _apply_escalation_rules escalation_agent Samples.login_ticket
    Samples.account_medium []
  = {| d_should_escalate := Some true;
       d_reason :=
         Some "Customer requesting escalation; Customer showing high frustration; Multiple failed resolution attempts";
       d_escalation_type := Some "management";
       d_priority_level := Some "standard";
       d_confidence := Some 0.9 |}.
Proof. reflexivity. Qed.

(** A refund request classified as billing, run through the whole pipeline
    with the repository's agents: the billing rule escalates it, the
    escalation stage writes the reply, and no stage fails. *)
Example refund_request_end_to_end :
  exists final,
    process_ticket
      (agents :=
         pipeline_agents
           (llm := Samples.scripted_llm (inr Samples.billing_low)
                     (inr Samples.no_escalation) (inr "Hello"))
           (emb := Samples.constant_embedding)
           (es := Samples.index_of [])
           (clock := Samples.fixed_clock)
           (fun _ => inr Samples.no_insights)
           (fun _ => inr Samples.no_summary))
      Samples.refund_ticket
    = inr (FinalState final)
    /\ st_workflow_status final = "completed"
    /\ st_error_messages final = []
    /\ option_map c_category (st_classification final) = Some "billing"
    /\ option_map c_priority (st_classification final) = Some "high"
    /\ option_map s_should_escalate (st_escalation_decision final) = Some true
    /\ option_map s_escalation_type (st_escalation_decision final)
       = Some (Some "billing")
    /\ option_map rs_agent_type (st_resolution final) = Some "escalation".
Proof.
  eexists. split; [vm_compute; reflexivity|]. repeat split.
Qed.

(** * Further properties *)

(** ** Enumerations *)

Lemma TicketCategory_of_value (c : TicketCategory) :
  TicketCategory_of (category_value c) = inr c.
Proof. destruct c; reflexivity. Qed.

Lemma TicketPriority_of_value (p : TicketPriority) :
  TicketPriority_of (priority_value p) = inr p.
Proof. destruct p; reflexivity. Qed.





(** ** More on classification *)

Lemma _priority_level_max (p : string) : (_priority_level p <= 4)%nat.
Proof.
  unfold _priority_level.
  repeat match goal with
         | |- context [if ?c then _ else _] => destruct c
         end; lia.
Qed.

Lemma low_or_medium_level (p : string) :
  PyStr.mem p ["low"; "medium"] = true -> (_priority_level p <= 2)%nat.
Proof.
  unfold PyStr.mem. simpl.
  destruct (String.eqb_spec p "low") as [->|_]; [intros _; vm_compute; lia|].
  destruct (String.eqb_spec p "medium") as [->|_]; [intros _; vm_compute; lia|].
  discriminate.
Qed.

Lemma urgent_keyword_step_priority (self : ClassifierAgent)
    (ticket : CustomerTicket) (r : LlmClassification) :
  (_priority_level (from_option "medium" (llm_priority r))
   <= _priority_level (cd_priority (urgent_keyword_step self ticket r)))%nat.
Proof.
  unfold urgent_keyword_step.
  destruct (PyStr.any_in _ _); destruct (PyStr.mem _ _) eqn:E;
    cbn [andb cd_priority]; try lia.
  apply low_or_medium_level in E.
  change (_priority_level "high") with 3%nat. lia.
Qed.

Lemma category_rule_step_priority (ticket : CustomerTicket) (v : ClassificationDict) :
  (_priority_level (cd_priority v)
   <= _priority_level (cd_priority (category_rule_step ticket v)))%nat.
Proof.
  unfold category_rule_step.
  destruct (category_priority_rules (cd_category v)) as [rules|]; [|lia].
  destruct (PyStr.any_in _ _); simpl; [|lia].
  destruct (Nat.ltb_spec (_priority_level (cd_priority v))
              (_priority_level (min_priority rules))); simpl; lia.
Qed.

Lemma security_step_priority (ticket : CustomerTicket) (v : ClassificationDict) :
  (_priority_level (cd_priority v)
   <= _priority_level (cd_priority (security_step ticket v)))%nat.
Proof.
  unfold security_step. destruct (PyStr.any_in _ _); simpl; [|lia].
  apply _priority_level_max.
Qed.

Lemma prefix_self_app (s t : string) : String.prefix s (s ++ t) = true.
Proof.
  induction s as [|c s IH]; simpl.
  - destruct t; reflexivity.
  - destruct (ascii_dec c c); [exact IH | congruence].
Qed.

Lemma prefix_trans (a b c : string) :
  String.prefix a b = true -> String.prefix b c = true ->
  String.prefix a c = true.
Proof.
  revert b c; induction a as [|x a IH]; intros b c Hab Hbc.
  - destruct c; reflexivity.
  - destruct b as [|y b]; simpl in Hab; [discriminate|].
    destruct c as [|z c]; simpl in Hbc; [discriminate|].
    destruct (ascii_dec x y) as [->|]; [|discriminate].
    simpl. destruct (ascii_dec y z) as [->|]; [|discriminate].
    destruct (ascii_dec z z); [|congruence]. eauto.
Qed.

Lemma prefix_refl (s : string) : String.prefix s s = true.
Proof.
  induction s as [|c s IH]; simpl; [reflexivity|].
  destruct (ascii_dec c c); [exact IH | congruence].
Qed.

Lemma rules_reasoning_prefix (self : ClassifierAgent) (ticket : CustomerTicket)
    (r : LlmClassification) :
  String.prefix (from_option "" (llm_reasoning r))
    (cd_reasoning (_apply_classification_rules self ticket r)) = true.
Proof.
  unfold _apply_classification_rules.
  apply prefix_trans
    with (b := cd_reasoning (urgent_keyword_step self ticket r)).
  { unfold urgent_keyword_step. destruct (_ && _); simpl;
      [apply prefix_self_app | apply prefix_refl]. }
  apply prefix_trans
    with (b := cd_reasoning
                 (category_rule_step ticket (urgent_keyword_step self ticket r))).
  { unfold category_rule_step.
    destruct (category_priority_rules _); [|apply prefix_refl].
    destruct (_ && _); simpl; [apply prefix_self_app | apply prefix_refl]. }
  unfold security_step. destruct (PyStr.any_in _ _); simpl;
    [apply prefix_self_app | apply prefix_refl].
Qed.

Lemma boosted_confidence_range (c step : Q) :
  0 <= step -> c <= 1 -> c <= Qmin (c + step) 1.0 <= 1.
Proof.
  intros Hs Hc. split.
  - apply Q.min_glb; lra.
  - eapply Qle_trans; [apply Q.le_min_r | lra].
Qed.

Lemma rules_confidence_range (self : ClassifierAgent) (ticket : CustomerTicket)
    (r : LlmClassification) :
  from_option 0.5 (llm_confidence r) <= 1 ->
  from_option 0.5 (llm_confidence r)
  <= cd_confidence (_apply_classification_rules self ticket r) <= 1.
Proof.
  intros Ha. unfold _apply_classification_rules.
  set (a := from_option 0.5 (llm_confidence r)) in *.
  assert (H1 : a <= cd_confidence (urgent_keyword_step self ticket r) <= 1).
  { unfold urgent_keyword_step. fold a. destruct (_ && _); simpl.
    - apply boosted_confidence_range; [discriminate | exact Ha].
    - split; [apply Qle_refl | exact Ha]. }
  unfold security_step. rewrite category_rule_step_confidence.
  destruct (PyStr.any_in _ _); simpl.
  - destruct (boosted_confidence_range
                (cd_confidence (urgent_keyword_step self ticket r)) 0.3)
      as [L U]; [discriminate | apply H1 |].
    split; [eapply Qle_trans; [apply H1 | exact L] | exact U].
  - rewrite category_rule_step_confidence. exact H1.
Qed.

(** X2.  The rule adjustment only raises.  The priority level of the result
    is never below the advisory's, the advisory's reasoning is a prefix of
    the returned reasoning, and an advisory confidence of at most 1 is never
    lowered and never pushed above 1 (missing keys count as medium, the empty
    reasoning and 0.5). *)
Theorem classification_rules_only_raise (self : ClassifierAgent)
    (ticket : CustomerTicket) (llm_result : LlmClassification) :
  let result := _apply_classification_rules self ticket llm_result in
  (_priority_level (from_option "medium" (llm_priority llm_result))
   <= _priority_level (cd_priority result))%nat
  /\ String.prefix (from_option "" (llm_reasoning llm_result))
                   (cd_reasoning result) = true
  /\ (from_option 0.5 (llm_confidence llm_result) <= 1 ->
      from_option 0.5 (llm_confidence llm_result) <= cd_confidence result <= 1).
Proof.
  intros result. split; [|split].
  - subst result. unfold _apply_classification_rules.
    eapply Nat.le_trans; [apply urgent_keyword_step_priority|].
    eapply Nat.le_trans; [apply category_rule_step_priority|].
    apply security_step_priority.
  - apply rules_reasoning_prefix.
  - apply rules_confidence_range.
Qed.

Lemma classification_rules_only_raise_witness :
  from_option 0.5 (llm_confidence Samples.billing_low) <= 1
  /\ from_option 0.5 (llm_confidence Samples.billing_low)
     <= cd_confidence
          (_apply_classification_rules classifier_agent Samples.refund_ticket
             Samples.billing_low)
     <= 1.
Proof.
  assert (H : from_option 0.5 (llm_confidence Samples.billing_low) <= 1)
    by (simpl; lra).
  split; [exact H|].
  exact (proj2 (proj2 (classification_rules_only_raise classifier_agent
                         Samples.refund_ticket Samples.billing_low)) H).
Defined.

Lemma classification_of_dict_valid (d : ClassificationDict)
    (c : TicketCategory) (p : TicketPriority) :
  cd_category d = category_value c ->
  cd_priority d = priority_value p ->
  0 <= cd_confidence d <= 1 ->
  classification_of_dict d
  = inr {| category := c; priority := p; confidence := cd_confidence d;
           reasoning := cd_reasoning d |}.
Proof.
  intros Hc Hp [H0 H1]. unfold classification_of_dict.
  rewrite Hc, TicketCategory_of_value. simpl.
  rewrite Hp, TicketPriority_of_value. simpl.
  unfold new_ClassificationResult.
  apply Qleb_true in H0. apply Qleb_true in H1. rewrite H0, H1. reflexivity.
Qed.

Lemma rules_category (self : ClassifierAgent) (ticket : CustomerTicket)
    (r : LlmClassification) :
  cd_category (_apply_classification_rules self ticket r) = "technical"
  \/ cd_category (_apply_classification_rules self ticket r)
     = from_option "general" (llm_category r).
Proof.
  unfold _apply_classification_rules, security_step.
  destruct (PyStr.any_in security_keywords _); [left; reflexivity|right].
  unfold category_rule_step.
  assert (H : cd_category (urgent_keyword_step self ticket r)
              = from_option "general" (llm_category r)).
  { unfold urgent_keyword_step. destruct (_ && _); reflexivity. }
  destruct (category_priority_rules _); [|exact H].
  destruct (_ && _); exact H.
Qed.

Lemma category_priority_rules_medium (cat : string) (rules : PriorityRule) :
  category_priority_rules cat = Some rules -> min_priority rules = "medium".
Proof.
  unfold category_priority_rules.
  destruct (cat =? "billing"); [intros H; injection H as <-; reflexivity|].
  destruct (cat =? "technical"); [intros H; injection H as <-; reflexivity|].
  discriminate.
Qed.

Lemma rules_priority (self : ClassifierAgent) (ticket : CustomerTicket)
    (r : LlmClassification) :
  let p := cd_priority (_apply_classification_rules self ticket r) in
  p = from_option "medium" (llm_priority r)
  \/ p = "medium" \/ p = "high" \/ p = "critical".
Proof.
  unfold _apply_classification_rules, security_step.
  destruct (PyStr.any_in security_keywords _); [simpl; tauto|].
  assert (H : cd_priority (urgent_keyword_step self ticket r)
              = from_option "medium" (llm_priority r)
              \/ cd_priority (urgent_keyword_step self ticket r) = "high").
  { unfold urgent_keyword_step. destruct (_ && _); simpl; tauto. }
  unfold category_rule_step.
  destruct (category_priority_rules _) as [rules|] eqn:E; [|simpl; tauto].
  destruct (_ && _); simpl; [|tauto].
  rewrite (category_priority_rules_medium _ _ E). tauto.
Qed.

(** X3.  A well-formed advisory is never replaced by the fallback: when
    the advisory call returns a category and a priority of the enumerations
    (or leaves them out) and a confidence in [0, 1] (or none),
    [classify_ticket] returns the classification the rule adjustment
    produced. *)
Theorem well_formed_advisory_is_kept `{llm : LLMService}
    (self : ClassifierAgent) (ticket : CustomerTicket)
    (llm_result : LlmClassification) :
  llm_classify_ticket (subject ticket) (message ticket) = inr llm_result ->
  (exists c, from_option "general" (llm_category llm_result) = category_value c) ->
  (exists p, from_option "medium" (llm_priority llm_result) = priority_value p) ->
  0 <= from_option 0.5 (llm_confidence llm_result) <= 1 ->
  let adjusted := _apply_classification_rules self ticket llm_result in
  exists result,
    classify_ticket self ticket = inr result
    /\ category_value (category result) = cd_category adjusted
    /\ priority_value (priority result) = cd_priority adjusted
    /\ confidence result = cd_confidence adjusted
    /\ reasoning result = cd_reasoning adjusted.
Proof.
  intros Hllm [c Hc] [p Hp] [H0 H1] adjusted.
  assert (Hcat : exists c', cd_category adjusted = category_value c').
  { destruct (rules_category self ticket llm_result) as [H|H].
    - exists TECHNICAL. exact H.
    - exists c. fold adjusted in H. congruence. }
  assert (Hpri : exists p', cd_priority adjusted = priority_value p').
  { destruct (rules_priority self ticket llm_result) as [H|[H|[H|H]]].
    - exists p. fold adjusted in H. congruence.
    - exists MEDIUM. exact H.
    - exists HIGH. exact H.
    - exists CRITICAL. exact H. }
  assert (Hconf : 0 <= cd_confidence adjusted <= 1).
  { destruct (rules_confidence_range self ticket llm_result H1) as [L U].
    fold adjusted in L, U. split; [eapply Qle_trans; eassumption | exact U]. }
  destruct Hcat as [c' Hc']. destruct Hpri as [p' Hp'].
  eexists. split.
  - unfold classify_ticket. rewrite Hllm. simpl. fold adjusted.
    rewrite (classification_of_dict_valid adjusted c' p' Hc' Hp' Hconf).
    reflexivity.
  - simpl. auto.
Qed.

Lemma well_formed_advisory_is_kept_witness :
  exists result,
    classify_ticket
      (llm := Samples.scripted_llm (inr Samples.billing_low)
                (inr Samples.no_escalation) (inr "Hello"))
      classifier_agent Samples.refund_ticket
    = inr result
    /\ category_value (category result) = "billing"
    /\ priority_value (priority result) = "high".
Proof.
  destruct (well_formed_advisory_is_kept
              (llm := Samples.scripted_llm (inr Samples.billing_low)
                        (inr Samples.no_escalation) (inr "Hello"))
              classifier_agent Samples.refund_ticket Samples.billing_low
              eq_refl
              (ex_intro _ BILLING eq_refl) (ex_intro _ LOW eq_refl)
              (conj (Qle_bool_imp_le 0 0.5 eq_refl)
                    (Qle_bool_imp_le 0.5 1 eq_refl)))
    as [result [H [Hc [Hp _]]]].
  exists result. split; [exact H|]. split; [exact Hc | exact Hp].
Defined.

(** X4.  The security rule repairs a malformed advisory: when a security
    keyword occurs in the ticket text and the advisory call returns any
    answer whose confidence is not negative, [classify_ticket] returns
    technical / critical with a confidence in [0, 1] -- also when the
    advisory's category or priority is no value of the enumerations or its
    confidence is above 1. *)
Theorem security_keyword_repairs_advisory `{llm : LLMService}
    (self : ClassifierAgent) (ticket : CustomerTicket)
    (llm_result : LlmClassification) :
  llm_classify_ticket (subject ticket) (message ticket) = inr llm_result ->
  PyStr.any_in security_keywords (full_text ticket) = true ->
  0 <= from_option 0.5 (llm_confidence llm_result) ->
  exists result,
    classify_ticket self ticket = inr result
    /\ category result = TECHNICAL
    /\ priority result = CRITICAL
    /\ 0 <= confidence result <= 1.
Proof.
  intros Hllm Hkw H0.
  set (adjusted := _apply_classification_rules self ticket llm_result).
  assert (Hshape : cd_category adjusted = "technical"
                   /\ cd_priority adjusted = "critical"
                   /\ 0 <= cd_confidence adjusted <= 1).
  { subst adjusted. unfold _apply_classification_rules, security_step.
    rewrite Hkw. simpl. split; [reflexivity|]. split; [reflexivity|].
    rewrite category_rule_step_confidence.
    assert (Hprev : 0 <= cd_confidence (urgent_keyword_step self ticket llm_result)).
    { unfold urgent_keyword_step. destruct (_ && _); simpl; [|exact H0].
      apply Q.min_glb; lra. }
    split; [apply Q.min_glb; lra|].
    eapply Qle_trans; [apply Q.le_min_r | lra]. }
  destruct Hshape as [Hc [Hp Hconf]].
  eexists. split.
  - unfold classify_ticket. rewrite Hllm. simpl. fold adjusted.
    rewrite (classification_of_dict_valid adjusted TECHNICAL CRITICAL Hc Hp Hconf).
    reflexivity.
  - simpl. auto.
Qed.

Lemma security_keyword_repairs_advisory_witness :
  exists result,
    classify_ticket
      (llm := Samples.scripted_llm (inr Samples.misspelt_category)
                (inr Samples.no_escalation) (inr "Hello"))
      classifier_agent Samples.breach_ticket
    = inr result
    /\ category result = TECHNICAL
    /\ priority result = CRITICAL.
Proof.
  destruct (security_keyword_repairs_advisory
              (llm := Samples.scripted_llm (inr Samples.misspelt_category)
                        (inr Samples.no_escalation) (inr "Hello"))
              classifier_agent Samples.breach_ticket Samples.misspelt_category
              eq_refl eq_refl (Qle_bool_imp_le 0 0.5 eq_refl))
    as [result [H [Hc [Hp _]]]].
  exists result. split; [exact H|]. split; [exact Hc | exact Hp].
Defined.

(** ** Classification insights *)

Lemma lower_ascii_idem (c : ascii) :
  PyStr.lower_ascii (PyStr.lower_ascii c) = PyStr.lower_ascii c.
Proof.
  destruct c as [b0 b1 b2 b3 b4 b5 b6 b7].
  destruct b0, b1, b2, b3, b4, b5, b6, b7; reflexivity.
Qed.

Lemma prefix_of_lower_is_lower (k t : string) :
  String.prefix k (PyStr.lower t) = true -> PyStr.lower k = k.
Proof.
  revert t; induction k as [|c k IH]; intros t H; [reflexivity|].
  destruct t as [|d t]; simpl in H; [discriminate|].
  destruct (ascii_dec c (PyStr.lower_ascii d)) as [->|]; [|discriminate].
  simpl. rewrite lower_ascii_idem. f_equal. eauto.
Qed.

Lemma found_in_lower_is_lower (k t : string) :
  PyStr.contains k (PyStr.lower t) = true -> PyStr.lower k = k.
Proof.
  induction t as [|d t IH]; simpl; intros H.
  - rewrite orb_false_r in H. destruct k; [reflexivity | discriminate].
  - apply orb_true_iff in H. destruct H as [H|H]; [|auto].
    exact (prefix_of_lower_is_lower k (String d t) H).
Qed.

(** X5.  The urgency flag of the insights and the urgent-keyword rule read
    the same keyword list differently: the rule lower-cases each keyword,
    the insights do not.  Whenever the insights report urgency the rule has
    found a keyword too, and for the agent of the module, whose keywords are
    all lower-case, the two agree on every ticket. *)
Theorem urgency_flag_implies_rule (self : ClassifierAgent)
    (ticket : CustomerTicket) :
  (has_urgency_indicators (get_classification_insights self ticket) = true ->
   PyStr.any_in (map PyStr.lower (high_priority_keywords self))
                (full_text ticket) = true)
  /\ has_urgency_indicators (get_classification_insights classifier_agent ticket)
     = PyStr.any_in (map PyStr.lower (high_priority_keywords classifier_agent))
                    (full_text ticket).
Proof.
  split; [|reflexivity].
  simpl. intros H. apply any_in_true in H. destruct H as [k [Hin Hk]].
  apply any_in_true. exists k. split; [|exact Hk].
  apply in_map_iff. exists k. split; [|exact Hin].
  unfold full_text in Hk. exact (found_in_lower_is_lower _ _ Hk).
Qed.

Lemma urgency_flag_implies_rule_witness :
  has_urgency_indicators
    (get_classification_insights classifier_agent Samples.breach_ticket) = true
  /\ PyStr.any_in (map PyStr.lower (high_priority_keywords classifier_agent))
                  (full_text Samples.breach_ticket) = true.
Proof.
  assert (H : has_urgency_indicators
                (get_classification_insights classifier_agent
                   Samples.breach_ticket) = true) by reflexivity.
  split; [exact H|].
  exact (proj1 (urgency_flag_implies_rule classifier_agent
                  Samples.breach_ticket) H).
Defined.

(** X6.  [_estimate_complexity] returns the level with the most indicators
    in the text; a tie goes to the higher complexity (high before medium
    before low), and a text without any indicator is medium. *)
Theorem complexity_ties_go_up (text : string) :
  let h := complexity_count 0 text in
  let m := complexity_count 1 text in
  let l := complexity_count 2 text in
  _estimate_complexity text
  = if (h =? 0)%nat && (m =? 0)%nat && (l =? 0)%nat then "medium"
    else if (m <=? h)%nat && (l <=? h)%nat then "high"
    else if (l <=? m)%nat then "medium"
    else "low".
Proof.
  intros h m l. unfold _estimate_complexity, complexity_scores.
  cbn [map complexity_indicators fst snd fold_right first_with_score].
  fold (complexity_count 0 text) (complexity_count 1 text)
       (complexity_count 2 text).
  change (PyStr.count_in
            ["multiple"; "several"; "complex"; "complicated"; "various"]
            (PyStr.lower text)) with h.
  change (PyStr.count_in ["issue"; "problem"; "help"; "support"]
            (PyStr.lower text)) with m.
  change (PyStr.count_in ["simple"; "quick"; "easy"; "just"; "only"]
            (PyStr.lower text)) with l.
  clearbody h m l.
  rewrite Nat.max_0_r.
  destruct (Nat.eqb_spec (Nat.max h (Nat.max m l)) 0) as [E|E].
  - assert (h = 0 /\ m = 0 /\ l = 0)%nat as [-> [-> ->]] by lia. reflexivity.
  - destruct (Nat.eqb_spec h 0), (Nat.eqb_spec m 0), (Nat.eqb_spec l 0);
      cbn [andb];
      repeat match goal with
             | |- context [Nat.eqb ?a ?b] => destruct (Nat.eqb_spec a b)
             | |- context [Nat.leb ?a ?b] => destruct (Nat.leb_spec a b)
             end; cbn [andb]; try reflexivity; lia.
Qed.

Lemma insert_by_strength_perm (x : DetectedCategory) (l : list DetectedCategory) :
  Permutation (x :: l) (insert_by_strength x l).
Proof.
  induction l as [|y l IH]; simpl; [reflexivity|].
  destruct (strength y <=? strength x)%nat; [reflexivity|].
  rewrite perm_swap. now apply perm_skip.
Qed.

Lemma sort_by_strength_desc_perm (l : list DetectedCategory) :
  Permutation l (sort_by_strength_desc l).
Proof.
  induction l as [|x l IH]; simpl; [constructor|].
  rewrite <- insert_by_strength_perm. now apply perm_skip.
Qed.

Lemma insert_by_strength_sorted (x : DetectedCategory) (l : list DetectedCategory) :
  Sorted strength_ge l -> Sorted strength_ge (insert_by_strength x l).
Proof.
  induction l as [|y l IH]; simpl; intros Hs.
  - repeat constructor.
  - destruct (Nat.leb_spec (strength y) (strength x)) as [E|E].
    + constructor; [exact Hs|]. constructor. exact E.
    + inversion Hs as [|? ? Hs' Hhd]; subst.
      constructor; [auto|].
      assert (E' : strength_ge y x) by (unfold strength_ge; lia).
      destruct l as [|z l]; simpl; [constructor; exact E'|].
      destruct (strength z <=? strength x)%nat; constructor;
        [exact E' | now inversion Hhd].
Qed.

Lemma sort_by_strength_desc_sorted (l : list DetectedCategory) :
  Sorted strength_ge (sort_by_strength_desc l).
Proof.
  induction l as [|x l IH]; simpl; [constructor|].
  now apply insert_by_strength_sorted.
Qed.

Lemma detect_categories_in (text : string) (table : list (string * list string))
    (d : DetectedCategory) :
  In d (detect_categories text table)
  <-> exists kws,
        In (dc_category d, kws) table
        /\ keywords_matched d = filter (fun kw => PyStr.contains kw text) kws
        /\ keywords_matched d <> []
        /\ strength d = List.length (keywords_matched d).
Proof.
  unfold detect_categories. rewrite in_flat_map. split.
  - intros [[cat kws] [Hin Hd]]. simpl in Hd.
    destruct (filter _ kws) as [|k ks] eqn:E; [contradiction|].
    destruct Hd as [<-|[]]. simpl. exists kws. rewrite E.
    repeat split; [exact Hin | discriminate].
  - intros [kws [Hin [Hm [Hne Hs]]]]. exists (dc_category d, kws).
    split; [exact Hin|]. simpl. rewrite <- Hm.
    destruct d as [cat ms st]. simpl in *. subst st.
    destruct ms; [congruence|]. left. reflexivity.
Qed.

(** X7.  The detected categories of the insights are listed by descending
    strength.  Each entry belongs to a category of the indicator table, its
    matched keywords are exactly that category's indicators found in the
    ticket text (at least one), and its strength is their number; a category
    with an indicator in the text is always listed. *)
Theorem detected_categories_ranked (self : ClassifierAgent)
    (ticket : CustomerTicket) :
  let detected := detected_categories (get_classification_insights self ticket) in
  Sorted strength_ge detected
  /\ (forall d, In d detected ->
        exists kws,
          In (dc_category d, kws) category_indicators
          /\ keywords_matched d
             = filter (fun kw => PyStr.contains kw (full_text ticket)) kws
          /\ (1 <= strength d)%nat
          /\ strength d = List.length (keywords_matched d))
  /\ (forall cat kws kw,
        In (cat, kws) category_indicators -> In kw kws ->
        PyStr.contains kw (full_text ticket) = true ->
        exists d, In d detected /\ dc_category d = cat
                  /\ In kw (keywords_matched d)).
Proof.
  intros detected. subst detected.
  unfold get_classification_insights. cbn [detected_categories].
  split; [|split].
  - apply sort_by_strength_desc_sorted.
  - intros d Hd.
    apply (Permutation_in _ (Permutation_sym (sort_by_strength_desc_perm _)))
      in Hd.
    apply detect_categories_in in Hd. destruct Hd as [kws [H1 [H2 [H3 H4]]]].
    exists kws. repeat split; try assumption.
    rewrite H4. destruct (keywords_matched d); [congruence | simpl; lia].
  - intros cat kws kw Hin Hkw Hfound.
    set (ms := filter (fun k => PyStr.contains k (full_text ticket)) kws).
    assert (Hms : In kw ms) by (apply filter_In; split; assumption).
    exists {| dc_category := cat; keywords_matched := ms;
              strength := List.length ms |}.
    split; [|split; [reflexivity | exact Hms]].
    apply (Permutation_in _ (sort_by_strength_desc_perm _)).
    apply detect_categories_in. exists kws. simpl.
    repeat split; [exact Hin|]. intros E. rewrite E in Hms. contradiction.
Qed.

Lemma detected_categories_ranked_witness :
  exists d,
    In d (detected_categories
            (get_classification_insights classifier_agent Samples.refund_ticket))
    /\ dc_category d = "billing"
    /\ In "payment" (keywords_matched d).
Proof.
  apply (proj2 (proj2 (detected_categories_ranked classifier_agent
                         Samples.refund_ticket))
           "billing" ["payment"; "charge"; "bill"; "invoice"; "subscription"]).
  - simpl. tauto.
  - simpl. tauto.
  - reflexivity.
Defined.

(** ** More on escalation *)

Lemma rules_closed_form (self : EscalationAgent)
    (ticket : CustomerTicket) (c : ClassificationResult)
    (results : list SearchResult) :
  let text := full_text ticket in
  run_escalation_rules self ticket c results
  = {| l_should_escalate :=
         fires1 c || fires2 self text || fires3 text || fires4 c results
         || fires5 c text || fires6 text || fires7 text;
       l_escalation_reasons := fired_reasons self ticket c results;
       l_escalation_type :=
         if fires6 text then "management"
         else if fires5 c text then "billing"
         else if fires4 c results then "technical"
         else if fires3 text then
                if PyStr.any_in ["legal"; "lawsuit"; "lawyer"] text
                then "legal" else "security"
         else if fires2 self text then "management"
         else if fires1 c then "technical"
         else "general";
       l_priority_level :=
         if fires1 c || fires3 text then "urgent" else "standard" |}.
Proof.
  intros text. unfold run_escalation_rules, fired_reasons. fold text.
  unfold rule1, rule2, rule3, rule4, rule5, rule6, rule7.
  fold (fires1 c) (fires2 self text) (fires3 text) (fires4 c results)
       (fires5 c text) (fires6 text) (fires7 text).
  destruct (fires1 c), (fires2 self text), (fires3 text), (fires4 c results),
    (fires5 c text), (fires6 text), (fires7 text); reflexivity.
Qed.

(** X8.  The seven rules in closed form.  The rule engine escalates when
    any rule fires and lists the reasons of the rules that fired in rule
    order.  The escalation type is that of the last rule that fired among
    the six that set one -- frustration (management) over billing over the
    complex-technical rule over legal/security over the escalation request
    (management) over critical priority (technical) -- and general when
    none did; the repeated-attempt rule leaves the type alone.  The priority
    level is urgent exactly when the critical-priority or the legal/security
    rule fired. *)
Theorem escalation_rules_closed_form (self : EscalationAgent)
    (ticket : CustomerTicket) (c : ClassificationResult)
    (results : list SearchResult) :
  let text := full_text ticket in
  run_escalation_rules self ticket c results
  = {| l_should_escalate :=
         fires1 c || fires2 self text || fires3 text || fires4 c results
         || fires5 c text || fires6 text || fires7 text;
       l_escalation_reasons := fired_reasons self ticket c results;
       l_escalation_type :=
         if fires6 text then "management"
         else if fires5 c text then "billing"
         else if fires4 c results then "technical"
         else if fires3 text then
                if PyStr.any_in ["legal"; "lawsuit"; "lawyer"] text
                then "legal" else "security"
         else if fires2 self text then "management"
         else if fires1 c then "technical"
         else "general";
       l_priority_level :=
         if fires1 c || fires3 text then "urgent" else "standard" |}.
Proof.
  intros text. unfold run_escalation_rules, fired_reasons. fold text.
  unfold rule1, rule2, rule3, rule4, rule5, rule6, rule7.
  fold (fires1 c) (fires2 self text) (fires3 text) (fires4 c results)
       (fires5 c text) (fires6 text) (fires7 text).
  destruct (fires1 c), (fires2 self text), (fires3 text), (fires4 c results),
    (fires5 c text), (fires6 text), (fires7 text); reflexivity.
Qed.

Lemma rule_confidence_of_fired (reasons : list string) :
  reasons <> [] -> 0.7 <= rule_confidence reasons.
Proof.
  intros H. unfold rule_confidence.
  destruct reasons as [|a [|b [|c rest]]]; [congruence| | |]; simpl; lra.
Qed.

Lemma rule_decision_neutral (self : EscalationAgent)
    (ticket : CustomerTicket) (c : ClassificationResult)
    (results : list SearchResult) :
  fired_reasons self ticket c results = [] ->
  _apply_escalation_rules self ticket c results
  = {| d_should_escalate := Some false;
       d_reason := Some "No escalation needed";
       d_escalation_type := Some "general";
       d_priority_level := Some "standard";
       d_confidence := Some 0.5 |}.
Proof.
  unfold _apply_escalation_rules. rewrite rules_closed_form.
  cbn [l_should_escalate l_escalation_reasons l_escalation_type l_priority_level].
  unfold fired_reasons.
  set (text := full_text ticket).
  intros H.
  destruct (fires1 c); [discriminate H|].
  destruct (fires2 self text); [discriminate H|].
  destruct (fires3 text); [discriminate H|].
  destruct (fires4 c results); [discriminate H|].
  destruct (fires5 c text); [discriminate H|].
  destruct (fires6 text); [discriminate H|].
  destruct (fires7 text); [discriminate H|].
  reflexivity.
Qed.

(** X9.  The rule decision is neutral exactly when no rule fired: then it
    is the fixed dictionary "No escalation needed" / general / standard /
    0.5; as soon as a rule fires it escalates, its reason is the list of
    fired reasons (never the neutral text) and its confidence is at least
    0.7. *)
Theorem rule_decision_neutral_or_escalating (self : EscalationAgent)
    (ticket : CustomerTicket) (c : ClassificationResult)
    (results : list SearchResult) :
  let d := _apply_escalation_rules self ticket c results in
  (fired_reasons self ticket c results = [] ->
   d = {| d_should_escalate := Some false;
          d_reason := Some "No escalation needed";
          d_escalation_type := Some "general";
          d_priority_level := Some "standard";
          d_confidence := Some 0.5 |})
  /\ (fired_reasons self ticket c results <> [] ->
      d_should_escalate d = Some true
      /\ d_reason d = Some (PyStr.join "; " (fired_reasons self ticket c results))
      /\ d_reason d <> Some "No escalation needed"
      /\ 0.7 <= from_option 0.5 (d_confidence d)).
Proof.
  intros d. subst d. unfold _apply_escalation_rules.
  rewrite rules_closed_form.
  cbn [l_should_escalate l_escalation_reasons l_escalation_type l_priority_level].
  unfold fired_reasons.
  set (text := full_text ticket).
  destruct (fires1 c), (fires2 self text), (fires3 text), (fires4 c results),
    (fires5 c text), (fires6 text), (fires7 text);
    (split; [intros H; try discriminate H; reflexivity|]);
    intros H; try (exfalso; apply H; reflexivity);
    (split; [reflexivity|]); (split; [reflexivity|]);
    (split; [discriminate|]); vm_compute; discriminate.
Qed.

Lemma rule_decision_neutral_or_escalating_witness :
  fired_reasons escalation_agent Samples.login_ticket Samples.account_medium []
  <> []
  /\ d_should_escalate
       (_apply_escalation_rules escalation_agent Samples.login_ticket
          Samples.account_medium [])
     = Some true.
Proof.
  assert (H : fired_reasons escalation_agent Samples.login_ticket
                Samples.account_medium [] <> []) by (vm_compute; discriminate).
  split; [exact H|].
  exact (proj1 (proj2 (rule_decision_neutral_or_escalating escalation_agent
                         Samples.login_ticket Samples.account_medium []) H)).
Defined.

Lemma priority_levels_urgent (s : string) :
  (priority_levels s = 2)%nat -> s = "urgent".
Proof.
  unfold priority_levels.
  destruct (String.eqb_spec s "standard"); [discriminate|].
  destruct (String.eqb_spec s "urgent"); [auto | discriminate].
Qed.

Lemma priority_levels_range (s : string) :
  (priority_levels s = 1 \/ priority_levels s = 2)%nat.
Proof.
  unfold priority_levels.
  destruct (s =? "standard"); [auto|]. destruct (s =? "urgent"); auto.
Qed.

Lemma combined_priority_level (llm_decision rule_decision : DecisionDict) :
  (d_priority_level rule_decision = Some "standard"
   \/ d_priority_level rule_decision = Some "urgent") ->
  let level := f_priority_level (_combine_decisions llm_decision rule_decision) in
  (level = "standard" \/ level = "urgent")
  /\ (d_priority_level rule_decision = Some "urgent" -> level = "urgent")
  /\ (d_priority_level llm_decision = Some "urgent" -> level = "urgent").
Proof.
  intros Hrule level. subst level. simpl.
  set (a := from_option "standard" (d_priority_level llm_decision)).
  assert (Ha : d_priority_level llm_decision = Some "urgent" -> a = "urgent")
    by (intros E; subst a; rewrite E; reflexivity).
  destruct Hrule as [-> | ->]; simpl;
    change (priority_levels "standard") with 1%nat;
    change (priority_levels "urgent") with 2%nat.
  - destruct (Nat.leb_spec (priority_levels a) 1) as [L|L].
    + split; [auto|]. split; [discriminate|].
      intros E. rewrite (Ha E) in L. vm_compute in L. lia.
    + assert (Hu : a = "urgent").
      { apply priority_levels_urgent.
        destruct (priority_levels_range a); lia. }
      rewrite Hu. auto.
  - destruct (Nat.leb_spec (priority_levels a) 2) as [L|L].
    + auto.
    + destruct (priority_levels_range a); lia.
Qed.

Lemma rule_decision_shape (self : EscalationAgent) (ticket : CustomerTicket)
    (c : ClassificationResult) (results : list SearchResult) :
  let d := _apply_escalation_rules self ticket c results in
  (d_priority_level d = Some "standard" \/ d_priority_level d = Some "urgent")
  /\ exists t, d_escalation_type d = Some t
               /\ In t ["general"; "technical"; "management"; "legal";
                        "security"; "billing"].
Proof.
  intros d. subst d. unfold _apply_escalation_rules.
  rewrite rules_closed_form.
  cbn [l_escalation_type l_priority_level d_priority_level d_escalation_type].
  split.
  - destruct (_ || _); auto.
  - eexists. split; [reflexivity|].
    repeat match goal with
           | |- context [if ?b then _ else _] => destruct b
           end; simpl; tauto.
Qed.

(** X10.  [evaluate_escalation] always returns a decision whose priority
    level is standard or urgent and whose escalation type is one of general,
    technical, management, legal, security and billing, whatever strings the
    advisory sent.  When the advisory call raises, the decision is the
    fail-safe one: escalate, technical, standard, confidence 0.3, with the
    failure in the reason. *)
Theorem evaluate_escalation_is_well_formed `{llm : LLMService}
    (self : EscalationAgent) (ticket : CustomerTicket)
    (c : ClassificationResult) (results : list SearchResult) :
  (exists d,
      evaluate_escalation self ticket c results = inr d
      /\ (priority_level d = "standard" \/ priority_level d = "urgent")
      /\ exists t, escalation_type d = Some t
                   /\ In t ["general"; "technical"; "management"; "legal";
                            "security"; "billing"])
  /\ (forall e,
         llm_check_escalation (escalation_query ticket c) = inl e ->
         evaluate_escalation self ticket c results
         = inr {| should_escalate := true;
                  reason := "Escalation evaluation failed: " ++ e;
                  escalation_type := Some "technical";
                  priority_level := "standard";
                  e_confidence := 0.3 |}).
Proof.
  destruct (llm_check_escalation (escalation_query ticket c)) as [e|a] eqn:E.
  - assert (H : evaluate_escalation self ticket c results
                = inr {| should_escalate := true;
                         reason := "Escalation evaluation failed: " ++ e;
                         escalation_type := Some "technical";
                         priority_level := "standard";
                         e_confidence := 0.3 |}).
    { unfold evaluate_escalation. rewrite E. reflexivity. }
    split.
    + eexists. split; [exact H|]. split; [left; reflexivity|].
      eexists. split; [reflexivity | simpl; tauto].
    + intros e' He'. injection He' as <-. exact H.
  - split; [|discriminate].
    destruct (rule_decision_shape self ticket c results) as [Hlevel [t [Ht Hin]]].
    eexists. split; [apply (evaluate_escalation_returns self ticket c results a E)|].
    cbn [priority_level escalation_type].
    split; [apply combined_priority_level; exact Hlevel|].
    exists t. split; [|exact Hin]. f_equal.
    apply combined_type_is_rule_type; [exact Ht|].
    simpl in Hin.
    repeat (destruct Hin as [<-|Hin]; [reflexivity|]). contradiction.
Qed.

Lemma evaluate_escalation_is_well_formed_witness :
  evaluate_escalation (llm := Samples.unreachable_llm) escalation_agent
    Samples.calm_ticket Samples.general_classification []
  = inr {| should_escalate := true;
           reason := "Escalation evaluation failed: Error generating response: timeout";
           escalation_type := Some "technical";
           priority_level := "standard";
           e_confidence := 0.3 |}.
Proof.
  exact (proj2 (evaluate_escalation_is_well_formed
                  (llm := Samples.unreachable_llm) escalation_agent
                  Samples.calm_ticket Samples.general_classification [])
           "Error generating response: timeout" eq_refl).
Defined.

Lemma fired_rule_escalates `{llm : LLMService}
    (self : EscalationAgent) (ticket : CustomerTicket)
    (c : ClassificationResult) (results : list SearchResult) :
  l_should_escalate (run_escalation_rules self ticket c results) = true ->
  exists d, evaluate_escalation self ticket c results = inr d
            /\ should_escalate d = true.
Proof.
  intros Hfire.
  destruct (llm_check_escalation (escalation_query ticket c)) as [e|a] eqn:E.
  - eexists. split; [unfold evaluate_escalation; rewrite E; reflexivity|].
    reflexivity.
  - eexists. split; [apply (evaluate_escalation_returns self ticket c results a E)|].
    simpl. rewrite Hfire. apply orb_true_r.
Qed.

(** X11.  Once a rule fires the ticket is escalated, whether the advisory
    agrees, disagrees or fails.  A critical ticket is therefore always
    escalated; its priority level is urgent when the advisory call returned
    and standard when the call failed. *)
Theorem fired_rule_always_escalates `{llm : LLMService}
    (self : EscalationAgent) (ticket : CustomerTicket)
    (c : ClassificationResult) (results : list SearchResult) :
  (l_should_escalate (run_escalation_rules self ticket c results) = true ->
   exists d, evaluate_escalation self ticket c results = inr d
             /\ should_escalate d = true)
  /\ (priority c = CRITICAL ->
      exists d, evaluate_escalation self ticket c results = inr d
                /\ should_escalate d = true
                /\ (forall a, llm_check_escalation (escalation_query ticket c)
                              = inr a -> priority_level d = "urgent")
                /\ (forall e, llm_check_escalation (escalation_query ticket c)
                              = inl e -> priority_level d = "standard")).
Proof.
  split.
  - apply fired_rule_escalates.
  - intros Hcrit.
    assert (Hrules : l_should_escalate (run_escalation_rules self ticket c results)
                     = true
                     /\ l_priority_level (run_escalation_rules self ticket c results)
                        = "urgent").
    { rewrite rules_closed_form. simpl. unfold fires1.
      rewrite Hcrit. simpl. split; reflexivity. }
    destruct Hrules as [Hfire Hurgent].
    destruct (llm_check_escalation (escalation_query ticket c)) as [e|a] eqn:E.
    + eexists. split; [unfold evaluate_escalation; rewrite E; reflexivity|].
      split; [reflexivity|]. split; [discriminate | reflexivity].
    + eexists. split; [apply (evaluate_escalation_returns self ticket c results a E)|].
      split; [simpl; rewrite Hfire; apply orb_true_r|].
      split; [|discriminate]. intros a' _.
      cbn [priority_level].
      assert (Hlevel : d_priority_level
                         (_apply_escalation_rules self ticket c results)
                       = Some "urgent").
      { unfold _apply_escalation_rules. cbn [d_priority_level].
        now rewrite Hurgent. }
      exact (proj1 (proj2 (combined_priority_level a _ (or_intror Hlevel)))
               Hlevel).
Qed.

Lemma fired_rule_always_escalates_witness :
  exists d,
    evaluate_escalation
      (llm := Samples.scripted_llm (inr Samples.general_low)
                (inr Samples.no_escalation) (inr "Hello"))
      escalation_agent Samples.login_ticket Samples.account_medium []
    = inr d
    /\ should_escalate d = true.
Proof.
  exact (proj1 (fired_rule_always_escalates
                  (llm := Samples.scripted_llm (inr Samples.general_low)
                            (inr Samples.no_escalation) (inr "Hello"))
                  escalation_agent Samples.login_ticket Samples.account_medium
                  [])
           eq_refl).
Defined.

Lemma routing_of_escalated (d : EscalationDecision) :
  should_escalate d = true ->
  let r := get_escalation_routing d in
  routing r = "human_agent"
  /\ routing_escalation_type r = escalation_type d
  /\ routing_priority r = Some (priority_level d)
  /\ (exists dep, department r = Some dep
                  /\ In dep ["Technical Support"; "Billing Support";
                             "Customer Success"; "Legal Affairs";
                             "Security Team"])
  /\ ((forall t, escalation_type d = Some t ->
                 ~ In t ["billing"; "management"; "legal"; "security"]) ->
      department r = Some "Technical Support").
Proof.
  intros H r. subst r. unfold get_escalation_routing. rewrite H. simpl.
  destruct (escalation_type d) as [t|] eqn:Et.
  - repeat match goal with
           | |- context [if t =? ?lit then _ else _] =>
               destruct (String.eqb_spec t lit)
           end; simpl; rewrite ?Et;
      (split; [reflexivity|]); (split; [reflexivity|]);
      (split; [reflexivity|]);
      (split; [eexists; split; [reflexivity | simpl; tauto]|]);
      intros Hnot; try reflexivity;
      exfalso; apply (Hnot t eq_refl); subst t; simpl; tauto.
  - simpl. rewrite ?Et.
    split; [reflexivity|]. split; [reflexivity|]. split; [reflexivity|].
    split; [eexists; split; [reflexivity | simpl; tauto]|].
    reflexivity.
Qed.

(** X12.  Routing.  A decision that does not escalate is routed to the AI
    resolution, without a department.  An escalated decision is routed to a
    human agent of one of the five departments, with the decision's type and
    priority level echoed; a missing type and every type other than billing,
    management, legal and security go to Technical Support.  So an
    escalation that only the advisory asked for (no rule fired) is routed to
    Technical Support, whatever type the advisory named. *)
Theorem routing_follows_decision `{llm : LLMService}
    (self : EscalationAgent) (ticket : CustomerTicket)
    (c : ClassificationResult) (results : list SearchResult) :
  (forall d, should_escalate d = false ->
             get_escalation_routing d
             = {| routing := "ai_resolution"; department := None;
                  skill_level := None; estimated_wait := None;
                  routing_escalation_type := None; routing_priority := None |})
  /\ (forall d, should_escalate d = true ->
        routing (get_escalation_routing d) = "human_agent"
        /\ routing_escalation_type (get_escalation_routing d) = escalation_type d
        /\ routing_priority (get_escalation_routing d) = Some (priority_level d)
        /\ (exists dep, department (get_escalation_routing d) = Some dep
                        /\ In dep ["Technical Support"; "Billing Support";
                                   "Customer Success"; "Legal Affairs";
                                   "Security Team"])
        /\ ((forall t, escalation_type d = Some t ->
                       ~ In t ["billing"; "management"; "legal"; "security"]) ->
            department (get_escalation_routing d) = Some "Technical Support"))
  /\ (forall a,
         llm_check_escalation (escalation_query ticket c) = inr a ->
         d_should_escalate a = Some true ->
         fired_reasons self ticket c results = [] ->
         exists d,
           evaluate_escalation self ticket c results = inr d
           /\ should_escalate d = true
           /\ escalation_type d = Some "general"
           /\ department (get_escalation_routing d) = Some "Technical Support").
Proof.
  split; [|split].
  - intros d H. unfold get_escalation_routing. rewrite H. reflexivity.
  - intros d H. exact (routing_of_escalated d H).
  - intros a Ha Hesc Hnone.
    pose proof (rule_decision_neutral self ticket c results Hnone) as Hrule.
    eexists. split; [apply (evaluate_escalation_returns self ticket c results a Ha)|].
    rewrite Hrule.
    assert (Hs : f_should_escalate
                   (_combine_decisions a
                      {| d_should_escalate := Some false;
                         d_reason := Some "No escalation needed";
                         d_escalation_type := Some "general";
                         d_priority_level := Some "standard";
                         d_confidence := Some 0.5 |}) = true).
    { simpl. rewrite Hesc. reflexivity. }
    split; [exact Hs|]. split; [reflexivity|].
    apply routing_of_escalated; [exact Hs|].
    cbn [escalation_type]. intros t Ht. injection Ht as <-.
    simpl. intros [H|[H|[H|[H|[]]]]]; discriminate H.
Qed.

Lemma routing_follows_decision_witness :
  exists d,
    evaluate_escalation
      (llm := Samples.scripted_llm (inr Samples.general_low)
                (inr Samples.billing_escalation) (inr "Hello"))
      escalation_agent Samples.calm_ticket Samples.general_classification []
    = inr d
    /\ department (get_escalation_routing d) = Some "Technical Support".
Proof.
  destruct (proj2 (proj2 (routing_follows_decision
              (llm := Samples.scripted_llm (inr Samples.general_low)
                        (inr Samples.billing_escalation) (inr "Hello"))
              escalation_agent Samples.calm_ticket
              Samples.general_classification []))
            Samples.billing_escalation eq_refl eq_refl eq_refl)
    as [d [H1 [_ [_ H2]]]].
  exists d. split; [exact H1 | exact H2].
Defined.

(** ** More on knowledge search *)

Lemma search_knowledge_base_unfold `{emb : EmbeddingService}
    `{es : ElasticsearchService} (self : KnowledgeAgent)
    (ticket : CustomerTicket) (classification : option ClassificationResult)
    (search_type : string) :
  search_knowledge_base self ticket classification search_type
  = match create_query_embedding (_prepare_search_query ticket classification) with
    | inl _ => inr []
    | inr query_embedding =>
        match raw_search self ticket classification search_type query_embedding with
        | inl _ => inr []
        | inr raw =>
            inr (_enhance_search_results
                   (filter (fun r => Qleb (min_relevance_score self) (score r)) raw)
                   ticket classification)
        end
    end.
Proof.
  unfold search_knowledge_base, raw_search.
  destruct (create_query_embedding _) as [e|v]; [reflexivity|]. simpl.
  destruct (search_type =? "hybrid") eqn:Eh.
  - apply String.eqb_eq in Eh. subst search_type. simpl.
    destruct (hybrid_search _ _ _ _); reflexivity.
  - destruct (search_type =? "semantic").
    + destruct (search_similar _ _ _); reflexivity.
    + destruct (hybrid_search _ _ _ _); reflexivity.
Qed.

Lemma enhance_score_capped (classification : option ClassificationResult)
    (r : SearchResult) : score (enhance classification r) <= 1.
Proof.
  unfold enhance. simpl. eapply Qle_trans; [apply Q.le_min_r | lra].
Qed.

(** X13.  [search_knowledge_base] never raises.  It returns the empty list
    when the embedding call or the search call raises; otherwise it returns
    no more results than the search did, each with a score of at most 1.
    Every search type other than "semantic" is served by the hybrid
    search. *)
Theorem search_knowledge_base_degrades `{emb : EmbeddingService}
    `{es : ElasticsearchService} (self : KnowledgeAgent)
    (ticket : CustomerTicket) (classification : option ClassificationResult)
    (search_type : string) :
  (exists ranked,
      search_knowledge_base self ticket classification search_type = inr ranked
      /\ (forall x, In x ranked -> score x <= 1)
      /\ (forall e,
             create_query_embedding (_prepare_search_query ticket classification)
             = inl e -> ranked = [])
      /\ (forall v e,
             create_query_embedding (_prepare_search_query ticket classification)
             = inr v ->
             raw_search self ticket classification search_type v = inl e ->
             ranked = [])
      /\ (forall v raw,
             create_query_embedding (_prepare_search_query ticket classification)
             = inr v ->
             raw_search self ticket classification search_type v = inr raw ->
             (List.length ranked <= List.length raw)%nat))
  /\ (search_type <> "semantic" ->
      search_knowledge_base self ticket classification search_type
      = search_knowledge_base self ticket classification "hybrid").
Proof.
  split.
  - rewrite search_knowledge_base_unfold.
    destruct (create_query_embedding _) as [e|v] eqn:Ev.
    { eexists. split; [reflexivity|]. repeat split; try discriminate.
      intros x []. }
    destruct (raw_search self ticket classification search_type v)
      as [e|raw] eqn:Er.
    { eexists. split; [reflexivity|]. repeat split; try discriminate.
      - intros x [].
      - intros v' raw' Hv Hr. injection Hv as <-. congruence. }
    eexists. split; [reflexivity|]. split; [|split; [|split]].
    + intros x Hx. unfold _enhance_search_results in Hx.
      apply (Permutation_in _ (Permutation_sym (sort_by_score_desc_perm _)))
        in Hx.
      apply in_map_iff in Hx. destruct Hx as [r [<- _]].
      apply enhance_score_capped.
    + discriminate.
    + intros v' e Hv Hr. injection Hv as <-. congruence.
    + intros v' raw' Hv Hr. injection Hv as <-.
      assert (raw' = raw) as -> by congruence.
      unfold _enhance_search_results.
      rewrite <- (Permutation_length (sort_by_score_desc_perm _)).
      rewrite length_map. apply filter_length_le.
  - intros Hne. rewrite !search_knowledge_base_unfold.
    destruct (create_query_embedding _); [reflexivity|].
    unfold raw_search.
    destruct (String.eqb_spec search_type "semantic"); [contradiction|].
    reflexivity.
Qed.

Lemma search_knowledge_base_degrades_witness :
  search_knowledge_base
    (emb := Samples.constant_embedding) (es := Samples.index_of [])
    knowledge_agent Samples.calm_ticket (Some Samples.general_classification)
    "keyword"
  = search_knowledge_base
      (emb := Samples.constant_embedding) (es := Samples.index_of [])
      knowledge_agent Samples.calm_ticket (Some Samples.general_classification)
      "hybrid".
Proof.
  apply (proj2 (search_knowledge_base_degrades
                  (emb := Samples.constant_embedding)
                  (es := Samples.index_of [])
                  knowledge_agent Samples.calm_ticket
                  (Some Samples.general_classification) "keyword")).
  discriminate.
Defined.

Lemma boost_keeps (x f : Q) : 0 <= x -> 1 <= f -> x <= x * f.
Proof. intros Hx Hf. nra. Qed.

Lemma adjusted_score_ge_raw (classification : option ClassificationResult)
    (r : SearchResult) :
  0 <= score r -> score r <= adjusted_score classification r.
Proof.
  intros H0. unfold adjusted_score.
  set (s1 := if match classification with
                | Some c => _
                | None => false
                end then score r * 1.2 else score r).
  assert (H1 : score r <= s1).
  { subst s1. destruct (match classification with Some _ => _ | None => _ end);
      [apply boost_keeps; [exact H0 | lra] | apply Qle_refl]. }
  set (s2 := if (0 <? resolution_count (article r))%Z
             then s1 * (1 + Qmin (inject_Z (resolution_count (article r)) / 100) 0.2)
             else s1).
  assert (H2 : s1 <= s2).
  { subst s2. destruct (Z.ltb_spec 0 (resolution_count (article r))) as [Hp|Hp];
      [|apply Qle_refl].
    apply boost_keeps; [lra|].
    assert (0 <= Qmin (inject_Z (resolution_count (article r)) / 100) 0.2).
    { apply Q.min_glb; [|lra].
      apply Qle_shift_div_l; [reflexivity|]. rewrite Qmult_0_l.
      change 0 with (inject_Z 0). rewrite <- Zle_Qle. lia. }
    lra. }
  assert (H3 : s2 <= match rating (article r) with
                     | Some stars =>
                         if negb (Qeq_bool stars 0) && Qltb 3.0 stars
                         then s2 * (1 + (stars - 3.0) * 0.1) else s2
                     | None => s2
                     end).
  { destruct (rating (article r)) as [stars|]; [|apply Qle_refl].
    destruct (negb (Qeq_bool stars 0)); simpl; [|apply Qle_refl].
    destruct (Qltb 3.0 stars) eqn:E; [|apply Qle_refl].
    apply Qltb_true in E. apply boost_keeps; lra. }
  lra.
Qed.

Lemma relevance_above_floor (s : Q) :
  0.3 <= s -> _calculate_enhanced_relevance s <> "Very Low".
Proof.
  intros H. unfold _calculate_enhanced_relevance.
  repeat match goal with
         | |- context [if ?c then _ else _] => destruct c eqn:?
         end; try discriminate.
  apply Qleb_true in H. congruence.
Qed.

(** X14.  Re-scoring only boosts.  A candidate whose raw score lies in
    [0, 1] keeps at least its raw score and at most 1; a candidate whose raw
    score is 1 or more gets exactly the cap.  A candidate with a raw score of
    at least 0.3 is never labelled "Very Low", so no result of
    [search_knowledge_base] of the module's agent carries that label. *)
Theorem rescoring_only_boosts `{emb : EmbeddingService}
    `{es : ElasticsearchService} (ticket : CustomerTicket)
    (classification : option ClassificationResult) (search_type : string) :
  (forall r, 0 <= score r <= 1 ->
             score r <= score (enhance classification r) <= 1)
  /\ (forall r, 1 <= score r -> score (enhance classification r) == 1)
  /\ (forall r, 0.3 <= score r ->
                relevance (enhance classification r) <> "Very Low")
  /\ (forall ranked x,
         search_knowledge_base knowledge_agent ticket classification search_type
         = inr ranked ->
         In x ranked -> relevance x <> "Very Low").
Proof.
  split; [|split; [|split]].
  - intros r [H0 H1]. split; [|apply enhance_score_capped].
    unfold enhance. simpl. apply Q.min_glb; [|lra].
    apply adjusted_score_ge_raw. exact H0.
  - intros r H1. unfold enhance. simpl.
    assert (H : 1 <= adjusted_score classification r).
    { eapply Qle_trans; [exact H1|]. apply adjusted_score_ge_raw. lra. }
    rewrite Q.min_r; [reflexivity | lra].
  - intros r H. unfold enhance. simpl. apply relevance_above_floor.
    eapply Qle_trans; [exact H|]. apply adjusted_score_ge_raw. lra.
  - intros ranked x Hsearch Hx.
    rewrite search_knowledge_base_unfold in Hsearch.
    destruct (create_query_embedding _) as [e|v];
      [injection Hsearch as <-; contradiction|].
    destruct (raw_search _ _ _ _ _) as [e|raw];
      [injection Hsearch as <-; contradiction|].
    injection Hsearch as <-. unfold _enhance_search_results in Hx.
    apply (Permutation_in _ (Permutation_sym (sort_by_score_desc_perm _))) in Hx.
    apply in_map_iff in Hx. destruct Hx as [r [<- Hr]].
    apply filter_In in Hr. destruct Hr as [_ Hfloor].
    apply Qleb_true in Hfloor. simpl in Hfloor.
    unfold enhance. simpl. apply relevance_above_floor.
    eapply Qle_trans; [exact Hfloor|]. apply adjusted_score_ge_raw. lra.
Qed.

Lemma rescoring_only_boosts_witness :
  0 <= score (Samples.hit (Samples.new_article GENERAL 200 (Some 5.0)) 0.5) <= 1
  /\ score (Samples.hit (Samples.new_article GENERAL 200 (Some 5.0)) 0.5)
     <= score (enhance (Some Samples.general_classification)
                 (Samples.hit (Samples.new_article GENERAL 200 (Some 5.0)) 0.5))
     <= 1.
Proof.
  assert (H : 0 <= score (Samples.hit
                            (Samples.new_article GENERAL 200 (Some 5.0)) 0.5)
              <= 1) by (simpl; lra).
  split; [exact H|].
  exact (proj1 (rescoring_only_boosts
                  (emb := Samples.constant_embedding)
                  (es := Samples.index_of [])
                  Samples.calm_ticket (Some Samples.general_classification)
                  "hybrid")
           _ H).
Defined.

Lemma chars_app (a b : string) : chars (a ++ b) = List.app (chars a) (chars b).
Proof. induction a as [|c a IH]; simpl; [reflexivity | now rewrite IH]. Qed.

Lemma chars_join (sep : string) (parts : list string) (c : ascii) :
  In c (chars (PyStr.join sep parts)) ->
  In c (chars sep) \/ exists w, In w parts /\ In c (chars w).
Proof.
  unfold PyStr.join. induction parts as [|w parts IH]; simpl; [tauto|].
  destruct parts as [|w' parts].
  - intros H. right. exists w. auto.
  - rewrite !chars_app, !in_app_iff. intros [H|[H|H]].
    + right. exists w. auto.
    + auto.
    + destruct (IH H) as [Hs|[x [Hx Hc]]]; [auto|].
      right. exists x. split; [right; exact Hx | exact Hc].
Qed.

Lemma chars_substring (n m : nat) (s : string) (c : ascii) :
  In c (chars (String.substring n m s)) -> In c (chars s).
Proof.
  revert n m; induction s as [|d s IH]; intros n m.
  - destruct n, m; simpl; tauto.
  - destruct n as [|n]; simpl.
    + destruct m as [|m]; simpl; [tauto|].
      intros [H|H]; [auto | right; exact (IH 0%nat m H)].
    + intros H. right. exact (IH n m H).
Qed.

Lemma length_substring (m : nat) (s : string) :
  (String.length (String.substring 0 m s) <= m)%nat.
Proof.
  revert m; induction s as [|d s IH]; intros m.
  - destruct m; simpl; lia.
  - destruct m as [|m]; simpl; [lia|]. specialize (IH m). lia.
Qed.

Lemma split_ws_aux_words (s word : string) :
  (forall c, In c (chars word) -> PyText.is_space c = false) ->
  forall w, In w (PyText.split_ws_aux s word) ->
            w <> EmptyString
            /\ forall c, In c (chars w) -> PyText.is_space c = false.
Proof.
  revert word; induction s as [|d s IH]; intros word Hword w; simpl.
  - destruct word as [|x word]; simpl; [tauto|].
    intros [<-|[]]. split; [discriminate | exact Hword].
  - destruct (PyText.is_space d) eqn:Ed.
    + destruct word as [|x word]; simpl.
      * apply IH. intros c [].
      * intros [<-|H]; [split; [discriminate | exact Hword]|].
        revert H. apply IH. intros c [].
    + apply IH. intros c Hc. rewrite chars_app in Hc.
      apply in_app_iff in Hc. destruct Hc as [Hc|[<-|[]]]; auto.
Qed.

Lemma split_ws_words (s : string) (w : string) :
  In w (PyText.split_ws s) ->
  w <> EmptyString /\ forall c, In c (chars w) -> PyText.is_space c = false.
Proof. apply split_ws_aux_words. intros c []. Qed.

(** X15.  The search query is at most 500 characters long, and the only
    white-space character left in it is the space that separates words:
    tabs, line breaks and the like in the subject or the message never
    reach the search. *)
Theorem search_query_is_normalised (ticket : CustomerTicket)
    (classification : option ClassificationResult) :
  let query := _prepare_search_query ticket classification in
  (String.length query <= 500)%nat
  /\ forall c, In c (chars query) -> PyText.is_space c = true -> c = " "%char.
Proof.
  intros query. subst query. unfold _prepare_search_query.
  split; [apply length_substring|].
  intros c Hc Hspace. apply chars_substring in Hc.
  apply chars_join in Hc. destruct Hc as [[<-|[]]|[w [Hw Hcw]]]; [reflexivity|].
  apply split_ws_words in Hw. destruct Hw as [_ Hw].
  rewrite (Hw c Hcw) in Hspace. discriminate.
Qed.

Lemma search_query_is_normalised_witness :
  In " "%char
     (chars (_prepare_search_query Samples.calm_ticket
               (Some Samples.general_classification)))
  /\ PyText.is_space " "%char = true
  /\ (String.length
        (_prepare_search_query Samples.calm_ticket
           (Some Samples.general_classification)) <= 500)%nat.
Proof.
  assert (H : In " "%char
                (chars (_prepare_search_query Samples.calm_ticket
                          (Some Samples.general_classification))))
    by (vm_compute; do 6 right; left; reflexivity).
  split; [exact H|]. split; [reflexivity|].
  pose proof (proj2 (search_query_is_normalised Samples.calm_ticket
                       (Some Samples.general_classification))
                " "%char H eq_refl) as _.
  exact (proj1 (search_query_is_normalised Samples.calm_ticket
                  (Some Samples.general_classification))).
Defined.

(** ** More on resolutions *)

Lemma email_greeting_raises_iff (ticket : CustomerTicket) :
  (exists e, email_greeting ticket = inl e) <-> blank_name ticket.
Proof.
  unfold email_greeting, blank_name. split.
  - intros [e H]. destruct (customer_name ticket) as [name|]; [|discriminate].
    destruct name as [|c name]; [discriminate|]. simpl in H.
    destruct (PyText.split_ws (String c name)) eqn:E; [|discriminate].
    exists (String c name). repeat split; [discriminate | exact E].
  - intros [name [-> [Hne Hsplit]]].
    destruct name as [|c name]; [congruence|]. simpl. rewrite Hsplit.
    eexists; reflexivity.
Qed.

Lemma update_stats_loop `{es : ElasticsearchService} (ids : list string) :
  forall acc : exc unit,
    (acc = inr tt \/ exists e, acc = inl e) ->
    let r := fold_left (fun acc article_id => acc ;; update_article_stats article_id)
                       ids acc in
    r = inr tt \/ exists e, r = inl e.
Proof.
  induction ids as [|i ids IH]; intros acc Hacc; simpl; [exact Hacc|].
  apply IH. destruct Hacc as [->|[e ->]]; simpl.
  - destruct (update_article_stats i) as [e|[]]; [right; eauto | left; reflexivity].
  - right. eauto.
Qed.

Section GenerateResolution.
Context `{llm : LLMService} `{es : ElasticsearchService} `{clock : Clock}.

Lemma fallback_response_follows_greeting (ticket : CustomerTicket) :
  (forall e, email_greeting ticket = inl e ->
             _get_fallback_response ticket = inl e)
  /\ (forall g, email_greeting ticket = inr g ->
                exists text, _get_fallback_response ticket = inr text).
Proof.
  unfold _get_fallback_response. split; intros x H; rewrite H; simpl;
    [reflexivity | eexists; reflexivity].
Qed.

Lemma ai_resolution_outcome (self : ResolutionAgent) (ticket : CustomerTicket)
    (c : ClassificationResult) (results : list SearchResult) :
  (exists e, _generate_ai_resolution self ticket c results = inl e)
  \/ (exists r, _generate_ai_resolution self ticket c results = inr r
                /\ agent_type r = "ai"
                /\ 0.1 <= r_confidence r <= 0.95
                /\ knowledge_articles_used r
                   = map (fun x => article_id (article x)) (firstn 3 results)).
Proof.
  unfold _generate_ai_resolution.
  destruct (llm_generate_resolution _ _) as [e|text]; simpl; [left; eauto|].
  destruct (_post_process_response self text ticket c) as [e|final]; simpl;
    [left; eauto|].
  match goal with
  | |- context [fold_left ?f ?l ?a] =>
      assert (HF : fold_left f l a = inr tt \/ exists e, fold_left f l a = inl e)
        by (apply (update_stats_loop l a); left; reflexivity);
      destruct HF as [HF|[e HF]]; rewrite HF; simpl
  end.
  - right. eexists. split; [reflexivity|]. simpl.
    split; [reflexivity|]. split; [|reflexivity].
    rewrite resolution_confidence_formula. apply clamp_range.
  - left. eauto.
Qed.

(** X16.  [generate_resolution] raises exactly when the customer name is
    not empty but holds white space only: the greeting cannot take a first
    name, and the fallback of the handler builds the same greeting.  For
    every other ticket it returns: on the escalation path the escalation
    reply (confidence 0.9, no articles); on the AI path either the AI
    resolution (confidence in [0.1, 0.95], the ids of the first three
    candidates) or, when anything failed, the fallback (confidence 0.2, no
    articles). *)
Theorem generate_resolution_raises_only_for_blank_name
    (self : ResolutionAgent) (ticket : CustomerTicket)
    (c : ClassificationResult) (results : list SearchResult)
    (d : EscalationDecision) :
  ((exists e, generate_resolution self ticket c results d = inl e)
   <-> blank_name ticket)
  /\ (forall r, generate_resolution self ticket c results d = inr r ->
        (should_escalate d = true ->
         agent_type r = "escalation" /\ r_confidence r = 0.9
         /\ knowledge_articles_used r = [])
        /\ (should_escalate d = false ->
            (agent_type r = "ai" /\ 0.1 <= r_confidence r <= 0.95
             /\ knowledge_articles_used r
                = map (fun x => article_id (article x)) (firstn 3 results))
            \/ (agent_type r = "ai_fallback" /\ r_confidence r = 0.2
                /\ knowledge_articles_used r = []))).
Proof.
  rewrite <- email_greeting_raises_iff.
  destruct (fallback_response_follows_greeting ticket) as [Fbad Fgood].
  unfold generate_resolution.
  destruct (email_greeting ticket) as [e|g] eqn:Eg.
  - (* the greeting raises: every path ends in the handler, which raises *)
    assert (Hraise : forall body : exc Resolution,
               (exists e', body = inl e') ->
               catch body
                 (fun _ =>
                    fallback <- _get_fallback_response ticket ;;
                    ret {| r_ticket_id := or_default (ticket_id ticket) "unknown";
                           response := fallback;
                           r_confidence := 0.2;
                           knowledge_articles_used := [];
                           created_at := now_iso;
                           agent_type := "ai_fallback" |})
               = inl e).
    { intros body [e' ->]. simpl. rewrite (Fbad e eq_refl). reflexivity. }
    assert (Hbody : exists e',
               (if should_escalate d
                then _generate_escalation_response ticket d
                else _generate_ai_resolution self ticket c results) = inl e').
    { destruct (should_escalate d).
      - unfold _generate_escalation_response. rewrite Eg. simpl. eauto.
      - unfold _generate_ai_resolution.
        destruct (llm_generate_resolution _ _) as [e'|text]; simpl; [eauto|].
        unfold _post_process_response. rewrite Eg. simpl. eauto. }
    rewrite (Hraise _ Hbody). split.
    + split; intros _; eauto.
    + intros r Hr. discriminate Hr.
  - destruct (Fgood g eq_refl) as [text Htext].
    split.
    + split; [|intros [e He]; discriminate He].
      intros [e He]. exfalso. revert He.
      destruct (should_escalate d).
      * unfold _generate_escalation_response. rewrite Eg. simpl. discriminate.
      * destruct (_generate_ai_resolution self ticket c results); simpl;
          [rewrite Htext; simpl; discriminate | discriminate].
    + intros r Hr. destruct (should_escalate d) eqn:Ed.
      * split; [|discriminate]. intros _.
        unfold _generate_escalation_response in Hr. rewrite Eg in Hr.
        simpl in Hr. injection Hr as <-. repeat split.
      * split; [discriminate|]. intros _.
        destruct (ai_resolution_outcome self ticket c results)
          as [[e He]|[r' [Hr' Hshape]]].
        -- rewrite He in Hr. simpl in Hr. rewrite Htext in Hr. simpl in Hr.
           injection Hr as <-. right. repeat split.
        -- rewrite Hr' in Hr. simpl in Hr. injection Hr as <-. left. exact Hshape.
Qed.

End GenerateResolution.

Lemma generate_resolution_raises_only_for_blank_name_witness :
  blank_name MoreSamples.blank_name_ticket
  /\ exists e,
       generate_resolution (llm := Samples.unreachable_llm)
         (es := Samples.index_of []) (clock := Samples.fixed_clock)
         resolution_agent MoreSamples.blank_name_ticket
         Samples.general_classification [] MoreSamples.standard_escalation
       = inl e.
Proof.
  assert (H : blank_name MoreSamples.blank_name_ticket).
  { exists " ". split; [reflexivity | split; [discriminate | reflexivity]]. }
  split; [exact H|].
  exact (proj2 (proj1 (generate_resolution_raises_only_for_blank_name
                         (llm := Samples.unreachable_llm)
                         (es := Samples.index_of [])
                         (clock := Samples.fixed_clock)
                         resolution_agent MoreSamples.blank_name_ticket
                         Samples.general_classification []
                         MoreSamples.standard_escalation)) H).
Defined.

Lemma string_length_app (a b : string) :
  String.length (a ++ b) = (String.length a + String.length b)%nat.
Proof. induction a as [|c a IH]; simpl; [reflexivity | now rewrite IH]. Qed.

Lemma string_app_assoc (a b c : string) : (a ++ b) ++ c = a ++ b ++ c.
Proof. induction a as [|x a IH]; simpl; [reflexivity | now rewrite IH]. Qed.

Lemma length_lstrip (s : string) : (String.length (lstrip s) <= String.length s)%nat.
Proof.
  induction s as [|c s IH]; simpl; [lia|].
  destruct (PyText.is_space c); simpl; lia.
Qed.

Lemma length_rstrip (s : string) : (String.length (rstrip s) <= String.length s)%nat.
Proof.
  induction s as [|c s IH]; simpl; [lia|].
  destruct (PyText.is_space c && negb (PyStr.truthy (rstrip s))); simpl; lia.
Qed.

Lemma length_strip (s : string) : (String.length (strip s) <= String.length s)%nat.
Proof.
  unfold strip. eapply Nat.le_trans; [apply length_rstrip | apply length_lstrip].
Qed.

Lemma trim_sentences_length (limit : nat) (sentences : list string) :
  forall trimmed,
    (String.length (trim_sentences limit sentences trimmed)
     <= Nat.max (String.length trimmed) (limit - 2))%nat.
Proof.
  induction sentences as [|sentence rest IH]; intros trimmed; simpl; [lia|].
  destruct (Nat.ltb_spec (String.length (trimmed ++ sentence)) (limit - 3)) as [H|H];
    [|lia].
  eapply Nat.le_trans; [apply IH|].
  rewrite string_length_app in H. rewrite !string_length_app. simpl. lia.
Qed.

Lemma trim_sentences_shape (limit : nat) (sentences : list string) :
  forall trimmed,
    (trimmed = "" \/ exists x, trimmed = x ++ ". ") ->
    trim_sentences limit sentences trimmed = ""
    \/ exists x, trim_sentences limit sentences trimmed = x ++ ". ".
Proof.
  induction sentences as [|sentence rest IH]; intros trimmed H; simpl; [exact H|].
  destruct (_ <? _)%nat; [|exact H].
  apply IH. right. exists (trimmed ++ sentence). now rewrite string_app_assoc.
Qed.

Lemma lstrip_sentence_end (x : string) : exists y, lstrip (x ++ ". ") = y ++ ". ".
Proof.
  induction x as [|c x IH]; simpl.
  - exists "". reflexivity.
  - destruct (PyText.is_space c); [exact IH|].
    exists (String c x). reflexivity.
Qed.

Lemma rstrip_sentence_end (y : string) : rstrip (y ++ ". ") = y ++ ".".
Proof.
  induction y as [|c y IH]; [reflexivity|].
  simpl. rewrite IH.
  assert (T : PyStr.truthy (y ++ ".") = true) by (destruct y; reflexivity).
  rewrite T, andb_false_r. reflexivity.
Qed.

Lemma endswith_dot (y : string) : PyStr.endswith (y ++ ".") "." = true.
Proof.
  induction y as [|c y IH]; [reflexivity|].
  simpl. rewrite IH. apply orb_true_r.
Qed.

Lemma strip_sentence_end (x : string) :
  PyStr.endswith (strip (x ++ ". ")) "." = true.
Proof.
  unfold strip. destruct (lstrip_sentence_end x) as [y ->].
  rewrite rstrip_sentence_end. apply endswith_dot.
Qed.

(** The trimming block of [_post_process_response]. *)
Lemma trimmed_response_length (limit : nat) (response : string) :
  (3 <= limit)%nat ->
  let trimmed := strip (trim_sentences limit (split_sentences response) "") in
  (String.length
     (strip (if negb (PyStr.endswith trimmed ".") then trimmed ++ "..." else trimmed))
   <= limit)%nat.
Proof.
  intros Hlimit trimmed.
  eapply Nat.le_trans; [apply length_strip|].
  destruct (trim_sentences_shape limit (split_sentences response) ""
              (or_introl eq_refl)) as [E|[x E]].
  - subst trimmed. rewrite E. simpl. exact Hlimit.
  - assert (Hdot : PyStr.endswith trimmed "." = true)
      by (subst trimmed; rewrite E; apply strip_sentence_end).
    rewrite Hdot. simpl. subst trimmed.
    eapply Nat.le_trans; [apply length_strip|].
    eapply Nat.le_trans; [apply trim_sentences_length|]. simpl. lia.
Qed.

(** X17.  The length cap is kept: whenever [_post_process_response] returns,
    the response is at most [max_response_length] characters long (1000 for
    the module's agent), for every cap of at least 3.  It raises only for a
    customer name that is not empty but holds white space only. *)
Theorem post_processed_response_fits `{clock : Clock}
    (self : ResolutionAgent) (response : string) (ticket : CustomerTicket)
    (c : ClassificationResult) :
  (3 <= max_response_length self)%nat ->
  (forall out, _post_process_response self response ticket c = inr out ->
               (String.length out <= max_response_length self)%nat)
  /\ ((exists e, _post_process_response self response ticket c = inl e)
      <-> blank_name ticket).
Proof.
  intros Hlimit. rewrite <- email_greeting_raises_iff.
  unfold _post_process_response.
  destruct (email_greeting ticket) as [e|header]; simpl.
  - split; [discriminate|]. split; intros _; eauto.
  - split; [|split; intros [e H]; discriminate H].
    intros out Hout. injection Hout as <-.
    match goal with
    | |- context [if (max_response_length self <? String.length ?r)%nat
                  then _ else _] =>
        destruct (Nat.ltb_spec (max_response_length self) (String.length r))
          as [Hlong|Hshort]
    end.
    + apply trimmed_response_length. exact Hlimit.
    + eapply Nat.le_trans; [apply length_strip | exact Hshort].
Qed.

Lemma post_processed_response_fits_witness :
  (3 <= max_response_length resolution_agent)%nat
  /\ exists out,
       _post_process_response (clock := Samples.fixed_clock) resolution_agent
         "Open the settings page." Samples.calm_ticket
         Samples.general_classification
       = inr out
       /\ (String.length out <= max_response_length resolution_agent)%nat.
Proof.
  assert (H : (3 <= max_response_length resolution_agent)%nat)
    by (simpl; lia).
  split; [exact H|].
  eexists. split; [reflexivity|].
  apply (proj1 (post_processed_response_fits (clock := Samples.fixed_clock)
                  resolution_agent "Open the settings page."
                  Samples.calm_ticket Samples.general_classification H)).
  reflexivity.
Defined.

Lemma contains_self_app (k rest : string) : PyStr.contains k (k ++ rest) = true.
Proof.
  destruct k as [|c k]; [destruct rest; reflexivity|].
  simpl PyStr.contains. change (String c k ++ rest) with (String c (k ++ rest)).
  cbn [PyStr.contains]. simpl String.prefix.
  destruct (ascii_dec c c); [|congruence].
  rewrite prefix_self_app. reflexivity.
Qed.

Lemma contains_cons (k s : string) (c : ascii) :
  PyStr.contains k s = true -> PyStr.contains k (String c s) = true.
Proof. intros H. simpl. rewrite H. apply orb_true_r. Qed.

(** X18.  Whenever it returns, the escalation reply starts with the subject
    line of the ticket, quotes the ticket reference -- the ticket's id, or
    "TKT-" and the time stamp for a ticket without one -- and is stored with
    confidence 0.9, agent type escalation and no articles.  For a ticket
    without id the stored [ticket_id] is the word "generated", not the
    reference the customer was given. *)
Theorem escalation_reply_quotes_reference `{clock : Clock}
    (ticket : CustomerTicket) (d : EscalationDecision) (r : Resolution) :
  _generate_escalation_response ticket d = inr r ->
  String.prefix ("Subject: Re: " ++ subject ticket) (response r) = true
  /\ PyStr.contains ("Your ticket reference number is: " ++ quoted_reference ticket)
                    (response r) = true
  /\ r_confidence r = 0.9 /\ agent_type r = "escalation"
  /\ knowledge_articles_used r = []
  /\ (forall id, ticket_id ticket = Some id -> id <> "" ->
                 r_ticket_id r = id /\ quoted_reference ticket = id)
  /\ (ticket_id ticket = None ->
      r_ticket_id r = "generated"
      /\ quoted_reference ticket = "TKT-" ++ now_stamp).
Proof.
  unfold _generate_escalation_response.
  destruct (email_greeting ticket) as [e|greeting] eqn:Eg; [discriminate|].
  cbn [bind ret Monad_either]. intros H. injection H as <-.
  cbn [response r_confidence agent_type knowledge_articles_used r_ticket_id].
  assert (Hg : exists tail, greeting = ("Subject: Re: " ++ subject ticket) ++ tail).
  { unfold email_greeting in Eg.
    destruct (customer_name ticket) as [name|].
    - destruct (PyStr.truthy name).
      + destruct (PyText.split_ws name); [discriminate|].
        injection Eg as <-. eexists. rewrite string_app_assoc. reflexivity.
      + injection Eg as <-. eexists. rewrite string_app_assoc. reflexivity.
    - injection Eg as <-. eexists. rewrite string_app_assoc. reflexivity. }
  destruct Hg as [tail ->].
  split.
  { rewrite string_app_assoc. apply prefix_self_app. }
  split.
  { fold (quoted_reference ticket).
    repeat match goal with
           | |- PyStr.contains _
                  (String "Y"%char (String "o"%char (String "u"%char
                     (String "r"%char (String " "%char (String "t"%char _))))))
                = true =>
               apply (contains_self_app
                        ("Your ticket reference number is: "
                         ++ quoted_reference ticket))
           | |- PyStr.contains _ (String _ _) = true => apply contains_cons
           | |- PyStr.contains _ (_ ++ _) = true => apply contains_app_r
           end. }
  split; [reflexivity|]. split; [reflexivity|]. split; [reflexivity|].
  unfold quoted_reference. split.
  - intros id Hid Hne. rewrite Hid. destruct id; [congruence|]. split; reflexivity.
  - intros Hid. rewrite Hid. split; reflexivity.
Qed.

Lemma escalation_reply_quotes_reference_witness :
  exists r,
    _generate_escalation_response (clock := Samples.fixed_clock)
      Samples.calm_ticket MoreSamples.standard_escalation
    = inr r
    /\ r_ticket_id r = "generated"
    /\ quoted_reference (clock := Samples.fixed_clock) Samples.calm_ticket
       = "TKT-20240101000000".
Proof.
  eexists. split; [reflexivity|].
  apply (escalation_reply_quotes_reference (clock := Samples.fixed_clock)
           Samples.calm_ticket MoreSamples.standard_escalation _ eq_refl).
  reflexivity.
Defined.

(** ** More on the workflow *)

Section WorkflowFrames.
Context `{agents : Agents}.

Lemma after_boundary (n : Node) (s : SupportWorkflowState) :
  after n s
  = match n with
    | classify =>
        match classify_try s with inr s' => s' | inl e => classify_except e s end
    | search_knowledge =>
        match search_knowledge_try s with
        | inr s' => s' | inl e => search_knowledge_except e s end
    | check_escalation =>
        match check_escalation_try s with
        | inr s' => s' | inl e => check_escalation_except e s end
    | generate_resolution_node =>
        match generate_resolution_try s with
        | inr s' => s' | inl e => generate_resolution_except e s end
    | escalate_ticket =>
        match escalate_ticket_try s with
        | inr s' => s' | inl e => escalate_ticket_except e s end
    | finalize =>
        match _finalize_node s with inr s' => s' | inl _ => s end
    end.
Proof.
  unfold after. destruct n; simpl;
    try (unfold _classify_node, _search_knowledge_node, _check_escalation_node,
           _generate_resolution_node, _escalate_ticket_node;
         rewrite guarded_boundary); reflexivity.
Qed.

Lemma after_same_but (n : Node) (s : SupportWorkflowState) :
  same_but n s (after n s).
Proof.
  rewrite after_boundary. destruct n.
  - destruct (classify_try s) as [e|s'] eqn:E; [frame_done|].
    unfold classify_try in E. simpl in E. frame_cases E. frame_done.
  - destruct (search_knowledge_try s) as [e|s'] eqn:E; [frame_done|].
    unfold search_knowledge_try in E. simpl in E. frame_cases E. frame_done.
  - destruct (check_escalation_try s) as [e|s'] eqn:E; [frame_done|].
    unfold check_escalation_try in E. simpl in E. frame_cases E. frame_done.
  - destruct (generate_resolution_try s) as [e|s'] eqn:E; [frame_done|].
    unfold generate_resolution_try in E. simpl in E. frame_cases E. frame_done.
  - destruct (escalate_ticket_try s) as [e|s'] eqn:E; [frame_done|].
    unfold escalate_ticket_try in E. simpl in E. frame_cases E. frame_done.
  - simpl. frame_done.
Qed.

Lemma after_sets_own_field (s : SupportWorkflowState) :
  st_classification (after classify s) <> None
  /\ st_escalation_decision (after check_escalation s) <> None
  /\ st_resolution (after generate_resolution_node s) <> None
  /\ st_resolution (after escalate_ticket s) <> None.
Proof.
  rewrite !after_boundary. repeat split.
  - destruct (classify_try s) as [e|s'] eqn:E; [discriminate|].
    unfold classify_try in E. simpl in E. frame_cases E. discriminate.
  - destruct (check_escalation_try s) as [e|s'] eqn:E; [discriminate|].
    unfold check_escalation_try in E. simpl in E. frame_cases E. discriminate.
  - destruct (generate_resolution_try s) as [e|s'] eqn:E; [discriminate|].
    unfold generate_resolution_try in E. simpl in E. frame_cases E. discriminate.
  - destruct (escalate_ticket_try s) as [e|s'] eqn:E; [discriminate|].
    unfold escalate_ticket_try in E. simpl in E. frame_cases E. discriminate.
Qed.

Lemma errors_grow_by_one (n : Node) (s : SupportWorkflowState) :
  (List.length (st_error_messages s) <= List.length (st_error_messages (after n s))
   <= S (List.length (st_error_messages s)))%nat.
Proof.
  destruct (errors_grow _ _ _ (after_same_but n s)) as [H|[msg [_ H]]];
    rewrite H; [lia|]. rewrite List.length_app. simpl. lia.
Qed.

End WorkflowFrames.

Section WorkflowRuns.
Context `{agents : Agents}.

(** X19.  Every run fills the state: whatever the agents do, the final
    state holds a classification, an escalation decision and a resolution,
    and at most four error messages -- one per stage that ran, the finalize
    step adding none. *)
Theorem every_run_fills_the_state (ticket : CustomerTicket) :
  exists final,
    process_ticket ticket = inr (FinalState final)
    /\ st_classification final <> None
    /\ st_escalation_decision final <> None
    /\ st_resolution final <> None
    /\ (List.length (st_error_messages final) <= 4)%nat.
Proof.
  exists (final_state ticket). split; [apply process_ticket_returns|].
  unfold final_state.
  set (s0 := initial_state ticket).
  set (s1 := after classify s0).
  set (s2 := after search_knowledge s1).
  set (s3 := after check_escalation s2).
  set (s4 := after (branch_node s3) s3).
  pose proof (after_same_but search_knowledge s1) as F2. fold s2 in F2.
  pose proof (after_same_but check_escalation s2) as F3. fold s3 in F3.
  pose proof (after_same_but (branch_node s3) s3) as F4. fold s4 in F4.
  pose proof (after_same_but finalize s4) as F5.
  assert (Hb : branch_node s3 = escalate_ticket
               \/ branch_node s3 = generate_resolution_node)
    by (unfold branch_node; destruct (_ =? _); auto).
  split; [|split; [|split]].
  - rewrite (keeps_classification _ _ _ F5) by discriminate.
    rewrite (keeps_classification _ _ _ F4)
      by (destruct Hb as [-> | ->]; discriminate).
    rewrite (keeps_classification _ _ _ F3) by discriminate.
    rewrite (keeps_classification _ _ _ F2) by discriminate.
    apply (after_sets_own_field s0).
  - rewrite (keeps_escalation _ _ _ F5) by discriminate.
    rewrite (keeps_escalation _ _ _ F4)
      by (destruct Hb as [-> | ->]; discriminate).
    apply (after_sets_own_field s2).
  - rewrite (keeps_resolution _ _ _ F5) by discriminate.
    subst s4. destruct Hb as [-> | ->]; apply (after_sets_own_field s3).
  - pose proof (errors_grow_by_one classify s0) as E1. fold s1 in E1.
    pose proof (errors_grow_by_one search_knowledge s1) as E2. fold s2 in E2.
    pose proof (errors_grow_by_one check_escalation s2) as E3. fold s3 in E3.
    pose proof (errors_grow_by_one (branch_node s3) s3) as E4. fold s4 in E4.
    destruct (errors_grow _ _ _ F5) as [E5|[msg [Hn _]]]; [|congruence].
    rewrite E5. simpl in E1. lia.
Qed.

(** X20.  The branch after the escalation check agrees with the decision
    the final state reports: the run goes through [escalate_ticket] exactly
    when the stored decision says to escalate, and through
    [generate_resolution] exactly when it says not to; it never visits
    both.  A failure of the escalation check itself always sends the run
    through [escalate_ticket]. *)
Theorem branch_agrees_with_final_decision (ticket : CustomerTicket) :
  let final := final_state ticket in
  let checked := after search_knowledge (after classify (initial_state ticket)) in
  (In escalate_ticket (visited_nodes ticket)
   <-> option_map s_should_escalate (st_escalation_decision final) = Some true)
  /\ (In generate_resolution_node (visited_nodes ticket)
      <-> option_map s_should_escalate (st_escalation_decision final)
          = Some false)
  /\ (forall e, check_escalation_try checked = inl e ->
                In escalate_ticket (visited_nodes ticket)
                /\ option_map s_reason (st_escalation_decision final)
                   = Some ("Escalation check failed: " ++ e)).
Proof.
  intros final checked. subst final. unfold final_state, visited_nodes.
  fold checked.
  set (s3 := after check_escalation checked).
  set (s4 := after (branch_node s3) s3).
  pose proof (after_same_but (branch_node s3) s3) as F4. fold s4 in F4.
  pose proof (after_same_but finalize s4) as F5.
  assert (Hb : branch_node s3 = escalate_ticket
               \/ branch_node s3 = generate_resolution_node)
    by (unfold branch_node; destruct (_ =? _); auto).
  assert (Hkeep : st_escalation_decision (after finalize s4)
                  = st_escalation_decision s3).
  { rewrite (keeps_escalation _ _ _ F5) by discriminate.
    apply (keeps_escalation _ _ _ F4). destruct Hb as [-> | ->]; discriminate. }
  rewrite Hkeep.
  assert (Hset : st_escalation_decision s3 <> None)
    by apply (after_sets_own_field checked).
  assert (Hbranch :
            (branch_node s3 = escalate_ticket
             <-> option_map s_should_escalate (st_escalation_decision s3)
                 = Some true)
            /\ (branch_node s3 = generate_resolution_node
                <-> option_map s_should_escalate (st_escalation_decision s3)
                    = Some false)).
  { unfold branch_node, _should_escalate.
    destruct (st_escalation_decision s3) as [d|]; [|congruence].
    simpl. destruct (s_should_escalate d); simpl;
      split; split; intros H; try reflexivity; discriminate H. }
  destruct Hbranch as [Hesc Hres].
  split; [|split].
  - rewrite <- Hesc. simpl. split.
    + intros [H|[H|[H|[H|[H|[]]]]]]; try discriminate H. auto.
    + intros ->. auto.
  - rewrite <- Hres. simpl. split.
    + intros [H|[H|[H|[H|[H|[]]]]]]; try discriminate H. auto.
    + intros ->. auto.
  - intros e He.
    assert (Hs3 : s3 = check_escalation_except e checked)
      by (subst s3; rewrite after_boundary, He; reflexivity).
    split.
    + assert (Hnode : branch_node s3 = escalate_ticket)
        by (apply Hesc; rewrite Hs3; reflexivity).
      rewrite Hnode. simpl. auto.
    + rewrite Hs3. reflexivity.
Qed.

End WorkflowRuns.

Lemma new_ClassificationResult_valid (c : TicketCategory) (p : TicketPriority)
    (conf : Q) (why : string) (r : ClassificationResult) :
  new_ClassificationResult c p conf why = inr r ->
  r = {| category := c; priority := p; confidence := conf; reasoning := why |}
  /\ 0 <= conf <= 1.
Proof.
  unfold new_ClassificationResult.
  destruct (Qleb 0 conf) eqn:E0; [|discriminate].
  destruct (Qleb conf 1) eqn:E1; [|discriminate].
  simpl. intros H. injection H as <-.
  split; [reflexivity|]. split; apply Qleb_true; assumption.
Qed.

Lemma classify_ticket_valid `{llm : LLMService} (self : ClassifierAgent)
    (ticket : CustomerTicket) (r : ClassificationResult) :
  classify_ticket self ticket = inr r -> 0 <= confidence r <= 1.
Proof.
  unfold classify_ticket.
  destruct (llm_classify_ticket _ _) as [e|a]; simpl.
  - intros H. injection H as <-. simpl. lra.
  - destruct (classification_of_dict _) as [e|r'] eqn:E; simpl.
    + intros H. injection H as <-. simpl. lra.
    + intros H. injection H as <-. unfold classification_of_dict in E.
      destruct (TicketCategory_of _) as [|c]; [discriminate|].
      destruct (TicketPriority_of _) as [|p]; [discriminate|].
      simpl in E. apply new_ClassificationResult_valid in E.
      destruct E as [-> E]. exact E.
Qed.

Section StateConversions.
Context `{agents : Agents}.

Lemma stored_classification_converts (state : SupportWorkflowState)
    (r : ClassificationResult) (i : option Insights) :
  0 <= confidence r <= 1 ->
  st_classification state
  = Some {| c_category := category_value (category r);
            c_priority := priority_value (priority r);
            c_confidence := confidence r;
            c_reasoning := reasoning r;
            c_insights := i |} ->
  classification_object state = inr r.
Proof.
  intros [H0 H1] Hs. unfold classification_object. rewrite Hs. simpl.
  rewrite TicketCategory_of_value. simpl.
  rewrite TicketPriority_of_value. simpl.
  unfold new_ClassificationResult.
  apply Qleb_true in H0. apply Qleb_true in H1. rewrite H0, H1.
  destruct r; reflexivity.
Qed.

(** X21.  What a stage stores can be read back by the next one.  The
    classification the classify stage leaves -- the classifier's result,
    when its confidence is in [0, 1], or the stage's own default -- converts
    back to the same object, so the conversion of a later stage does not
    fail.  The search results convert back with score and relevance intact,
    but without the article's tags, dates, resolution count and rating. *)
Theorem state_round_trip (state : SupportWorkflowState) :
  (forall r i,
      agent_classify_ticket (st_ticket state) = inr r ->
      agent_get_classification_insights (st_ticket state) = inr i ->
      0 <= confidence r <= 1 ->
      classification_object (after classify state) = inr r)
  /\ (forall e,
         classify_try state = inl e ->
         classification_object (after classify state)
         = inr (fallback_classification e))
  /\ (forall c results summary,
         classification_object state = inr c ->
         agent_search_knowledge_base (st_ticket state) c "hybrid" = inr results ->
         agent_get_article_summary results = inr summary ->
         search_result_objects (after search_knowledge state)
         = map stored_fields results)
  /\ (forall e,
         search_knowledge_try state = inl e ->
         search_result_objects (after search_knowledge state) = []).
Proof.
  rewrite !after_boundary. split; [|split; [|split]].
  - intros r i Hr Hi Hconf. unfold classify_try. rewrite Hr, Hi. simpl.
    apply (stored_classification_converts _ r (Some i) Hconf). reflexivity.
  - intros e He. rewrite He.
    apply (stored_classification_converts _ (fallback_classification e) None).
    + simpl. lra.
    + reflexivity.
  - intros c results summary Hc Hr Hs. unfold search_knowledge_try.
    rewrite Hc. simpl. rewrite Hr. simpl. rewrite Hs. simpl.
    unfold search_result_objects. simpl. rewrite map_map. reflexivity.
  - intros e He. rewrite He. reflexivity.
Qed.

End StateConversions.

Lemma state_round_trip_witness :
  classification_object
    (after (agents := Samples.broken_writer_agents false) classify
       (initial_state Samples.calm_ticket))
  = inr Samples.general_classification.
Proof.
  apply (proj1 (state_round_trip (agents := Samples.broken_writer_agents false)
                  (initial_state Samples.calm_ticket))
           Samples.general_classification Samples.no_insights
           eq_refl eq_refl).
  simpl. lra.
Defined.

Lemma branch_agrees_with_final_decision_witness :
  In escalate_ticket
     (visited_nodes (agents := Samples.broken_agents) Samples.calm_ticket).
Proof.
  exact (proj1 (proj2 (proj2 (branch_agrees_with_final_decision
                                (agents := Samples.broken_agents)
                                Samples.calm_ticket))
                  "boom" eq_refl)).
Defined.

Section Pipeline.
Context `{llm : LLMService} `{emb : EmbeddingService}
        `{es : ElasticsearchService} `{clock : Clock}.
Variable insights : CustomerTicket -> exc Insights.
Variable article_summary : list SearchResult -> exc ArticleSummary.

Lemma pipeline_classification_converts (state : SupportWorkflowState) :
  exists c,
    classification_object
      (after (agents := pipeline_agents insights article_summary)
             classify state)
    = inr c.
Proof.
  rewrite after_boundary.
  destruct (classify_try (agents := pipeline_agents insights article_summary)
                         state) as [e|s'] eqn:E.
  - exists (fallback_classification e).
    apply (stored_classification_converts _ (fallback_classification e) None).
    + simpl. lra.
    + reflexivity.
  - unfold classify_try in E. simpl in E.
    destruct (classify_ticket classifier_agent (st_ticket state))
      as [e|r] eqn:Er; [discriminate E|].
    simpl in E. destruct (insights (st_ticket state)) as [e|i];
      [discriminate E|].
    simpl in E. injection E as <-. exists r.
    apply (stored_classification_converts _ r (Some i)).
    + exact (classify_ticket_valid _ _ _ Er).
    + reflexivity.
Qed.

Lemma classification_object_frame `{agents : Agents} (n : Node)
    (state : SupportWorkflowState) :
  n <> classify ->
  classification_object (after n state) = classification_object state.
Proof.
  intros Hn. unfold classification_object.
  rewrite (keeps_classification _ _ _ (after_same_but n state) Hn).
  reflexivity.
Qed.

Lemma escalation_reply_shape (ticket : CustomerTicket) (d : EscalationDecision) :
  match _generate_escalation_response ticket d with
  | inl _ => blank_name ticket
  | inr r => ~ blank_name ticket
             /\ agent_type r = "escalation" /\ r_confidence r = 0.9
  end.
Proof.
  pose proof (email_greeting_raises_iff ticket) as Hiff.
  unfold _generate_escalation_response.
  destruct (email_greeting ticket) as [e|g]; simpl.
  - apply Hiff. eauto.
  - split; [|split; reflexivity].
    intros Hb. apply Hiff in Hb. destruct Hb as [e He]. discriminate He.
Qed.

(** X22.  With the agents of the repository behind the workflow, a ticket
    whose text alone fires an escalation rule -- an escalation keyword, a
    legal or security word, two words of frustration, a mention of repeated
    attempts -- is always escalated, whatever the language model, the
    search index and the other collaborators answer or fail to answer: the
    run goes through [escalate_ticket] and the stored decision says to
    escalate.  The customer gets the escalation reply (confidence 0.9),
    except when the customer name holds white space only: then the reply
    cannot be built and the stage's stock escalation text is stored, with
    one error recorded for it. *)
Theorem text_rule_forces_escalation (ticket : CustomerTicket) :
  text_rule_fires ticket = true ->
  let final :=
    final_state (agents := pipeline_agents insights article_summary) ticket in
  visited_nodes (agents := pipeline_agents insights article_summary) ticket
  = [classify; search_knowledge; check_escalation; escalate_ticket; finalize]
  /\ option_map s_should_escalate (st_escalation_decision final) = Some true
  /\ exists r,
       st_resolution final = Some r
       /\ (~ blank_name ticket ->
           rs_agent_type r = "escalation" /\ rs_confidence r = 0.9)
       /\ (blank_name ticket ->
           r = escalation_fallback ticket
           /\ exists e, In ("Escalation failed: " ++ e)
                           (st_error_messages final)).
Proof.
  intros Hfire final. subst final. unfold final_state, visited_nodes.
  set (s0 := initial_state ticket).
  set (s1 := after (agents := pipeline_agents insights article_summary)
                   classify s0).
  set (s2 := after (agents := pipeline_agents insights article_summary)
                   search_knowledge s1).
  set (s3 := after (agents := pipeline_agents insights article_summary)
                   check_escalation s2).
  assert (Ht2 : st_ticket s2 = ticket)
    by (subst s2 s1; rewrite !after_keeps_ticket; reflexivity).
  assert (Ht3 : st_ticket s3 = ticket)
    by (subst s3; rewrite after_keeps_ticket; exact Ht2).
  destruct (pipeline_classification_converts s0) as [c Hc]. fold s1 in Hc.
  assert (Hc2 : classification_object s2 = inr c)
    by (subst s2; rewrite classification_object_frame by discriminate;
        exact Hc).
  assert (Hc3 : classification_object s3 = inr c)
    by (subst s3; rewrite classification_object_frame by discriminate;
        exact Hc2).
  (* the escalation check stores a decision to escalate *)
  assert (Hd : exists d, st_escalation_decision s3 = Some d
                         /\ s_should_escalate d = true).
  { subst s3. rewrite after_boundary.
    destruct (check_escalation_try
                (agents := pipeline_agents insights article_summary) s2)
      as [e|s'] eqn:E.
    - eexists. split; reflexivity.
    - unfold check_escalation_try in E. rewrite Hc2, Ht2 in E. simpl in E.
      destruct (fired_rule_escalates escalation_agent ticket c
                  (search_result_objects s2)) as [d [Hd Hesc]].
      { rewrite rules_closed_form. cbn [l_should_escalate].
        unfold text_rule_fires in Hfire.
        destruct (fires2 _ _), (fires3 _), (fires6 _), (fires7 _);
          try discriminate Hfire;
          rewrite ?orb_true_r; reflexivity. }
      rewrite Hd in E. simpl in E. injection E as <-.
      eexists. split; [reflexivity|]. exact Hesc. }
  destruct Hd as [d [Hd Hesc]].
  assert (Hb : branch_node s3 = escalate_ticket)
    by (unfold branch_node, _should_escalate; rewrite Hd, Hesc; reflexivity).
  rewrite Hb.
  set (s4 := after (agents := pipeline_agents insights article_summary)
                   escalate_ticket s3).
  pose proof (after_same_but (agents := pipeline_agents insights article_summary)
                escalate_ticket s3) as F4. fold s4 in F4.
  pose proof (after_same_but (agents := pipeline_agents insights article_summary)
                finalize s4) as F5.
  split; [reflexivity|]. split.
  { rewrite (keeps_escalation _ _ _ F5) by discriminate.
    rewrite (keeps_escalation _ _ _ F4) by discriminate.
    rewrite Hd. simpl. now rewrite Hesc. }
  assert (H4 : exists r,
             st_resolution s4 = Some r
             /\ (~ blank_name ticket ->
                 rs_agent_type r = "escalation" /\ rs_confidence r = 0.9)
             /\ (blank_name ticket ->
                 r = escalation_fallback ticket
                 /\ exists e, In ("Escalation failed: " ++ e)
                                 (st_error_messages s4))).
  { subst s4. rewrite after_boundary.
    unfold escalate_ticket_try, escalation_object.
    rewrite Hd, Hc3, Ht3. simpl.
    match goal with
    | |- context [_generate_escalation_response ticket ?dec] =>
        pose proof (escalation_reply_shape ticket dec) as Hshape;
        destruct (_generate_escalation_response ticket dec) as [e|r]
    end; simpl.
    - eexists. split; [reflexivity|]. split; [intros Hn; contradiction|].
      intros _. unfold escalate_ticket_except. simpl. rewrite Ht3.
      split; [reflexivity|]. exists e. apply in_or_app. right. left.
      reflexivity.
    - destruct Hshape as [Hn [Ha Hq]].
      eexists. split; [reflexivity|]. split; [|intros Hy; contradiction].
      intros _. simpl. split; assumption. }
  destruct H4 as [r [Hr [Hgood Hbad]]].
  exists r. rewrite (keeps_resolution _ _ _ F5) by discriminate.
  split; [exact Hr|]. split; [exact Hgood|].
  intros Hy. destruct (Hbad Hy) as [Hfb [e He]]. split; [exact Hfb|].
  exists e.
  destruct (errors_grow _ _ _ F5) as [E5|[msg [Hnf _]]]; [|congruence].
  rewrite E5. exact He.
Qed.

End Pipeline.

Lemma text_rule_forces_escalation_witness :
  text_rule_fires MoreSamples.named_ticket = true
  /\ visited_nodes
       (agents := pipeline_agents (llm := Samples.unreachable_llm)
                    (emb := Samples.constant_embedding)
                    (es := Samples.index_of [])
                    (clock := Samples.fixed_clock)
                    (fun _ => inr Samples.no_insights)
                    (fun _ => inr Samples.no_summary))
       MoreSamples.named_ticket
     = [classify; search_knowledge; check_escalation; escalate_ticket; finalize].
Proof.
  assert (H : text_rule_fires MoreSamples.named_ticket = true) by reflexivity.
  split; [exact H|].
  exact (proj1 (text_rule_forces_escalation
                  (llm := Samples.unreachable_llm)
                  (emb := Samples.constant_embedding)
                  (es := Samples.index_of [])
                  (clock := Samples.fixed_clock)
                  (fun _ => inr Samples.no_insights)
                  (fun _ => inr Samples.no_summary)
                  MoreSamples.named_ticket H)).
Defined.

(** ** The endpoint *)

Section EndpointProperties.
Context `{agents : Agents} `{clock : Clock} `{web : WebFramework}.

(** X23.  The endpoint never answers 404 and never marks a ticket as
    escalated.  For an unknown id the 404 raised inside the [try] is caught
    by the endpoint's own handler and comes out as a 500.  For a known id
    the endpoint succeeds, stores the resolution of the run, and sets the
    ticket's status to RESOLVED -- also when the run went through
    [escalate_ticket], since the finalize step has overwritten the workflow
    status by then.  Other tickets are left as they were. *)
Theorem endpoint_marks_every_run_resolved (db : Databases) (ticket_id : string) :
  (tickets_db db ticket_id = None ->
   process_ticket_endpoint db ticket_id
   = inl (HTTPException 500
            ("Failed to process ticket: "
             ++ http_exception_str 404 "Ticket not found")))
  /\ (forall ticket,
         tickets_db db ticket_id = Some ticket ->
         exists db' response,
           process_ticket_endpoint db ticket_id = inr (db', response)
           /\ data response = FinalState (final_state (stored_ticket ticket))
           /\ option_map status (tickets_db db' ticket_id) = Some RESOLVED
           /\ option_map stored_ticket (tickets_db db' ticket_id)
              = Some (stored_ticket ticket)
           /\ resolutions_db db' ticket_id
              = Some (st_resolution (final_state (stored_ticket ticket)))
           /\ (forall other, other <> ticket_id ->
                             tickets_db db' other = tickets_db db other
                             /\ resolutions_db db' other
                                = resolutions_db db other))
  /\ (forall e, process_ticket_endpoint db ticket_id = inl e ->
                exists detail, e = HTTPException 500 detail).
Proof.
  unfold process_ticket_endpoint, process_ticket_try.
  split; [|split].
  - intros ->. reflexivity.
  - intros ticket ->. rewrite process_ticket_returns.
    eexists. eexists. split; [reflexivity|]. cbn [data tickets_db resolutions_db].
    unfold assign. rewrite String.eqb_refl. cbn [option_map status stored_ticket].
    split; [reflexivity|]. split.
    { reflexivity. }
    split; [reflexivity|]. split; [reflexivity|].
    intros other Hother. apply String.eqb_neq in Hother. rewrite Hother.
    split; reflexivity.
  - intros e. destruct (tickets_db db ticket_id) as [ticket|].
    + rewrite process_ticket_returns. discriminate.
    + intros H. injection H as <-. eexists. reflexivity.
Qed.

End EndpointProperties.

Lemma endpoint_marks_every_run_resolved_witness :
  exists db' response,
    process_ticket_endpoint (agents := Samples.broken_agents)
      (clock := Samples.fixed_clock) (web := MoreSamples.plain_web)
      MoreSamples.one_ticket_db "T-42"
    = inr (db', response)
    /\ option_map status (tickets_db db' "T-42") = Some RESOLVED.
Proof.
  destruct (proj1 (proj2 (endpoint_marks_every_run_resolved
                            (agents := Samples.broken_agents)
                            (clock := Samples.fixed_clock)
                            (web := MoreSamples.plain_web)
                            MoreSamples.one_ticket_db "T-42"))
              _ eq_refl)
    as [db' [response [H1 [_ [H3 _]]]]].
  exists db', response. split; assumption.
Defined.

(** ** The escalation report *)

Lemma bump_keys (key k : string) (types : list (string * nat)) :
  In k (map fst (bump key types)) <-> k = key \/ In k (map fst types).
Proof.
  induction types as [|[k' n] rest IH]; simpl.
  - intuition.
  - destruct (String.eqb_spec k' key) as [->|Hne]; simpl; [intuition|].
    rewrite IH. intuition.
Qed.

Lemma bump_NoDup (key : string) (types : list (string * nat)) :
  NoDup (map fst types) -> NoDup (map fst (bump key types)).
Proof.
  induction types as [|[k n] rest IH]; simpl; intros H.
  - constructor; [intros []|constructor].
  - inversion H as [|? ? Hnotin Hrest]; subst.
    destruct (String.eqb_spec k key) as [->|Hne]; simpl.
    + constructor; assumption.
    + constructor; [|apply IH; assumption].
      rewrite bump_keys. intros [->|Hin]; [congruence | contradiction].
Qed.

Lemma bump_count (key k : string) (types : list (string * nat)) :
  count_of k (bump key types)
  = if key =? k then S (count_of k types) else count_of k types.
Proof.
  induction types as [|[k' n] rest IH]; simpl.
  - destruct (key =? k); reflexivity.
  - destruct (String.eqb_spec k' key) as [->|Hne]; simpl.
    + destruct (key =? k); reflexivity.
    + destruct (String.eqb_spec k' k) as [->|Hne'].
      * destruct (String.eqb_spec key k); [congruence | reflexivity].
      * exact IH.
Qed.

Lemma bump_total (key : string) (types : list (string * nat)) :
  total_count (bump key types) = S (total_count types).
Proof.
  unfold total_count.
  induction types as [|[k n] rest IH]; simpl; [reflexivity|].
  destruct (k =? key); simpl; [reflexivity|]. rewrite IH. lia.
Qed.

Lemma bump_positive (key : string) (types : list (string * nat)) :
  Forall (fun entry => (1 <= snd entry)%nat) types ->
  Forall (fun entry => (1 <= snd entry)%nat) (bump key types).
Proof.
  induction types as [|[k n] rest IH]; simpl; intros H.
  - constructor; [simpl; lia | constructor].
  - inversion H; subst. destruct (k =? key); constructor; simpl in *; auto; lia.
Qed.

Lemma group_by_type_invariant (decisions : list EscalationDecision) :
  forall types,
    NoDup (map fst types) ->
    Forall (fun entry => (1 <= snd entry)%nat) types ->
    let result := group_by_type decisions types in
    NoDup (map fst result)
    /\ Forall (fun entry => (1 <= snd entry)%nat) result
    /\ (forall key, count_of key result
                    = (count_of key types
                       + List.length (filter (counted_as key) decisions))%nat)
    /\ (total_count result + List.length (filter untyped decisions)
        = total_count types
          + List.length (filter should_escalate decisions))%nat.
Proof.
  induction decisions as [|d rest IH]; intros types Hnd Hpos.
  - simpl. repeat split; auto; intros; lia.
  - unfold group_by_type. simpl fold_left.
    fold (group_by_type rest
            (if should_escalate d && is_truthy_str (escalation_type d)
             then bump (from_option "" (escalation_type d)) types
             else types)).
    unfold counted_as, untyped. simpl filter.
    destruct (should_escalate d); simpl andb.
    + destruct (is_truthy_str (escalation_type d)); simpl andb; simpl negb.
      * destruct (IH (bump (from_option "" (escalation_type d)) types)
                    (bump_NoDup _ _ Hnd) (bump_positive _ _ Hpos))
          as [H1 [H2 [H3 H4]]].
        split; [exact H1|]. split; [exact H2|]. split.
        -- intros key. rewrite H3, bump_count.
           unfold counted_as.
           destruct (from_option "" (escalation_type d) =? key); simpl; lia.
        -- unfold untyped in H4. rewrite bump_total in H4. simpl. lia.
      * destruct (IH types Hnd Hpos) as [H1 [H2 [H3 H4]]].
        split; [exact H1|]. split; [exact H2|]. split.
        -- intros key. rewrite H3. reflexivity.
        -- unfold untyped in H4. simpl. lia.
    + destruct (IH types Hnd Hpos) as [H1 [H2 [H3 H4]]].
      split; [exact H1|]. split; [exact H2|]. split.
      * intros key. rewrite H3. reflexivity.
      * unfold untyped in H4. exact H4.
Qed.

(** X24.  The escalation report of a non-empty list of decisions.  The
    histogram of escalation types has one entry per type, each at least 1,
    and the entry of a type is the number of escalated decisions of that
    type.  Escalated decisions without a type (or with the empty string for
    one) are in [escalated_tickets] and in no entry: the entries add up to
    [escalated_tickets] minus their number, so to [escalated_tickets]
    exactly when every escalated decision carries a type. *)
Theorem escalation_report_counts `{rounding : Rounding}
    (decisions : list EscalationDecision) :
  decisions <> [] ->
  exists r,
    get_escalation_metrics decisions = Report r
    /\ total_tickets r = List.length decisions
    /\ (escalated_tickets r <= total_tickets r)%nat
    /\ NoDup (map fst (escalation_types r))
    /\ Forall (fun entry => (1 <= snd entry)%nat) (escalation_types r)
    /\ (forall key, count_of key (escalation_types r)
                    = List.length (filter (counted_as key) decisions))
    /\ (total_count (escalation_types r)
        + List.length (filter untyped decisions)
        = escalated_tickets r)%nat.
Proof.
  intros Hne. destruct decisions as [|d rest]; [congruence|].
  eexists. split; [reflexivity|].
  cbn [total_tickets escalated_tickets escalation_types].
  destruct (group_by_type_invariant (d :: rest) [] (NoDup_nil _) (Forall_nil _))
    as [H1 [H2 [H3 H4]]].
  split; [reflexivity|]. split; [apply filter_length_le|].
  split; [exact H1|]. split; [exact H2|]. split.
  - intros key. rewrite H3. reflexivity.
  - exact H4.
Qed.

Lemma escalation_report_counts_witness :
  [MoreSamples.standard_escalation] <> []
  /\ exists r,
       get_escalation_metrics (rounding := MoreSamples.half_even)
         [MoreSamples.standard_escalation]
       = Report r
       /\ total_tickets r = 1%nat.
Proof.
  assert (H : [MoreSamples.standard_escalation] <> []) by discriminate.
  split; [exact H|].
  destruct (escalation_report_counts (rounding := MoreSamples.half_even)
              [MoreSamples.standard_escalation] H)
    as [r [H1 [H2 _]]].
  exists r. split; assumption.
Defined.

(** ** The text that is embedded *)

Lemma length_substring_exact (m : nat) (s : string) :
  (m <= String.length s)%nat ->
  String.length (String.substring 0 m s) = m.
Proof.
  revert m; induction s as [|d s IH]; intros m H.
  - destruct m; simpl in *; [reflexivity | lia].
  - destruct m as [|m]; simpl in *; [reflexivity|]. rewrite IH; lia.
Qed.

Lemma substring_of_app (a b : string) :
  String.substring 0 (String.length a) (a ++ b) = a.
Proof.
  induction a as [|c a IH]; simpl.
  - destruct b; reflexivity.
  - now rewrite IH.
Qed.

Lemma join_cons (sep w : string) (ws : list string) :
  ws <> [] -> PyStr.join sep (w :: ws) = w ++ sep ++ PyStr.join sep ws.
Proof. destruct ws; [congruence | reflexivity]. Qed.

Lemma app_empty_r (s : string) : s ++ "" = s.
Proof. induction s as [|c s IH]; simpl; [reflexivity | now rewrite IH]. Qed.

(** Splitting a single-spaced text and joining the words gives it back. *)
Lemma join_split_aux (s : string) :
  forall word,
    single_spaced_from (negb (PyStr.truthy word)) s = true ->
    PyStr.join " " (PyText.split_ws_aux s word) = word ++ s.
Proof.
  induction s as [|c s IH]; intros word H.
  - simpl. destruct word; simpl in *; [reflexivity|].
    now rewrite app_empty_r.
  - simpl in H |- *. destruct (PyText.is_space c) eqn:Ec.
    + apply andb_true_iff in H. destruct H as [H Hrest].
      apply andb_true_iff in H. destruct H as [Hc Hword].
      apply Ascii.eqb_eq in Hc. subst c.
      destruct word as [|x word]; [discriminate Hword|]. simpl PyStr.truthy.
      cbv iota.
      specialize (IH EmptyString Hrest). simpl in IH.
      assert (Hne : PyText.split_ws_aux s "" <> []).
      { intros E. rewrite E in IH. destruct s; [discriminate Hrest|].
        discriminate IH. }
      rewrite join_cons by exact Hne. rewrite IH. reflexivity.
    + rewrite IH.
      * rewrite string_app_assoc. reflexivity.
      * destruct word; exact H.
Qed.

Lemma join_split (s : string) :
  single_spaced s = true -> PyStr.join " " (PyText.split_ws s) = s.
Proof.
  destruct s as [|c s]; [reflexivity|]. intros H.
  exact (join_split_aux (String c s) EmptyString H).
Qed.

Lemma single_spaced_word (w rest : string) (after_space : bool) :
  (forall c, In c (chars w) -> PyText.is_space c = false) ->
  single_spaced_from after_space (w ++ rest)
  = single_spaced_from (if PyStr.truthy w then false else after_space) rest.
Proof.
  revert after_space; induction w as [|c w IH]; intros after_space H.
  - reflexivity.
  - simpl. rewrite (H c (or_introl eq_refl)).
    rewrite IH by (intros d Hd; apply H; right; exact Hd).
    destruct w; reflexivity.
Qed.

Lemma single_spaced_join (ws : list string) :
  (forall w, In w ws ->
             w <> EmptyString
             /\ forall c, In c (chars w) -> PyText.is_space c = false) ->
  ws <> [] ->
  single_spaced_from true (PyStr.join " " ws) = true.
Proof.
  induction ws as [|w ws IH]; intros H Hne; [congruence|].
  destruct (H w (or_introl eq_refl)) as [Hw Hchars].
  destruct ws as [|w' ws].
  - unfold PyStr.join. simpl String.concat.
    rewrite <- (app_empty_r w), (single_spaced_word w "" true Hchars).
    destruct w; [congruence | reflexivity].
  - rewrite join_cons by discriminate.
    rewrite (single_spaced_word w _ true Hchars).
    destruct w as [|x w]; [congruence|]. simpl PyStr.truthy. cbv iota.
    change (" " ++ PyStr.join " " (w' :: ws))
      with (String " "%char (PyStr.join " " (w' :: ws))).
    cbn [single_spaced_from]. change (PyText.is_space " ") with true.
    cbv iota. change (Ascii.eqb " " " ") with true. cbn [andb negb].
    apply IH; [|discriminate].
    intros v Hv. apply H. right. exact Hv.
Qed.

Lemma collapsed_is_single_spaced (text : string) :
  single_spaced (PyStr.join " " (PyText.split_ws text)) = true.
Proof.
  destruct (PyText.split_ws text) as [|w ws] eqn:E; [reflexivity|].
  assert (H : single_spaced_from true (PyStr.join " " (w :: ws)) = true).
  { apply single_spaced_join; [|discriminate].
    intros v Hv. apply (split_ws_words text). rewrite E. exact Hv. }
  unfold single_spaced. destruct (PyStr.join " " (w :: ws)); [reflexivity|].
  exact H.
Qed.

Lemma truncated_is_single_spaced (n : nat) :
  forall s after_space,
    single_spaced_from after_space s = true ->
    single_spaced_from after_space (String.substring 0 n s ++ "...") = true.
Proof.
  induction n as [|n IH]; intros s after_space H.
  - destruct s; reflexivity.
  - destruct s as [|c s]; [reflexivity|].
    change (String.substring 0 (S n) (String c s))
      with (String c (String.substring 0 n s)).
    simpl in H |- *. destruct (PyText.is_space c).
    + apply andb_true_iff in H. destruct H as [H Hrest]. rewrite H.
      apply IH. exact Hrest.
    + apply IH. exact H.
Qed.

(** X25.  Preparing a text for embedding is idempotent, and its result is
    single-spaced.  The result can be longer than the limit of 500 the
    function names: a text that is cut is 503 characters long, the first
    500 and the three dots, and no result is longer than that. *)
Theorem prepare_text_for_embedding_idempotent (text : string) :
  let prepared := prepare_text_for_embedding text in
  prepare_text_for_embedding prepared = prepared
  /\ single_spaced prepared = true
  /\ (String.length prepared <= 503)%nat
  /\ ((500 < String.length (PyStr.join " " (PyText.split_ws text)))%nat ->
      String.length prepared = 503%nat).
Proof.
  intros prepared. subst prepared. unfold prepare_text_for_embedding.
  set (collapsed := PyStr.join " " (PyText.split_ws text)).
  pose proof (collapsed_is_single_spaced text) as Hc. fold collapsed in Hc.
  destruct (Nat.ltb_spec 500 (String.length collapsed)) as [Hlong|Hshort].
  - set (cut := String.substring 0 500 collapsed).
    assert (Hlen : String.length cut = 500%nat)
      by (apply length_substring_exact; lia).
    assert (Hcut : single_spaced (cut ++ "...") = true).
    { destruct collapsed as [|c s] eqn:E; [simpl in Hlong; lia|].
      unfold single_spaced in Hc.
      pose proof (truncated_is_single_spaced 500 (String c s) true Hc) as H.
      fold cut in H. unfold single_spaced.
      destruct (cut ++ "..."); [reflexivity | exact H]. }
    assert (Htotal : String.length (cut ++ "...") = 503%nat)
      by (rewrite string_length_app, Hlen; reflexivity).
    rewrite (join_split _ Hcut), Htotal.
    destruct (Nat.ltb_spec 500 503) as [_|Habs]; [|lia].
    split; [|split; [exact Hcut|split; [lia|intros _; reflexivity]]].
    rewrite <- Hlen at 1. rewrite substring_of_app. reflexivity.
  - rewrite (join_split _ Hc).
    destruct (Nat.ltb_spec 500 (String.length collapsed)) as [Habs|_]; [lia|].
    split; [reflexivity|]. split; [exact Hc|]. split; [lia|]. intros H. lia.
Qed.

Lemma prepare_text_for_embedding_idempotent_witness :
  (500 < String.length
           (PyStr.join " " (PyText.split_ws MoreSamples.long_text)))%nat
  /\ String.length (prepare_text_for_embedding MoreSamples.long_text)
     = 503%nat.
Proof.
  assert (H : (500 < String.length
                       (PyStr.join " " (PyText.split_ws MoreSamples.long_text)))%nat)
    by (apply Nat.ltb_lt; vm_compute; reflexivity).
  split; [exact H|].
  exact (proj2 (proj2 (proj2 (prepare_text_for_embedding_idempotent
                                MoreSamples.long_text))) H).
Defined.
